(** * TransformerAgent: a shallow embedding of
    [parlai/agents/transformer/transformer.py]

    The agent is a Python object that wraps a torch model, an optimizer, a
    dictionary and the bookkeeping of a dialogue.  Its methods are embedded as
    computations over an explicit state (the agent and its environment) that
    may raise a Python exception.  What lives in torch and in the parts of
    ParlAI outside this file (floats, tensors' numerics, the dictionary, the
    padding helpers) is taken through three interfaces, [PyFloat],
    [ParlaiCore] and [Torch], and what the operating system decides (which
    file a path names, whether a path can be opened for writing) through a
    fourth, [PyOS]; the agent's own control flow, its dictionaries, lists and
    exceptions are written out. *)

From stdpp Require Import gmap strings list pretty.
From Stdlib Require Import ZArith.

Local Open Scope Z_scope.

(** ** Exceptions and results *)

Inductive exn : Type :=
| RuntimeError (msg : string)
| NameError (name : string)
| ValueError (msg : string)
| AttributeError (attr : string)
| KeyError (key : string)
| IndexError (msg : string)
| TypeError (msg : string)
| OverflowError (msg : string)
| OSError (msg : string).

Inductive outcome (A : Type) : Type :=
| Ok (a : A)
| Raise (e : exn).
Arguments Ok {A} a.
Arguments Raise {A} e.

Definition is_ok {A} (r : outcome A) : bool :=
  match r with Ok _ => true | Raise _ => false end.

Definition outcome_map {A B} (f : A -> B) (r : outcome A) : outcome B :=
  match r with Ok a => Ok (f a) | Raise e => Raise e end.

(** A computation reads and writes a state [S] and returns or raises; the
    state written before a [raise] stays written, as in Python. *)
Definition M (S A : Type) : Type := S -> outcome A * S.

Definition ret {S A} (a : A) : M S A := fun s => (Ok a, s).
Definition raise {S A} (e : exn) : M S A := fun s => (Raise e, s).
Definition bind {S A B} (c : M S A) (k : A -> M S B) : M S B :=
  fun s => match c s with
           | (Ok a, s') => k a s'
           | (Raise e, s') => (Raise e, s')
           end.
Definition get {S} : M S S := fun s => (Ok s, s).
Definition put {S} (s : S) : M S unit := fun _ => (Ok tt, s).
Definition modify {S} (f : S -> S) : M S unit := fun s => (Ok tt, f s).
Definition lift {S A} (r : outcome A) : M S A := fun s => (r, s).

Declare Scope py_scope.
Delimit Scope py_scope with py.
Notation "'do' x <- c ; k" := (bind c (fun x => k))
  (at level 10, x name, c at level 100, k at level 200) : py_scope.
Notation "c ;; k" := (bind c (fun _ => k))
  (at level 100, k at level 200, right associativity) : py_scope.
Local Open Scope py_scope.

(** ** Strings *)

(** [needle in hay] on Python strings. *)
Fixpoint str_contains (needle hay : string) : bool :=
  String.prefix needle hay
  || match hay with
     | EmptyString => false
     | String _ rest => str_contains needle rest
     end.

(** [s.endswith(suffix)] *)
Definition str_endswith (suffix s : string) : bool :=
  String.prefix (String.rev suffix) (String.rev s).

(** Truth value of a string used as a condition: the empty string is falsy. *)
Definition str_truthy (s : string) : bool :=
  match s with EmptyString => false | _ => true end.

(** ** Python values that reach the agent's dictionaries *)

Inductive pyval (F : Type) : Type :=
| PNone
| PBool (b : bool)
| PInt (z : Z)
| PFloat (x : F)
| PStr (s : string)
| PList (l : list string).
Arguments PNone {F}.
Arguments PBool {F} b.
Arguments PInt {F} z.
Arguments PFloat {F} x.
Arguments PStr {F} s.
Arguments PList {F} l.

(** Python's floats: the operations the agent applies to them.  [math_exp]
    answers [None] where [math.exp] raises [OverflowError]. *)
Class PyFloat (F : Type) : Type := {
  f_zero : F;                    (* 0.0 *)
  f_inf : F;                     (* float('inf') *)
  f_1e_7 : F;                    (* 1e-7 *)
  f_0_001 : F;                   (* 0.001 *)
  f_add : F -> F -> F;           (* x + y *)
  f_div_int : F -> Z -> F;       (* x / n, n a non-zero int in float range *)
  int_truediv : Z -> Z -> F;     (* m / n on ints, n non-zero *)
  f_is_zero : F -> bool;         (* x == 0 *)
  f_pos : F -> bool;             (* x > 0 *)
  math_exp : F -> option F;
}.

(** Truth value of a value used as a condition ([default or ...]). *)
Definition py_truthy {F} `{!PyFloat F} (v : pyval F) : bool :=
  match v with
  | PNone => false
  | PBool b => b
  | PInt z => negb (z =? 0)
  | PFloat x => negb (f_is_zero x)
  | PStr s => str_truthy s
  | PList l => match l with [] => false | _ => true end
  end.

(** [a or b] *)
Definition py_or {F} `{!PyFloat F} (a b : pyval F) : pyval F :=
  if py_truthy a then a else b.

(** ** The agent's data *)

(** [self.metrics]: a dict created by [__init__] with exactly these four keys;
    the loss is a float, the three counters are ints. *)
Record Metrics (F : Type) : Type := mkMetrics {
  loss : F;
  num_tokens : Z;
  correct_tokens : Z;
  total_skipped_batches : Z;
}.
Arguments mkMetrics {F}.
Arguments loss {F}.
Arguments num_tokens {F}.
Arguments correct_tokens {F}.
Arguments total_skipped_batches {F}.

(** [opt]: the options the agent reads.  A key read with [opt[...]] is a
    plain field, a key read with [opt.get(...)] is optional. *)
Record Opt (F : Type) : Type := mkOpt {
  o_truncate : Z;
  o_batchsize : nat;
  o_rank_candidates : bool;
  o_report_freq : option F;
  o_person_tokens : option bool;
  o_no_cuda : option bool;
  o_init_model : option string;
  o_model_file : option string;
  o_dict_file : option string;
  o_dict_tokenizer : option string;
  o_embedding_type : string;
  o_datatype : option string;
  o_gradient_clip : option F;
  o_learningrate : F;
  o_optimizer : string;
  o_momentum : F;
  o_history_replies : option string;
  o_label_smoothing : bool;
  o_src_tgt_weight_share : bool;
  o_tgt_prj_weight_share : bool;
}.
Arguments mkOpt {F}.
Arguments o_truncate {F}.
Arguments o_batchsize {F}.
Arguments o_rank_candidates {F}.
Arguments o_report_freq {F}.
Arguments o_person_tokens {F}.
Arguments o_no_cuda {F}.
Arguments o_init_model {F}.
Arguments o_model_file {F}.
Arguments o_dict_file {F}.
Arguments o_dict_tokenizer {F}.
Arguments o_embedding_type {F}.
Arguments o_datatype {F}.
Arguments o_gradient_clip {F}.
Arguments o_learningrate {F}.
Arguments o_optimizer {F}.
Arguments o_momentum {F}.
Arguments o_history_replies {F}.
Arguments o_label_smoothing {F}.
Arguments o_src_tgt_weight_share {F}.
Arguments o_tgt_prj_weight_share {F}.

(** An observation: the keys of the dict that the agent looks at. *)
Record Observation : Type := mkObs {
  ob_text : option string;
  ob_text2vec : option (list Z);
  ob_labels : option (list string);
  ob_eval_labels : option (list string);
  ob_label_candidates : option (list string);
  ob_preprocessed : bool;
}.

(** A reply is a dict from field names to values, [gmap string (pyval F)]. *)

(** A [torch.LongTensor] built from rows of ints, and whether it was moved to
    the GPU. *)
Record Tensor : Type := mkTensor {
  t_rows : list (list Z);
  t_cuda : bool;
}.

Definition rectangular (rows : list (list Z)) : bool :=
  match rows with
  | [] => true
  | r :: rs => forallb (fun r' => (length r' =? length r)%nat) rs
  end.

(** [torch.LongTensor(rows)] refuses rows of different lengths. *)
Definition LongTensor (rows : list (list Z)) : outcome Tensor :=
  if rectangular rows then Ok (mkTensor rows false)
  else Raise (ValueError "expected sequence of equal length").

Definition tensor_cuda (t : Tensor) : Tensor := mkTensor (t_rows t) true.

(** [t.shape[1]] *)
Definition shape1 (t : Tensor) : nat :=
  match t_rows t with [] => 0%nat | r :: _ => length r end.

(** [t.ne(null).long().sum().item()] *)
Definition count_ne (null : Z) (t : Tensor) : Z :=
  Z.of_nat (length (filter (fun i => i ≠ null) (concat (t_rows t)))).

(** What [PaddingUtils.pad_text] returns for a batch that has a valid example;
    for a batch without one it returns six [None]s. *)
Record PadOut : Type := mkPadOut {
  pad_xs : list (list Z);
  pad_ys : option (list (list Z));
  pad_labels : option (list string);
  pad_valid_inds : list nat;
}.

(** The parts of ParlAI that the agent calls and that live outside its file:
    [DictionaryAgent] (parlai.core.dict), [maintain_dialog_history],
    [PaddingUtils] and [round_sigfigs] (parlai.core.utils), and the base
    class [Agent] (parlai.core.agents). *)
Class ParlaiCore (F : Type) : Type := {
  Dictionary : Type;
  History : Type;
  Answer : Type;
  (* DictionaryAgent(opt) *)
  new_dictionary : Opt F -> Dictionary;
  dict_len : Dictionary -> Z;
  start_token : Dictionary -> string;
  end_token : Dictionary -> string;
  null_token : Dictionary -> string;
  (* dict[token] and dict[index] *)
  dict_index : Dictionary -> string -> Z;
  dict_token : Dictionary -> Z -> string;
  txt2vec : Dictionary -> string -> list Z;
  vec2txt : Dictionary -> list Z -> string;
  (* the empty history: [{}], and what [history.clear()] leaves *)
  history_empty : History;
  (* maintain_dialog_history(history, obs, reply, historyLength, useReplies,
     dict, useStartEndIndices): the new text2vec, and the history it updates
     in place *)
  maintain_dialog_history :
    History -> Observation -> option Answer -> option Z -> option string ->
    Dictionary -> bool -> outcome (list Z) * History;
  (* PaddingUtils.pad_text(observations, dict, end_idx, null_idx, dq,
     eval_labels, truncate); [None] stands for its six [None]s *)
  pad_text :
    list Observation -> Dictionary -> option Z -> Z -> bool -> bool ->
    option Z -> outcome (option PadOut);
  (* PaddingUtils.map_predictions(predictions, valid_inds, batch_reply,
     observations, dict, end_idx, report_freq, labels, answers, ys): it
     updates batch_reply and answers in place *)
  map_predictions :
    Tensor -> list nat -> list (gmap string (pyval F)) -> list Observation ->
    Dictionary -> Z -> pyval F -> option (list string) ->
    list (option Answer) -> option Tensor ->
    outcome unit * (list (gmap string (pyval F)) * list (option Answer));
  round_sigfigs : pyval F -> Z -> pyval F;
  (* the id that Agent.__init__ gives an agent *)
  base_id : string;
}.

(** The keyword arguments [__init__] passes to the optimizer class. *)
Record OptimKwargs (F : Type) : Type := mkKwargs {
  kw_lr : F;
  kw_momentum : option F;
  kw_nesterov : bool;
  kw_amsgrad : bool;
}.
Arguments mkKwargs {F}.
Arguments kw_lr {F}.
Arguments kw_momentum {F}.
Arguments kw_nesterov {F}.
Arguments kw_amsgrad {F}.

(** torch and the [Transformer] module of [.modules]: the model, the
    optimizer and the tensor computations, none of them in the agent's file.
    An operation that updates its object in place returns the new object. *)
Class Torch (F : Type) : Type := {
  Model : Type;
  ModelState : Type;
  Optimizer : Type;
  OptState : Type;
  Scores : Type;
  Logits : Type;
  Loss : Type;
  (* an object bound to a global name of the module *)
  PyObj : Type;
  cuda_available : bool;
  (* model_class(len(dict), opt) *)
  new_model : Z -> Opt F -> outcome Model;
  model_state_dict : Model -> ModelState;
  model_load_state_dict : Model -> ModelState -> outcome Model;
  model_longest_label : Model -> Z;
  model_cuda : Model -> Model;
  model_train : Model -> Model;
  model_eval : Model -> Model;
  (* the pre-trained embeddings copied into the model's lookup tables, and
     the embeddings frozen (requires_grad = False) *)
  preinit_embeddings : Opt F -> Model -> outcome Model;
  freeze_embeddings : Opt F -> Model -> Model;
  (* model(xs, ys, rank_during_training): (_preds, scores, cand_preds,
     seq_logit_view) *)
  model_forward :
    Model -> Tensor -> option Tensor -> bool ->
    outcome (Tensor * Scores * option (list (list Z)) * Logits);
  model_evaluate : Model -> option Tensor -> outcome Scores;
  cal_performance : Model -> Logits -> Tensor -> bool -> outcome (Loss * Z);
  loss_item : Loss -> F;
  (* loss /= target_tokens *)
  loss_div : Loss -> Z -> Loss;
  (* ((gold == _preds) * gold.ne(null)).sum().item() *)
  count_correct : Tensor -> Tensor -> Z -> outcome Z;
  (* loss.backward(): gradients accumulate in the model's parameters *)
  backward : Loss -> Model -> outcome unit * Model;
  (* optim_class(parameters, **kwargs) *)
  new_optimizer : string -> OptimKwargs F -> Model -> Optimizer;
  optimizer_state_dict : Optimizer -> OptState;
  (* a [ValueError] of load_state_dict leaves the optimizer as it was *)
  optimizer_load_state_dict : Optimizer -> OptState -> outcome Optimizer;
  optimizer_cuda : Optimizer -> Optimizer;
  zero_grad : Optimizer -> Model -> Optimizer * Model;
  clip_grad_norm : pyval F -> Model -> Model;
  optimizer_step : Optimizer -> Model -> Optimizer * Model;
  (* the object a global name of the module is bound to *)
  global_obj : string -> PyObj;
  (* torch.stack([torch.tensor(p[0]) for p in predicted]) *)
  stack_heads : PyObj -> outcome Tensor;
  (* F.softmax(scores[-1], dim=2).squeeze(), item by item *)
  softmax_last : Scores -> outcome (list F);
}.

(** The operating system, as far as the agent meets it.  The agent makes no
    directory, removes no file and changes no permission, so the answers do
    not change while it runs. *)
Class PyOS : Type := {
  (* the file that a path names: two paths name one file exactly when they
     have the same [realpath] *)
  realpath : string -> string;
  (* open(path, 'wb'): the message of the OSError that it raises (a missing
     directory, a directory in place of the file, no permission), or [None]
     where it returns *)
  open_wb : string -> option string;
}.

Section Agent.
Context {F : Type} `{!PyFloat F} `{!ParlaiCore F} `{!Torch F} `{!PyOS}.

(** [x > 0] on a value that is an int or a float. *)
Definition py_pos (v : pyval F) : bool :=
  match v with
  | PInt z => 0 <? z
  | PFloat x => f_pos x
  | _ => false
  end.

(** The dict that [save] hands to [torch.save] and [load] reads back. *)
Record States : Type := mkStates {
  st_model : option ModelState;
  st_longest_label : option Z;
  st_optimizer : option OptState;
  st_optimizer_type : option string;
}.

Definition states_empty : States := mkStates None None None None.

(** [if states:] a dict is true when it has a key. *)
Definition states_truthy (s : States) : bool :=
  bool_decide (is_Some (st_model s)) || bool_decide (is_Some (st_longest_label s))
  || bool_decide (is_Some (st_optimizer s))
  || bool_decide (is_Some (st_optimizer_type s)).

(** What a file holds. *)
Inductive File : Type :=
| FStates (s : States)
| FOpt (o : Opt F)
| FOther.

(** The calls into torch that an agent makes, in order. *)
Inductive event : Type :=
| EvTrain | EvEval | EvZeroGrad | EvForward | EvEvaluate | EvCalPerformance
| EvBackward | EvClip | EvStep | EvBreakpoint.

(** The files, each under its [realpath], and the calls made so far. *)
Record Env : Type := mkEnv {
  e_fs : gmap string File;
  e_trace : list event;
}.

(** The attributes that [__init__] sets once. *)
Record AgentConf : Type := mkConf {
  c_opt : Opt F;
  c_id : string;
  c_truncate : option Z;
  c_report_freq : F;
  c_use_person_tokens : bool;
  c_batch_idx : nat;
  c_rank : bool;
  c_use_cuda : bool;
  c_dict : Dictionary;
  c_START_IDX : Z;
  c_END_IDX : Z;
  c_NULL_IDX : Z;
  c_clip : option (pyval F);
}.

(** The agent.  An attribute that [__init__] sets only on some paths
    ([model], [optimizer], [buffer_initialized]) is optional: [None] is
    [hasattr(self, ...) == False]. *)
Record Agent : Type := mkAgent {
  a_conf : AgentConf;
  a_metrics : Metrics F;
  a_history : History;
  a_answers : list (option Answer);
  a_model : option Model;
  a_optimizer : option Optimizer;
  a_observation : option Observation;
  a_buffer_initialized : bool;
}.

Record World : Type := mkWorld {
  w_agent : Agent;
  w_env : Env;
}.

Definition set_metrics (m : Metrics F) (a : Agent) : Agent :=
  mkAgent (a_conf a) m (a_history a) (a_answers a) (a_model a)
    (a_optimizer a) (a_observation a) (a_buffer_initialized a).
Definition set_history (h : History) (a : Agent) : Agent :=
  mkAgent (a_conf a) (a_metrics a) h (a_answers a) (a_model a)
    (a_optimizer a) (a_observation a) (a_buffer_initialized a).
Definition set_answers (l : list (option Answer)) (a : Agent) : Agent :=
  mkAgent (a_conf a) (a_metrics a) (a_history a) l (a_model a)
    (a_optimizer a) (a_observation a) (a_buffer_initialized a).
Definition set_model (m : Model) (a : Agent) : Agent :=
  mkAgent (a_conf a) (a_metrics a) (a_history a) (a_answers a) (Some m)
    (a_optimizer a) (a_observation a) (a_buffer_initialized a).
Definition set_optimizer (o : Optimizer) (a : Agent) : Agent :=
  mkAgent (a_conf a) (a_metrics a) (a_history a) (a_answers a) (a_model a)
    (Some o) (a_observation a) (a_buffer_initialized a).
Definition set_observation (o : option Observation) (a : Agent) : Agent :=
  mkAgent (a_conf a) (a_metrics a) (a_history a) (a_answers a) (a_model a)
    (a_optimizer a) o (a_buffer_initialized a).
Definition set_buffer_initialized (a : Agent) : Agent :=
  mkAgent (a_conf a) (a_metrics a) (a_history a) (a_answers a) (a_model a)
    (a_optimizer a) (a_observation a) true.

Definition get_agent : M World Agent := fun w => (Ok (w_agent w), w).
Definition upd_agent (f : Agent -> Agent) : M World unit :=
  fun w => (Ok tt, mkWorld (f (w_agent w)) (w_env w)).
Definition log (e : event) : M World unit :=
  fun w => (Ok tt, mkWorld (w_agent w)
                     (mkEnv (e_fs (w_env w)) (e_trace (w_env w) ++ [e]))).
(** [with open(path, 'wb') as handle: dump(obj, handle)]: [open] raises, or
    the file that [path] names holds the object. *)
Definition write_file (path : string) (f : File) : M World unit :=
  fun w =>
    match open_wb path with
    | Some msg => (Raise (OSError msg), w)
    | None =>
        (Ok tt, mkWorld (w_agent w)
                  (mkEnv (<[realpath path := f]> (e_fs (w_env w)))
                     (e_trace (w_env w))))
    end.

(** [self.model], [self.optimizer], [self.clip] *)
Definition the_model : M World Model :=
  do a <- get_agent;
  match a_model a with
  | Some m => ret m
  | None => raise (AttributeError "model")
  end.
Definition the_optimizer : M World Optimizer :=
  do a <- get_agent;
  match a_optimizer a with
  | Some o => ret o
  | None => raise (AttributeError "optimizer")
  end.
Definition the_clip : M World (pyval F) :=
  do a <- get_agent;
  match c_clip (a_conf a) with
  | Some c => ret c
  | None => raise (AttributeError "clip")
  end.

(** *** override_opt *)

(** The keys that [override_opt] takes over from a loaded option file. *)
Definition model_args : list string :=
  [ "hiddensize"; "embeddingsize"; "numlayers"; "optimizer"; "encoder";
    "decoder"; "lookuptable"; "attention"; "attention_length";
    "rnn_class" ]%string.

(** [override_opt] works on [self.opt] as the dict it is, whatever its keys;
    it returns the dict it has updated.  The loop visits each key of
    [new_opt] once.  What it prints is not part of the state. *)
Definition override_opt (opt new_opt : gmap string (pyval F))
  : gmap string (pyval F) :=
  let opt :=
    map_fold (fun k v opt =>
                if bool_decide (k ∈ model_args) then <[k := v]> opt else opt)
      opt new_opt in
  match new_opt !! "dict_file"%string with
  | Some f =>
      if negb (py_truthy (default PNone (opt !! "dict_file"%string)))
      then <["dict_file"%string := f]> opt
      else opt
  | None => opt
  end.

(** *** parse, v2t *)

Definition parse (a : Agent) (text : string) : list Z :=
  txt2vec (c_dict (a_conf a)) text.

(** The loop of [v2t]: [new_vec] grows at its end, an [END_IDX] breaks. *)
Fixpoint v2t_loop (END START : Z) (vec new_vec : list Z) : list Z :=
  match vec with
  | [] => new_vec
  | i :: rest =>
      if i =? END then new_vec
      else if negb (i =? START) then v2t_loop END START rest (new_vec ++ [i])
      else v2t_loop END START rest new_vec
  end.

Definition v2t (a : Agent) (vec : list Z) : string :=
  vec2txt (c_dict (a_conf a))
    (v2t_loop (c_END_IDX (a_conf a)) (c_START_IDX (a_conf a)) vec []).

(** *** zero_grad, update_params *)

Definition zero_grad_m : M World unit :=
  do o <- the_optimizer;
  do m <- the_model;
  let '(o', m') := zero_grad o m in
  log EvZeroGrad ;;
  upd_agent (fun a => set_optimizer o' (set_model m' a)).

Definition update_params : M World unit :=
  do clip <- the_clip;
  (if py_pos clip then
     do m <- the_model;
     log EvClip ;;
     upd_agent (set_model (clip_grad_norm clip m))
   else ret tt) ;;
  do o <- the_optimizer;
  do m <- the_model;
  let '(o', m') := optimizer_step o m in
  log EvStep ;;
  upd_agent (fun a => set_optimizer o' (set_model m' a)).

(** *** reset, reset_metrics, report *)

Definition reset_metrics (a : Agent) : Agent :=
  let m := a_metrics a in
  let m := mkMetrics f_zero (num_tokens m) (correct_tokens m)
             (total_skipped_batches m) in
  let m := mkMetrics (loss m) 0 (correct_tokens m) (total_skipped_batches m) in
  let m := mkMetrics (loss m) (num_tokens m) 0 (total_skipped_batches m) in
  set_metrics m a.

(** [for i in range(len(self.answers)): self.answers[i] = None] *)
Definition clear_answers (answers : list (option Answer)) : list (option Answer) :=
  foldl (fun l i => <[i := None]> l) answers (seq 0 (length answers)).

Definition reset (a : Agent) : Agent :=
  let a := set_observation None a in
  let a := set_history history_empty a in
  let a := set_answers (clear_answers (a_answers a)) a in
  reset_metrics a.

Definition report (a : Agent) : gmap string (pyval F) :=
  let metrics := a_metrics a in
  let m : gmap string (pyval F) := ∅ in
  let num_tok := num_tokens metrics in
  let m :=
    if 0 <? num_tok then
      let m :=
        if 0 <? correct_tokens metrics
        then <["token_acc" := PFloat (int_truediv (correct_tokens metrics) num_tok)]> m
        else m in
      let avg := f_div_int (loss metrics) num_tok in
      let m := <["loss" := PFloat avg]> m in
      match math_exp avg with
      | Some e => <["ppl" := PFloat e]> m
      | None => <["ppl" := PFloat f_inf]> m
      end
    else m in
  let m :=
    if 0 <? total_skipped_batches metrics
    then <["total_skipped_batches" := PInt (total_skipped_batches metrics)]> m
    else m in
  (fun v => round_sigfigs v 4) <$> m.

(** *** observe *)

(** [l[i]] on a list *)
Definition py_getitem {A} (l : list A) (i : nat) : outcome A :=
  match l !! i with
  | Some x => Ok x
  | None => Raise (IndexError "list index out of range")
  end.

(** [l[i] = x] on a list *)
Definition py_setitem {A} (l : list A) (i : nat) (x : A) : outcome (list A) :=
  if bool_decide (i < length l)%nat then Ok (<[i := x]> l)
  else Raise (IndexError "list assignment index out of range").

(** [deque(l, maxlen=n)] keeps the last [n] items. *)
Definition deque_maxlen (maxlen : option Z) (l : list Z) : list Z :=
  match maxlen with
  | None => l
  | Some n => drop (length l - Z.to_nat n) l
  end.

Definition with_text2vec (v : list Z) (o : Observation) : Observation :=
  mkObs (ob_text o) (Some v) (ob_labels o) (ob_eval_labels o)
    (ob_label_candidates o) (ob_preprocessed o).

Definition observe (observation : Observation) : M World Observation :=
  let obs := observation in
  do a <- get_agent;
  let c := a_conf a in
  do t2v <-
    (if negb (ob_preprocessed obs) || negb (bool_decide (is_Some (ob_text2vec obs)))
     then
       do reply <- lift (py_getitem (a_answers a) (c_batch_idx c));
       let '(r, h) :=
         maintain_dialog_history (a_history a) obs reply (c_truncate c)
           (o_history_replies (c_opt c)) (c_dict c) (c_use_person_tokens c) in
       upd_agent (set_history h) ;;
       lift r
     else
       match ob_text2vec obs with
       | Some v => ret (deque_maxlen (c_truncate c) v)
       | None => raise (KeyError "text2vec")
       end);
  let obs := with_text2vec t2v obs in
  upd_agent (set_observation (Some obs)) ;;
  do a <- get_agent;
  do answers <- lift (py_setitem (a_answers a) (c_batch_idx c) None);
  upd_agent (set_answers answers) ;;
  ret obs.

(** *** predict *)

(** The names bound at the top level of the module: its imports and its three
    classes, and the names every module has. *)
Definition module_globals : list string :=
  [ "Agent"; "modelzoo_path"; "DictionaryAgent"; "maintain_dialog_history";
    "PaddingUtils"; "round_sigfigs"; "SharedTable"; "Transformer"; "torch";
    "optim"; "nn"; "F"; "deque"; "defaultdict"; "os"; "math"; "pickle";
    "ipdb"; "TransformerAgent"; "mydefaultdict"; "PerplexityEvaluatorAgent";
    "__name__"; "__doc__"; "__package__"; "__loader__"; "__spec__";
    "__file__"; "__cached__"; "__builtins__" ]%string.

(** The names of the interpreter's [builtins] module. *)
Definition python_builtins : list string :=
  [ "abs"; "all"; "any"; "ascii"; "bin"; "bool"; "breakpoint"; "bytearray";
    "bytes"; "callable"; "chr"; "classmethod"; "compile"; "complex";
    "delattr"; "dict"; "dir"; "divmod"; "enumerate"; "eval"; "exec";
    "filter"; "float"; "format"; "frozenset"; "getattr"; "globals";
    "hasattr"; "hash"; "help"; "hex"; "id"; "input"; "int"; "isinstance";
    "issubclass"; "iter"; "len"; "list"; "locals"; "map"; "max";
    "memoryview"; "min"; "next"; "object"; "oct"; "open"; "ord"; "pow";
    "print"; "property"; "range"; "repr"; "reversed"; "round"; "set";
    "setattr"; "slice"; "sorted"; "staticmethod"; "str"; "sum"; "super";
    "tuple"; "type"; "vars"; "zip"; "__import__"; "None"; "True"; "False";
    "Ellipsis"; "NotImplemented"; "__debug__"; "BaseException"; "Exception";
    "ArithmeticError"; "AssertionError"; "AttributeError"; "EOFError";
    "ImportError"; "IndexError"; "KeyError"; "KeyboardInterrupt";
    "LookupError"; "MemoryError"; "NameError"; "NotImplementedError";
    "OSError"; "IOError"; "OverflowError"; "RuntimeError"; "StopIteration";
    "SyntaxError"; "SystemExit"; "TypeError"; "ValueError";
    "ZeroDivisionError"; "Warning"; "UserWarning"; "DeprecationWarning" ]%string.

(** A name that a function reads and never binds is looked up in the module's
    globals, then in the builtins. *)
Definition load_global (name : string) : M World PyObj :=
  if bool_decide (name ∈ module_globals ++ python_builtins)
  then ret (global_obj name)
  else raise (NameError name).

Definition add_train_metrics (correct : Z) (l : F) (target_tokens : Z)
    (m : Metrics F) : Metrics F :=
  let m := mkMetrics (loss m) (num_tokens m) (correct_tokens m + correct)
             (total_skipped_batches m) in
  let m := mkMetrics (f_add (loss m) l) (num_tokens m) (correct_tokens m)
             (total_skipped_batches m) in
  mkMetrics (loss m) (num_tokens m + target_tokens) (correct_tokens m)
    (total_skipped_batches m).

Definition add_eval_metrics (l : F) (target_tokens : Z) (m : Metrics F) : Metrics F :=
  let m := mkMetrics (f_add (loss m) l) (num_tokens m) (correct_tokens m)
             (total_skipped_batches m) in
  mkMetrics (loss m) (num_tokens m + target_tokens) (correct_tokens m)
    (total_skipped_batches m).

Definition incr_skipped (m : Metrics F) : Metrics F :=
  mkMetrics (loss m) (num_tokens m) (correct_tokens m)
    (total_skipped_batches m + 1).

(** [out = self.model(xs, ys, rank_during_training=cands is not None)] *)
Definition call_model (xs : Tensor) (ys : option Tensor) (rank : bool)
  : M World (Tensor * Scores * option (list (list Z)) * Logits) :=
  do m <- the_model;
  log EvForward ;;
  lift (model_forward m xs ys rank).

(** The statements of the training [try] block that follow the model call:
    the loss, the metrics, [loss.backward()]. *)
Definition train_after_forward (ys : option Tensor)
    (out : Tensor * Scores * option (list (list Z)) * Logits) : M World unit :=
  let '(_preds, scores, cand_preds, seq_logit_view) := out in
  do a <- get_agent;
  match ys with
  | None => raise (AttributeError "shape")
  | Some gold =>
      (if bool_decide (shape1 _preds ≠ shape1 gold) then log EvBreakpoint else ret tt) ;;
      do m <- the_model;
      log EvCalPerformance ;;
      do lc <- lift (cal_performance m seq_logit_view gold
                       (o_label_smoothing (c_opt (a_conf a))));
      let target_tokens := count_ne (c_NULL_IDX (a_conf a)) gold in
      do correct <- lift (count_correct gold _preds (c_NULL_IDX (a_conf a)));
      upd_agent (fun a => set_metrics
                   (add_train_metrics correct (loss_item (fst lc)) target_tokens
                      (a_metrics a)) a) ;;
      let avg := loss_div (fst lc) target_tokens in
      do m <- the_model;
      log EvBackward ;;
      let '(r, m') := backward avg m in
      upd_agent (set_model m') ;;
      lift r
  end.

(** [self.model.train()] and [self.zero_grad()], before the [try]. *)
Definition train_prologue : M World unit :=
  do m <- the_model;
  log EvTrain ;;
  upd_agent (set_model (model_train m)) ;;
  zero_grad_m.

(** The [except RuntimeError as e] clause of the training step, entered with
    the values that [predictions] and [cand_preds] have at that point. *)
Definition on_error (predictions : option Tensor)
    (cand_preds : option (list (list Z))) (e : exn)
  : M World (option Tensor * option (list (list Z))) :=
  match e with
  | RuntimeError msg =>
      if str_contains "out of memory" msg then
        upd_agent (fun a => set_metrics (incr_skipped (a_metrics a)) a) ;;
        ret (predictions, cand_preds)
      else raise e
  | _ => raise e
  end.

Definition predict (xs : Tensor) (ys : option Tensor)
    (cands : option (list Tensor)) (valid_cands : option (list nat))
    (is_training : bool)
  : M World (option Tensor * option (list (list Z))) :=
  let predictions : option Tensor := None in
  let cand_preds : option (list (list Z)) := None in
  if is_training then
    train_prologue ;;
    fun w =>
      match call_model xs ys (bool_decide (is_Some cands)) w with
      | (Raise e, w1) => on_error predictions cand_preds e w1
      | (Ok out, w1) =>
          let cand_preds := snd (fst out) in
          match train_after_forward ys out w1 with
          | (Raise e, w2) => on_error predictions cand_preds e w2
          | (Ok _, w2) => (update_params ;; ret (predictions, cand_preds)) w2
          end
      end
  else
    do m <- the_model;
    log EvEval ;;
    upd_agent (set_model (model_eval m)) ;;
    match ys with
    | None =>
        do m <- the_model;
        log EvEvaluate ;;
        do scores <- lift (model_evaluate m (Some xs));
        let cand_preds : option (list (list Z)) := None in
        do predicted <- load_global "predicted";
        do predictions <- lift (stack_heads predicted);
        ret (Some predictions, cand_preds)
    | Some gold =>
        do out <- call_model xs ys (bool_decide (is_Some cands));
        let '(_preds, scores, cand_preds, seq_logit_view) := out in
        let predictions := Some _preds in
        let cand_preds : option (list (list Z)) := None in
        do a <- get_agent;
        do m <- the_model;
        log EvCalPerformance ;;
        do lc <- lift (cal_performance m seq_logit_view gold
                         (o_label_smoothing (c_opt (a_conf a))));
        let target_tokens := count_ne (c_NULL_IDX (a_conf a)) gold in
        do correct <- lift (count_correct gold _preds (c_NULL_IDX (a_conf a)));
        upd_agent (fun a => set_metrics
                     (add_eval_metrics (loss_item (fst lc)) target_tokens
                        (a_metrics a)) a) ;;
        ret (predictions, cand_preds)
    end.

(** *** vectorize *)

Fixpoint mapM {S A B} (f : A -> M S B) (l : list A) : M S (list B) :=
  match l with
  | [] => ret []
  | x :: rest => do y <- f x; do ys <- mapM f rest; ret (y :: ys)
  end.

(** What [vectorize] returns when the batch has a valid example; otherwise it
    returns seven [None]s. *)
Record Batch : Type := mkBatch {
  b_xs : Tensor;
  b_ys : option Tensor;
  b_labels : option (list string);
  b_valid_inds : list nat;
  b_cands : option (list Tensor);
  b_valid_cands : option (list (nat * nat * list string));
  b_is_training : bool;
}.

Definition maybe_cuda (use_cuda : bool) (t : Tensor) : Tensor :=
  if use_cuda then tensor_cuda t else t.

(** The loop of [vectorize] over [enumerate(valid_inds)] that pads the label
    candidates of each valid observation. *)
Fixpoint vectorize_cands (c : AgentConf) (observations : list Observation)
    (ivs : list (nat * nat)) (cands : list Tensor)
    (valid_cands : list (nat * nat * list string))
  : M World (list Tensor * list (nat * nat * list string)) :=
  match ivs with
  | [] => ret (cands, valid_cands)
  | (i, v) :: rest =>
      do ob <- lift (py_getitem observations v);
      match ob_label_candidates ob with
      | None => vectorize_cands c observations rest cands valid_cands
      | Some curr_lcs =>
          let curr_cands :=
            map (fun t => mkObs (Some t) None None None None false) curr_lcs in
          do po <- lift (pad_text curr_cands (c_dict c) None (c_NULL_IDX c) true
                           true (c_truncate c));
          match po with
          | None => raise (TypeError "'NoneType' object is not iterable")
          | Some po =>
              do sel <- mapM (fun j => lift (py_getitem curr_lcs j))
                          (pad_valid_inds po);
              do cs <- lift (LongTensor (pad_xs po));
              vectorize_cands c observations rest
                (cands ++ [maybe_cuda (c_use_cuda c) cs])
                (valid_cands ++ [(i, v, sel)])
          end
      end
  end.

Definition vectorize (observations : list Observation) : M World (option Batch) :=
  do a <- get_agent;
  let c := a_conf a in
  let is_training :=
    existsb (fun ob => bool_decide (is_Some (ob_labels ob))) observations in
  do po <- lift (pad_text observations (c_dict c) (Some (c_END_IDX c))
                   (c_NULL_IDX c) true true (c_truncate c));
  match po with
  | None => ret None
  | Some po =>
      do xs <- lift (LongTensor (pad_xs po));
      do ys <- match pad_ys po with
               | None => ret None
               | Some rows => do t <- lift (LongTensor rows); ret (Some t)
               end;
      let xs := maybe_cuda (c_use_cuda c) xs in
      let ys := maybe_cuda (c_use_cuda c) <$> ys in
      do cv <- (if negb is_training && c_rank c then
                  do r <- vectorize_cands c observations
                            (imap (fun i v => (i, v)) (pad_valid_inds po)) [] [];
                  ret (Some (fst r), Some (snd r))
                else ret (None, None));
      ret (Some (mkBatch xs ys (pad_labels po) (pad_valid_inds po)
                   (fst cv) (snd cv) is_training))
  end.

(** *** init_cuda_buffer *)

Definition cuda_oom_message (bsz : nat) (maxlen : Z) : string :=
  "CUDA OOM: Lower batch size (-bs) from " +:+ pretty bsz
  +:+ " or lower max sequence length (-tr) from " +:+ pretty maxlen.

Definition init_cuda_buffer (batchsize : nat) : M World unit :=
  do a <- get_agent;
  let c := a_conf a in
  if c_use_cuda c && negb (a_buffer_initialized a) then
    let bsz := o_batchsize (c_opt c) in
    let maxlen := match c_truncate c with
                  | Some t => if t =? 0 then 180 else t
                  | None => 180
                  end in
    let dummy := mkTensor (replicate bsz (replicate (Z.to_nat maxlen) 1)) true in
    let body : M World unit :=
      do out <- call_model dummy (Some dummy) false;
      do m <- the_model;
      log EvCalPerformance ;;
      do lc <- lift (cal_performance m (snd out) dummy
                       (o_label_smoothing (c_opt c)));
      log EvBackward ;;
      let '(r, m') := backward (fst lc) m in
      upd_agent (set_model m') ;;
      lift r ;;
      upd_agent set_buffer_initialized in
    fun w =>
      match body w with
      | (Raise (RuntimeError msg), w1) =>
          if str_contains "out of memory" msg
          then (Raise (RuntimeError (cuda_oom_message bsz maxlen)), w1)
          else (Raise (RuntimeError msg), w1)
      | r => r
      end
  else ret tt.

(** *** batch_act *)

(** [l[i]] with an index that may be negative. *)
Definition py_getitem_Z {A} (l : list A) (i : Z) : outcome A :=
  let n := Z.of_nat (length l) in
  let j := if i <? 0 then i + n else i in
  if (0 <=? j) && (j <? n) then py_getitem l (Z.to_nat j)
  else Raise (IndexError "list index out of range").

(** [[curr_cands[idx] for idx in order if idx < len(curr_cands)]] *)
Fixpoint select_cands (curr_cands : option (list string)) (order : list Z)
  : M World (list string) :=
  match order with
  | [] => ret []
  | idx :: rest =>
      match curr_cands with
      | None => raise (TypeError "object of type 'NoneType' has no len()")
      | Some cc =>
          if idx <? Z.of_nat (length cc) then
            do x <- lift (py_getitem_Z cc idx);
            do xs <- select_cands curr_cands rest;
            ret (x :: xs)
          else select_cands curr_cands rest
      end
  end.

(** The loop of [batch_act] that stores the ranked candidates. *)
Fixpoint store_cands (cand_preds : list (list Z))
    (valid_cands : list (nat * option (list string))) (idxs : list nat)
    (batch_reply : list (gmap string (pyval F)))
  : M World (list (gmap string (pyval F))) :=
  match idxs with
  | [] => ret batch_reply
  | i :: rest =>
      do order <- lift (py_getitem cand_preds i);
      do vc <- lift (py_getitem valid_cands i);
      do curr <- lift (py_getitem batch_reply (fst vc));
      do tc <- select_cands (snd vc) order;
      store_cands cand_preds valid_cands rest
        (<[fst vc := <["text_candidates" := PList tc]> curr]> batch_reply)
  end.

Definition batch_act (observations : list Observation)
  : M World (list (gmap string (pyval F))) :=
  let batchsize := length observations in
  init_cuda_buffer batchsize ;;
  do a <- get_agent;
  let c := a_conf a in
  let batch_reply : list (gmap string (pyval F)) :=
    replicate batchsize {["id" := PStr (c_id c)]} in
  do b <- vectorize observations;
  match b with
  | None => ret batch_reply
  | Some b =>
      let cand_inds := map (fun t => fst (fst t)) <$> b_valid_cands b in
      do pc <- predict (b_xs b) (b_ys b) (b_cands b) cand_inds (b_is_training b);
      let report_freq : pyval F :=
        if b_is_training b then PInt 0 else PFloat (c_report_freq c) in
      do batch_reply <-
        match fst pc with
        | Some predictions =>
            do a <- get_agent;
            let '(r, (replies, answers)) :=
              map_predictions predictions (b_valid_inds b) batch_reply
                observations (c_dict c) (c_END_IDX c) report_freq (b_labels b)
                (a_answers a) (b_ys b) in
            upd_agent (set_answers answers) ;;
            lift r ;;
            ret replies
        | None => ret batch_reply
        end;
      match snd pc with
      | Some cand_preds =>
          let valid_cands : list (nat * option (list string)) :=
            match b_valid_cands b with
            | Some vc => map (fun t => (snd (fst t), Some (snd t))) vc
            | None => map (fun i => (i, b_labels b)) (b_valid_inds b)
            end in
          store_cands cand_preds valid_cands (seq 0 (length valid_cands))
            batch_reply
      | None => ret batch_reply
      end
  end.

(** *** act *)

(** [self.batch_act([self.observation])[0]].  An agent that has observed
    nothing hands [batch_act] the list [[None]], and [vectorize] raises when
    it looks for the labels of [None]. *)
Definition act : M World (gmap string (pyval F)) :=
  do a <- get_agent;
  match a_observation a with
  | Some obs =>
      do batch_reply <- batch_act [obs];
      lift (py_getitem batch_reply 0)
  | None =>
      init_cuda_buffer 1 ;;
      raise (TypeError "argument of type 'NoneType' is not iterable")
  end.

(** *** save, shutdown, load *)

Definition save (path : option string) : M World unit :=
  do a <- get_agent;
  let opt := c_opt (a_conf a) in
  let path := match path with None => o_model_file opt | Some p => Some p end in
  match path with
  | Some p =>
      if str_truthy p && bool_decide (is_Some (a_model a)) then
        do m <- the_model;
        let model_sd := model_state_dict m in
        let longest_label := model_longest_label m in
        do o <- the_optimizer;
        let states :=
          mkStates (Some model_sd) (Some longest_label)
            (Some (optimizer_state_dict o)) (Some (o_optimizer opt)) in
        write_file p (FStates states) ;;
        write_file (p +:+ ".opt") (FOpt opt)
      else ret tt
  | None => ret tt
  end.

Definition shutdown : M World unit :=
  do a <- get_agent;
  match o_model_file (c_opt (a_conf a)) with
  | Some path =>
      if bool_decide (is_Some (a_optimizer a))
      then save (Some (path +:+ ".shutdown_state"))
      else ret tt
  | None => ret tt
  end.

(** [torch.load(path)] *)
Definition load (path : string) : M Env States :=
  fun env =>
    match e_fs env !! realpath path with
    | Some (FStates s) => (Ok s, env)
    | Some _ => (Raise (OSError "not a saved model"), env)
    | None => (Raise (OSError "no such file"), env)
    end.

(** [os.path.isfile(path)] *)
Definition isfile (env : Env) (path : string) : bool :=
  bool_decide (is_Some (e_fs env !! realpath path)).

(** *** __init__ *)

(** What [share()] hands to a child instance. *)
Record Shared : Type := mkShared {
  sh_opt : Opt F;
  sh_dict : Dictionary;
  sh_START_IDX : Z;
  sh_END_IDX : Z;
  sh_NULL_IDX : Z;
  sh_answers : list (option Answer);
  sh_model : Model;
  sh_metrics : Metrics F;
  sh_states : option States;
  sh_batchindex : option nat;
}.

(** The keys of [OPTIM_OPTS]. *)
Definition OPTIM_OPTS : list string :=
  [ "adadelta"; "adagrad"; "adam"; "adamax"; "asgd"; "lbfgs"; "rmsprop";
    "rprop"; "sgd" ]%string.

Definition with_flags_off (o : Opt F) : Opt F :=
  mkOpt (o_truncate o) (o_batchsize o) (o_rank_candidates o) (o_report_freq o)
    (o_person_tokens o) (o_no_cuda o) (o_init_model o) (o_model_file o)
    (o_dict_file o) (o_dict_tokenizer o) (o_embedding_type o) (o_datatype o)
    (o_gradient_clip o) (o_learningrate o) (o_optimizer o) (o_momentum o)
    (o_history_replies o) false false false.

Definition with_dict_file (f : string) (o : Opt F) : Opt F :=
  mkOpt (o_truncate o) (o_batchsize o) (o_rank_candidates o) (o_report_freq o)
    (o_person_tokens o) (o_no_cuda o) (o_init_model o) (o_model_file o)
    (Some f) (o_dict_tokenizer o) (o_embedding_type o) (o_datatype o)
    (o_gradient_clip o) (o_learningrate o) (o_optimizer o) (o_momentum o)
    (o_history_replies o) (o_label_smoothing o) (o_src_tgt_weight_share o)
    (o_tgt_prj_weight_share o).

(** The options once a model was loaded from the file [p]: the dictionary
    is read from [p.dict] if that is a file or no [dict_file] was given. *)
Definition with_model_dict (env : Env) (p : string) (opt : Opt F) : Opt F :=
  if isfile env (p +:+ ".dict") || negb (bool_decide (is_Some (o_dict_file opt)))
  then with_dict_file (p +:+ ".dict") opt else opt.

(** The file that [__init__] loads the model from: [init_model] if it is a
    file, overridden by [model_file] if that is one. *)
Definition pick_init_model (env : Env) (opt : Opt F) : option string :=
  let init_model :=
    match o_init_model opt with
    | Some p => if str_truthy p && isfile env p then Some p else None
    | None => None
    end in
  match o_model_file opt with
  | Some p => if str_truthy p && isfile env p then Some p else init_model
  | None => init_model
  end.

Definition optim_kwargs (opt : Opt F) : OptimKwargs F :=
  let momentum :=
    f_pos (o_momentum opt)
    && bool_decide (o_optimizer opt ∈ ["sgd"; "rmsprop"]%string) in
  mkKwargs (o_learningrate opt)
    (if momentum then Some (o_momentum opt) else None)
    (momentum && bool_decide (o_optimizer opt = "sgd"%string))
    (bool_decide (o_optimizer opt = "adam"%string)).

(** The optimizer block of [__init__]: a fresh optimizer, then the saved
    state if there is one of the same optimizer type that loads. *)
Definition init_optimizer (opt : Opt F) (use_cuda : bool) (states : States)
    (model : Model) : M Env (Model * Optimizer) :=
  if bool_decide (o_optimizer opt ∈ OPTIM_OPTS) then
    let model :=
      if str_endswith "fixed" (o_embedding_type opt)
      then freeze_embeddings opt model else model in
    let optimizer := new_optimizer (o_optimizer opt) (optim_kwargs opt) model in
    match st_optimizer states with
    | Some saved =>
        match st_optimizer_type states with
        | None => raise (KeyError "optimizer_type")
        | Some ty =>
            if bool_decide (ty ≠ o_optimizer opt) then ret (model, optimizer)
            else
              do optimizer <-
                match optimizer_load_state_dict optimizer saved with
                | Ok o => ret o
                | Raise (ValueError _) => ret optimizer
                | Raise e => raise e
                end;
              ret (model, if use_cuda then optimizer_cuda optimizer else optimizer)
        end
    | None => ret (model, optimizer)
    end
  else raise (KeyError (o_optimizer opt)).

Definition init (opt0 : Opt F) (shared : option Shared) : M Env Agent :=
  let opt := with_flags_off opt0 in
  let truncate := if 0 <? o_truncate opt then Some (o_truncate opt) else None in
  let metrics := mkMetrics f_zero 0 0 0 in
  let report_freq := default f_0_001 (o_report_freq opt) in
  let use_person_tokens := default false (o_person_tokens opt) in
  let batch_idx := default 0%nat (shared ≫= sh_batchindex) in
  let rank := o_rank_candidates opt in
  let use_cuda := negb (default false (o_no_cuda opt)) && cuda_available in
  do env <- get;
  do parts <-
    match shared with
    | Some sh =>
        ret (sh_opt sh, base_id, sh_dict sh, sh_START_IDX sh, sh_END_IDX sh,
             sh_NULL_IDX sh, sh_answers sh, sh_model sh, sh_metrics sh,
             default states_empty (sh_states sh))
    | None =>
        let answers : list (option Answer) := replicate (o_batchsize opt) None in
        let init_model := pick_init_model env opt in
        do so <-
          match init_model with
          | Some p =>
              do states <- load p;
              ret (states, with_model_dict env p opt)
          | None => ret (states_empty, opt)
          end;
        let states := fst so in
        let opt := snd so in
        let dict := new_dictionary opt in
        do model <- lift (new_model (dict_len dict) opt);
        do model <-
          (if bool_decide (o_dict_tokenizer opt = Some "bpe"%string)
              && negb (bool_decide (o_embedding_type opt = "random"%string))
           then ret model
           else if negb (states_truthy states)
                   && negb (bool_decide (o_embedding_type opt = "random"%string))
           then lift (preinit_embeddings opt model)
           else ret model);
        do model <-
          (if states_truthy states then
             match st_model states with
             | Some saved => lift (model_load_state_dict model saved)
             | None => raise (KeyError "model")
             end
           else ret model);
        let model := if use_cuda then model_cuda model else model in
        ret (opt, "Transformer"%string, dict,
             dict_index dict (start_token dict), dict_index dict (end_token dict),
             dict_index dict (null_token dict), answers, model, metrics, states)
    end;
  let '(opt, id, dict, START, END, NULL, answers, model, metrics, states) := parts in
  do mo <-
    (if str_contains "train" (default ""%string (o_datatype opt)) then
       do r <- init_optimizer opt use_cuda states model;
       ret (fst r, Some (snd r),
            Some (match o_gradient_clip opt with
                  | Some g => PFloat g
                  | None => PInt (-1)
                  end))
     else ret (model, None, None));
  let '(model, optimizer, clip) := mo in
  let conf :=
    mkConf opt id truncate report_freq use_person_tokens batch_idx rank
      use_cuda dict START END NULL clip in
  ret (reset (mkAgent conf metrics history_empty answers (Some model) optimizer
                None false)).

(** *** share *)

(** What [share] hands to a child instance.  [numthreads] is
    [self.opt.get('numthreads')], an option that no other method of the
    agent looks at: [None] when the key is missing.  The entries of the base
    class ([class] and [opt]) hold nothing more than [opt]; [batchindex] is
    added by the world that builds the children.  Moving the metrics and the
    model to shared memory leaves their contents as they are. *)
Definition share (numthreads : option Z) (a : Agent) : outcome Shared :=
  let c := a_conf a in
  match a_model a with
  | None => Raise (AttributeError "model")
  | Some model =>
      let states :=
        if 1 <? default 1 numthreads
        then Some (mkStates None None None (Some (o_optimizer (c_opt c))))
        else None in
      Ok (mkShared (c_opt c) (c_dict c) (c_START_IDX c) (c_END_IDX c)
            (c_NULL_IDX c) (a_answers a) model (a_metrics a) states None)
  end.

(** *** mydefaultdict and PerplexityEvaluatorAgent *)

(** A [defaultdict] with its [default_factory]. *)
Record mydefaultdict : Type := mkDD {
  dd_items : gmap string (pyval F);
  default_factory : unit -> pyval F;
}.

(** [mydefaultdict.get(key, default)]; a call without [default] passes
    [None]. *)
Definition dd_get (d : mydefaultdict) (key : string) (default : pyval F) : pyval F :=
  let default := py_or default (default_factory d tt) in
  match dd_items d !! key with
  | Some v => v
  | None => default
  end.

(** [d[key]]: a missing key is filled from the factory. *)
Definition dd_getitem (d : mydefaultdict) (key : string) : pyval F * mydefaultdict :=
  match dd_items d !! key with
  | Some v => (v, d)
  | None =>
      let v := default_factory d tt in
      (v, mkDD (<[key := v]> (dd_items d)) (default_factory d))
  end.

(** [d[key] = v] *)
Definition dd_setitem (d : mydefaultdict) (key : string) (v : pyval F) : mydefaultdict :=
  mkDD (<[key := v]> (dd_items d)) (default_factory d).

Definition with_eval_labels (l : list string) (o : Observation) : Observation :=
  mkObs (ob_text o) (ob_text2vec o) (ob_labels o) (Some l)
    (ob_label_candidates o) (ob_preprocessed o).

(** The loop [for i in range(len(probs)): dist[self.dict[i]] = probs[i].item()] *)
Definition fill_dist (dict : Dictionary) (probs : list F) (dist : mydefaultdict)
  : mydefaultdict :=
  foldl (fun d ip => dd_setitem d (dict_token dict (Z.of_nat (fst ip))) (PFloat (snd ip)))
    dist (imap (fun i x => (i, x)) probs).

Definition next_word_probability (partial_out : list string) : M World mydefaultdict :=
  do a <- get_agent;
  match a_observation a with
  | None => raise (TypeError "'NoneType' object does not support item assignment")
  | Some obs =>
      let obs := with_eval_labels [String.concat " " partial_out] obs in
      upd_agent (set_observation (Some obs)) ;;
      do batch <- vectorize [obs];
      let xs := b_xs <$> batch in
      do m <- the_model;
      log EvEval ;;
      upd_agent (set_model (model_eval m)) ;;
      do m <- the_model;
      log EvEvaluate ;;
      do scores <- lift (model_evaluate m xs);
      do probs <- lift (softmax_last scores);
      let dist := mkDD ∅ (fun _ => PFloat f_1e_7) in
      ret (fill_dist (c_dict (a_conf a)) probs dist)
  end.

End Agent.

(** * The vocabulary of the properties *)

(** The part of an index sequence before its first [x]. *)
Fixpoint before_first (x : Z) (l : list Z) : list Z :=
  match l with
  | [] => []
  | i :: rest => if i =? x then [] else i :: before_first x rest
  end.

Section Vocabulary.
Context {F : Type} `{!PyFloat F} `{!ParlaiCore F} `{!Torch F} `{!PyOS}.

(** The state after a skipped batch: one more in [total_skipped_batches]. *)
Definition skip_batch (w : World) : World :=
  mkWorld (set_metrics (incr_skipped (a_metrics (w_agent w))) (w_agent w))
    (w_env w).

(** The forward or backward pass of a training step raises [e]: either the
    model call does, and [cand_preds] is still [None]; or a later statement of
    the [try] block does, and [cand_preds] is what the model call returned. *)
Inductive pass_raises (xs : Tensor) (ys : option Tensor) (rank : bool)
    (w0 : World) (e : exn) : option (list (list Z)) → World → Prop :=
| forward_raises w1 :
    call_model xs ys rank w0 = (Raise e, w1) →
    pass_raises xs ys rank w0 e None w1
| backward_raises out w1 w2 :
    call_model xs ys rank w0 = (Ok out, w1) →
    train_after_forward ys out w1 = (Raise e, w2) →
    pass_raises xs ys rank w0 e (snd (fst out)) w2.

(** Between two states no optimizer step was taken and no batch was counted
    as skipped. *)
Definition quiet (w w' : World) : Prop :=
  total_skipped_batches (a_metrics (w_agent w'))
  = total_skipped_batches (a_metrics (w_agent w))
  ∧ ∃ evs, e_trace (w_env w') = e_trace (w_env w) ++ evs ∧ EvStep ∉ evs.

(** A reply carries the agent's id. *)
Definition has_id (id : string) (r : gmap string (pyval F)) : Prop :=
  r !! "id" = Some (PStr id).

(** What [batch_act] relies on when it hands its replies to
    [PaddingUtils.map_predictions]: the helper fills in fields of the replies
    it is given; it neither adds nor drops a reply nor touches an [id]. *)
Definition map_predictions_keeps_ids : Prop :=
  ∀ p valid_inds (replies : list (gmap string (pyval F))) obs d end_idx
    report_freq labels answers ys,
    let replies' :=
      fst (snd (map_predictions p valid_inds replies obs d end_idx report_freq
                  labels answers ys)) in
    length replies' = length replies
    ∧ ∀ i r', replies' !! i = Some r' →
              ∃ r, replies !! i = Some r ∧ r' !! "id" = r !! "id".

(** The path [save] writes to: its argument, or the [model_file] option
    when it is called without one. *)
Definition effective_path (path : option string) (a : Agent) : option string :=
  match path with
  | None => o_model_file (c_opt (a_conf a))
  | Some p => Some p
  end.

(** The dict that [save] persists for a model and an optimizer. *)
Definition saved_states (opt : Opt F) (m : Model) (o : Optimizer) : States :=
  mkStates (Some (model_state_dict m)) (Some (model_longest_label m))
    (Some (optimizer_state_dict o)) (Some (o_optimizer opt)).

(** The options as [__init__] leaves them when it loads a model from the
    file [p]. *)
Definition loaded_opt (env : Env) (p : string) (opt0 : Opt F) : Opt F :=
  with_model_dict env p (with_flags_off opt0).

Definition init_use_cuda (opt0 : Opt F) : bool :=
  negb (default false (o_no_cuda opt0)) && cuda_available.

Definition is_training (opt : Opt F) : bool :=
  str_contains "train" (default ""%string (o_datatype opt)).

(** The model that [__init__] keeps once the saved parameters are loaded
    into it: moved to the GPU under CUDA, its embeddings frozen when the
    agent trains with fixed embeddings. *)
Definition placed_model (opt0 opt : Opt F) (m : Model) : Model :=
  let m := if init_use_cuda opt0 then model_cuda m else m in
  if is_training opt && str_endswith "fixed" (o_embedding_type opt)
  then freeze_embeddings opt m else m.

Definition placed_optimizer (opt0 : Opt F) (o : Optimizer) : Optimizer :=
  if init_use_cuda opt0 then optimizer_cuda o else o.

(** The sequence length of the warm-up batch: [truncate], or 180. *)
Definition warmup_maxlen (c : AgentConf) : Z :=
  match c_truncate c with
  | Some t => if t =? 0 then 180 else t
  | None => 180
  end.

(** An observation has the key [labels]. *)
Definition has_labels (ob : Observation) : bool :=
  bool_decide (is_Some (ob_labels ob)).

(** A reply holds nothing but the agent's id and, where the model ranked
    candidates, [text_candidates]. *)
Definition no_text (id : string) (r : gmap string (pyval F)) : Prop :=
  r !! "id" = Some (PStr id)
  ∧ ∀ k, k ≠ "id"%string → k ≠ "text_candidates"%string → r !! k = None.

(** Between two states the parameters were not updated: the optimizer is
    the one it was, and neither [zero_grad] nor an optimizer step was
    called. *)
Definition no_update (w w' : World) : Prop :=
  a_optimizer (w_agent w') = a_optimizer (w_agent w)
  ∧ ∃ evs, e_trace (w_env w') = e_trace (w_env w) ++ evs
           ∧ (EvStep ∉ evs) ∧ (EvZeroGrad ∉ evs).

End Vocabulary.

(** * A small instance

    A fixed-point stand-in for the floats, a word-list dictionary, and a
    model whose failures are scripted by its weights.  The runs of the
    methods on concrete agents below use it. *)

(** A float in units of [1e-7], or infinity. *)
Inductive tfloat : Type :=
| Fin (units : Z)
| Inf.

Definition tfloat_exp (x : tfloat) : option tfloat :=
  match x with
  | Inf => Some Inf
  | Fin u =>
      if 7097800000 <? u then None
      else Some (Fin (10000000 + u + u * u / 20000000))
  end.

#[global] Instance demo_float : PyFloat tfloat := {|
  f_zero := Fin 0;
  f_inf := Inf;
  f_1e_7 := Fin 1;
  f_0_001 := Fin 10000;
  f_add x y := match x, y with Fin u, Fin v => Fin (u + v) | _, _ => Inf end;
  f_div_int x n := match x with Fin u => Fin (u / n) | Inf => Inf end;
  int_truediv m n := Fin (m * 10000000 / n);
  f_is_zero x := match x with Fin u => u =? 0 | Inf => false end;
  f_pos x := match x with Fin u => 0 <? u | Inf => true end;
  math_exp := tfloat_exp;
|}.

(** The dictionary: the tokens in index order, the first four the special
    ones. *)
Definition demo_vocab : list string :=
  [ "__NULL__"; "__START__"; "__END__"; "__UNK__"; "hello"; "world"; "how";
    "are"; "you" ]%string.

Fixpoint index_of (tok : string) (l : list string) (i : Z) : option Z :=
  match l with
  | [] => None
  | t :: rest => if String.eqb t tok then Some i else index_of tok rest (i + 1)
  end.

Definition demo_index (d : list string) (tok : string) : Z :=
  default 3 (index_of tok d 0).

Definition demo_token (d : list string) (i : Z) : string :=
  if i <? 0 then "__UNK__"%string
  else default "__UNK__"%string (d !! Z.to_nat i).

Definition demo_txt2vec (d : list string) (text : string) : list Z :=
  map (demo_index d) (String.words text).

Definition demo_vec2txt (d : list string) (vec : list Z) : string :=
  String.concat " " (map (demo_token d) vec).

Definition demo_row (d : list string) (ob : Observation) : list Z :=
  match ob_text2vec ob with
  | Some v => v
  | None => default [] (demo_txt2vec d <$> ob_text ob)
  end.

Definition pad_row (null : Z) (n : nat) (row : list Z) : list Z :=
  row ++ replicate (n - length row) null.

Definition pad_rows (null : Z) (rows : list (list Z)) : list (list Z) :=
  map (pad_row null (foldr (λ r n, Nat.max (length r) n) 0%nat rows)) rows.

Definition demo_label (ob : Observation) : string :=
  match ob_labels ob, ob_eval_labels ob with
  | Some (l :: _), _ => l
  | None, Some (l :: _) => l
  | _, _ => ""%string
  end.

Definition demo_pad_text (obs : list Observation) (d : list string)
    (end_idx : option Z) (null : Z) (dq eval_labels : bool)
    (truncate : option Z) : outcome (option PadOut) :=
  let valid :=
    filter (λ iob, demo_row d (snd iob) ≠ []) (imap (λ i ob, (i, ob)) obs) in
  match valid with
  | [] => Ok None
  | _ =>
      let exs := map snd valid in
      let xs := pad_rows null (map (demo_row d) exs) in
      let labelled :=
        existsb (λ ob, bool_decide (is_Some (ob_labels ob))
                       || (eval_labels && bool_decide (is_Some (ob_eval_labels ob))))
          exs in
      let labels := map demo_label exs in
      let ys :=
        pad_rows null
          (map (λ l, demo_txt2vec d l ++ option_list end_idx) labels) in
      Ok (Some (mkPadOut xs (if labelled then Some ys else None)
                  (if labelled then Some labels else None) (map fst valid)))
  end.

Fixpoint demo_map_predictions (d : list string) (rows : list (list Z))
    (valid_inds : list nat) (replies : list (gmap string (pyval tfloat)))
    (answers : list (option string))
  : list (gmap string (pyval tfloat)) * list (option string) :=
  match rows, valid_inds with
  | row :: rows, i :: valid_inds =>
      let text := demo_vec2txt d row in
      demo_map_predictions d rows valid_inds
        (alter (insert "text"%string (PStr text)) i replies)
        (<[i := Some text]> answers)
  | _, _ => (replies, answers)
  end.

#[global] Instance demo_core : ParlaiCore tfloat := {|
  Dictionary := list string;
  History := list (list Z);
  Answer := string;
  new_dictionary _ := demo_vocab;
  dict_len d := Z.of_nat (length d);
  start_token _ := "__START__"%string;
  end_token _ := "__END__"%string;
  null_token _ := "__NULL__"%string;
  dict_index := demo_index;
  dict_token := demo_token;
  txt2vec := demo_txt2vec;
  vec2txt := demo_vec2txt;
  history_empty := [];
  maintain_dialog_history h ob reply truncate use_replies d person_tokens :=
    let turn :=
      default [] (demo_txt2vec d <$> reply)
      ++ default [] (demo_txt2vec d <$> ob_text ob) in
    (Ok (deque_maxlen truncate (concat h ++ turn)), h ++ [turn]);
  pad_text := demo_pad_text;
  map_predictions p valid_inds replies obs d end_idx report_freq labels
      answers ys :=
    (Ok tt, demo_map_predictions d (t_rows p) valid_inds replies answers);
  round_sigfigs v sigfigs := v;
  base_id := "agent"%string;
|}.

(** The model: its weights, which also script its failures.  With weights
    666 the forward pass raises a shape error, with 667 it runs out of
    memory, with 13 the backward pass runs out of memory. *)
Record demo_model : Type := mkDemoModel {
  dm_weights : Z;
  dm_training : bool;
}.

Record demo_optimizer : Type := mkDemoOptimizer {
  do_type : string;
  do_steps : Z;
}.

Definition demo_forward (m : demo_model) (xs : Tensor) (ys : option Tensor)
    (rank : bool)
  : outcome (Tensor * list tfloat * option (list (list Z)) * unit) :=
  if dm_weights m =? 666 then Raise (RuntimeError "size mismatch")
  else if dm_weights m =? 667 then Raise (RuntimeError "CUDA out of memory")
  else Ok (default xs ys, [], if rank then Some [[0]] else None, tt).

Definition demo_backward (l : Z) (m : demo_model) : outcome unit * demo_model :=
  if dm_weights m =? 13
  then (Raise (RuntimeError "CUDA out of memory. Tried to allocate 2 GiB"), m)
  else (Ok tt, m).

#[global] Instance demo_torch : Torch tfloat := {|
  Model := demo_model;
  ModelState := Z;
  Optimizer := demo_optimizer;
  OptState := Z;
  Scores := list tfloat;
  Logits := unit;
  Loss := Z;
  PyObj := string;
  cuda_available := false;
  new_model n _ := Ok (mkDemoModel n false);
  model_state_dict := dm_weights;
  model_load_state_dict m s := Ok (mkDemoModel s (dm_training m));
  model_longest_label _ := 1;
  model_cuda m := m;
  model_train m := mkDemoModel (dm_weights m) true;
  model_eval m := mkDemoModel (dm_weights m) false;
  preinit_embeddings _ m := Ok m;
  freeze_embeddings _ m := m;
  model_forward := demo_forward;
  model_evaluate _ _ := Ok [Fin 6000000; Fin 4000000];
  cal_performance _ _ gold _ := Ok (count_ne 0 gold, 0);
  loss_item l := Fin (l * 10000000);
  loss_div l n := l / n;
  count_correct gold preds null :=
    Ok (if bool_decide (t_rows gold = t_rows preds) then count_ne null gold else 0);
  backward := demo_backward;
  new_optimizer name _ _ := mkDemoOptimizer name 0;
  optimizer_state_dict := do_steps;
  optimizer_load_state_dict o s :=
    if s <? 0 then Raise (ValueError "loaded state dict has a different number of parameter groups")
    else Ok (mkDemoOptimizer (do_type o) s);
  optimizer_cuda o := o;
  zero_grad o m := (o, m);
  clip_grad_norm _ m := m;
  optimizer_step o m :=
    (mkDemoOptimizer (do_type o) (do_steps o + 1),
     mkDemoModel (dm_weights m + 1) (dm_training m));
  global_obj name := name;
  stack_heads _ := Ok (mkTensor [] false);
  softmax_last s := Ok s;
|}.

(** A file system in which every path names a file of its own and nothing
    under [/no/such/dir/] can be opened. *)
#[global] Instance demo_os : PyOS := {|
  realpath p := p;
  open_wb p :=
    if String.prefix "/no/such/dir/" p
    then Some "[Errno 2] No such file or directory"%string
    else None;
|}.

Definition demo_opt (datatype : string) : Opt tfloat :=
  mkOpt (-1) 2 false None None None None (Some "/tmp/model"%string) None None
    "random" (Some datatype) (Some (Fin 1000000)) (Fin 10000000) "sgd" (Fin 0)
    None false false false.

Definition demo_conf (datatype : string) : AgentConf :=
  mkConf (demo_opt datatype) "Transformer" None (Fin 10000) false 0 false
    false demo_vocab 1 2 0
    (if str_contains "train" datatype then Some (PFloat (Fin 1000000)) else None).

(** A training agent whose model has the given weights, with a reply left in
    its answer slot. *)
Definition demo_trainer (weights : Z) : Agent :=
  mkAgent (demo_conf "train") (mkMetrics (Fin 0) 0 0 0) []
    [Some "hello"%string; None] (Some (mkDemoModel weights false))
    (Some (mkDemoOptimizer "sgd" 0)) None false.

(** An agent built for evaluation: a model and no optimizer. *)
Definition demo_evaluator : Agent :=
  mkAgent (demo_conf "valid") (mkMetrics (Fin 0) 0 0 0) []
    [None; None] (Some (mkDemoModel 5 false)) None None false.

Definition demo_env : Env := mkEnv ∅ [].

Definition demo_world (a : Agent) : World := mkWorld a demo_env.

Definition demo_obs (text : string) (labels : option (list string)) : Observation :=
  mkObs (Some text) (Some (demo_txt2vec demo_vocab text)) labels None None false.

Definition demo_xs : Tensor := mkTensor [[4; 5]] false.
Definition demo_ys : Tensor := mkTensor [[6; 2]] false.

(** The states of a training step of the model with weights 13: after the
    prologue, after the model call, and where the backward pass raises. *)
Definition demo_oom_w0 : World :=
  snd (train_prologue (demo_world (demo_trainer 13))).
Definition demo_oom_w1 : World :=
  snd (call_model demo_xs (Some demo_ys) false demo_oom_w0).
Definition demo_oom_w2 : World :=
  snd (train_after_forward (Some demo_ys) (demo_ys, [], None, tt) demo_oom_w1).

(** A file system that holds one saved model: parameters 7, and an optimizer
    state [st] saved by an optimizer of type [ty]. *)
Definition demo_saved_states (ty : string) (st : Z) : States :=
  @mkStates tfloat demo_torch (Some 7) (Some 1) (Some st) (Some ty).

Definition demo_saved_env (ty : string) (st : Z) : Env :=
  mkEnv {[ "/tmp/model"%string := FStates (demo_saved_states ty st) ]} [].

(** An evaluation agent that has observed a turn. *)
Definition demo_listener : Agent :=
  set_observation (Some (demo_obs "you" None)) demo_evaluator.

(** A training agent on the GPU, its warm-up still to be done. *)
Definition demo_cuda_trainer (weights : Z) : Agent :=
  mkAgent
    (mkConf (demo_opt "train") "Transformer" (Some 3) (Fin 10000) false 0 false
       true demo_vocab 1 2 0 (Some (PFloat (Fin 1000000))))
    (mkMetrics (Fin 0) 0 0 0) [] [None; None] (Some (mkDemoModel weights false))
    (Some (mkDemoOptimizer "sgd" 0)) None false.

(** An evaluation agent that holds an observation with the label to score. *)
Definition demo_examinee : Agent :=
  set_observation
    (Some (mkObs (Some "hello"%string) (Some [4]) None (Some ["world"%string])
             None false))
    demo_evaluator.

(** The GPU agent once its warm-up has run. *)
Definition demo_warm : World :=
  snd (init_cuda_buffer 2 (demo_world (demo_cuda_trainer 5))).

(** What the training agent shares with the children of a multi-threaded
    run. *)
Definition demo_hogwild_shared : Shared :=
  @mkShared tfloat demo_core demo_torch (demo_opt "train") demo_vocab 1 2 0
    [Some "hello"%string; None] (mkDemoModel 5 false) (mkMetrics (Fin 0) 0 0 0)
    (Some (@mkStates tfloat demo_torch None None None (Some "sgd"%string))) None.

(** * Properties *)

(** Case analysis on the innermost scrutinee of a run of the model. *)
Ltac case_step :=
  match goal with
  | H : context [match ?x with _ => _ end] |- _ =>
      lazymatch x with
      | context [match _ with _ => _ end] => fail
      | _ => destruct x eqn:?; simpl in *
      end
  end.

Ltac cases := repeat (case_step; simplify_eq/=).

(** ** Metrics: reset_metrics, reset and report *)

Section MetricsSpec.
Context {F : Type} `{!PyFloat F} `{!ParlaiCore F} `{!Torch F} `{!PyOS}.

Lemma set_metrics_frame (m : Metrics F) (a : Agent) :
  a_conf (set_metrics m a) = a_conf a
  ∧ a_answers (set_metrics m a) = a_answers a
  ∧ a_model (set_metrics m a) = a_model a
  ∧ a_optimizer (set_metrics m a) = a_optimizer a.
Proof. by destruct a. Qed.

Lemma reset_metrics_metrics (a : Agent) :
  a_metrics (reset_metrics a)
  = mkMetrics f_zero 0 0 (total_skipped_batches (a_metrics a)).
Proof. reflexivity. Qed.

Lemma reset_metrics_of_reset (a : Agent) :
  a_metrics (reset a) = a_metrics (reset_metrics a).
Proof. reflexivity. Qed.

(** C9: [reset_metrics] zeroes the loss, the token count and the count of
    correct tokens and leaves [total_skipped_batches] as it was; so does
    [reset], which ends with [reset_metrics]; hence a batch skipped before a
    reset is still counted after it. *)
Theorem reset_metrics_keeps_skipped (a : Agent) :
  (loss (a_metrics (reset_metrics a)) = f_zero
   ∧ num_tokens (a_metrics (reset_metrics a)) = 0
   ∧ correct_tokens (a_metrics (reset_metrics a)) = 0
   ∧ total_skipped_batches (a_metrics (reset_metrics a))
     = total_skipped_batches (a_metrics a))
  ∧ (loss (a_metrics (reset a)) = f_zero
     ∧ num_tokens (a_metrics (reset a)) = 0
     ∧ correct_tokens (a_metrics (reset a)) = 0
     ∧ total_skipped_batches (a_metrics (reset a))
       = total_skipped_batches (a_metrics a))
  ∧ total_skipped_batches
      (a_metrics (reset (set_metrics (incr_skipped (a_metrics a)) a)))
    = total_skipped_batches (a_metrics a) + 1.
Proof.
  rewrite reset_metrics_of_reset, !reset_metrics_metrics.
  split; [|split]; [repeat split .. |].
  rewrite reset_metrics_of_reset, reset_metrics_metrics.
  by destruct a.
Qed.

(** A lookup in [report a]: one case per branch that fills the dict. *)
Ltac report_cases a :=
  unfold report; rewrite lookup_fmap;
  destruct (0 <? num_tokens (a_metrics a));
  destruct (0 <? total_skipped_batches (a_metrics a));
  destruct (0 <? correct_tokens (a_metrics a));
  try destruct (math_exp _); by simplify_map_eq.

Lemma report_lookup_loss (a : Agent) :
  report a !! "loss"
  = if 0 <? num_tokens (a_metrics a)
    then Some (round_sigfigs
                 (PFloat (f_div_int (loss (a_metrics a)) (num_tokens (a_metrics a)))) 4)
    else None.
Proof. report_cases a. Qed.

Lemma report_lookup_ppl (a : Agent) :
  report a !! "ppl"
  = if 0 <? num_tokens (a_metrics a)
    then Some (round_sigfigs
                 (PFloat (default f_inf
                            (math_exp (f_div_int (loss (a_metrics a))
                                         (num_tokens (a_metrics a)))))) 4)
    else None.
Proof. report_cases a. Qed.

Lemma report_lookup_token_acc (a : Agent) :
  report a !! "token_acc"
  = if (0 <? num_tokens (a_metrics a)) && (0 <? correct_tokens (a_metrics a))
    then Some (round_sigfigs
                 (PFloat (int_truediv (correct_tokens (a_metrics a))
                            (num_tokens (a_metrics a)))) 4)
    else None.
Proof. report_cases a. Qed.

(** C1: with [num_tokens > 0] the report's [loss] is the rounded average
    token loss and its [ppl] the rounded exponential of that average,
    infinity where [math.exp] overflows; with [num_tokens = 0] the report has
    no [loss], [ppl] or [token_acc]. *)
Theorem report_loss_ppl (a : Agent) :
  let metrics := a_metrics a in
  let avg := f_div_int (loss metrics) (num_tokens metrics) in
  (0 < num_tokens metrics →
     report a !! "loss" = Some (round_sigfigs (PFloat avg) 4)
     ∧ (∀ e, math_exp avg = Some e →
             report a !! "ppl" = Some (round_sigfigs (PFloat e) 4))
     ∧ (math_exp avg = None →
        report a !! "ppl" = Some (round_sigfigs (PFloat f_inf) 4)))
  ∧ (num_tokens metrics = 0 →
     report a !! "loss" = None ∧ report a !! "ppl" = None
     ∧ report a !! "token_acc" = None).
Proof.
  intros metrics avg. subst metrics avg.
  rewrite report_lookup_loss, report_lookup_ppl, report_lookup_token_acc.
  split.
  - intros Hpos. apply Z.ltb_lt in Hpos. rewrite Hpos.
    split; [done|]. split.
    + intros e He. by rewrite He.
    + intros He. by rewrite He.
  - intros Hzero. by rewrite Hzero.
Qed.

End MetricsSpec.

(** A run of C1's theorem: five tokens with a summed loss of 5.0 give the
    average 1.0. *)
Lemma report_loss_ppl_witness :
  report (set_metrics (mkMetrics (Fin 50000000) 5 0 0) (demo_trainer 5)) !! "loss"
  = Some (PFloat (Fin 10000000))
  ∧ report (demo_trainer 5) !! "ppl" = None.
Proof.
  destruct (report_loss_ppl
              (set_metrics (mkMetrics (Fin 50000000) 5 0 0) (demo_trainer 5)))
    as [Hpos _].
  destruct (report_loss_ppl (demo_trainer 5)) as [_ Hzero].
  split.
  - exact (proj1 (Hpos eq_refl)).
  - exact (proj1 (proj2 (Hzero eq_refl))).
Defined.

(** ** parse and v2t *)

Section TextSpec.
Context {F : Type} `{!PyFloat F} `{!ParlaiCore F} `{!Torch F} `{!PyOS}.

Lemma v2t_loop_spec (END START : Z) (vec acc : list Z) :
  v2t_loop END START vec acc
  = acc ++ filter (λ i, i ≠ START) (before_first END vec).
Proof.
  revert acc. induction vec as [|i rest IH]; intros acc; simpl.
  - by rewrite app_nil_r.
  - destruct (Z.eqb_spec i END) as [->|Hend]; simpl.
    + by rewrite app_nil_r.
    + destruct (Z.eqb_spec i START) as [->|Hstart]; simpl.
      * rewrite IH, filter_cons_False; [done | naive_solver].
      * rewrite IH, filter_cons_True by done. by rewrite <- app_assoc.
Qed.

Lemma before_first_absent (x : Z) (l : list Z) : x ∉ l → before_first x l = l.
Proof.
  induction l as [|i rest IH]; [done|].
  intros Hnotin. apply not_elem_of_cons in Hnotin as [Hne Hrest]. simpl.
  destruct (Z.eqb_spec i x) as [->|_]; [done|]. by rewrite IH.
Qed.

Lemma filter_ne_absent (x : Z) (l : list Z) : x ∉ l → filter (λ i, i ≠ x) l = l.
Proof.
  induction l as [|i rest IH]; [done|].
  intros Hnotin. apply not_elem_of_cons in Hnotin as [Hne Hrest].
  rewrite filter_cons_True by done. by rewrite IH.
Qed.

Lemma v2t_spec (a : Agent) (vec : list Z) :
  v2t a vec
  = vec2txt (c_dict (a_conf a))
      (filter (λ i, i ≠ c_START_IDX (a_conf a))
         (before_first (c_END_IDX (a_conf a)) vec)).
Proof. unfold v2t. by rewrite v2t_loop_spec. Qed.

(** C7: [parse] is the dictionary's [txt2vec]; [v2t] renders with the
    dictionary's [vec2txt] what is left of the indices once they are cut at
    the first [END_IDX] and every [START_IDX] is dropped; so a sequence with
    neither index is rendered whole and in order, and [v2t (parse text)] is
    the text taken to indices and back by the dictionary. *)
Theorem v2t_parse_roundtrip (a : Agent) (text : string) (vec : list Z) :
  let d := c_dict (a_conf a) in
  let START := c_START_IDX (a_conf a) in
  let END := c_END_IDX (a_conf a) in
  parse a text = txt2vec d text
  ∧ v2t a vec = vec2txt d (filter (λ i, i ≠ START) (before_first END vec))
  ∧ (START ∉ vec → END ∉ vec → v2t a vec = vec2txt d vec)
  ∧ (START ∉ parse a text → END ∉ parse a text →
     v2t a (parse a text) = vec2txt d (txt2vec d text)
     ∧ (vec2txt d (txt2vec d text) = text → v2t a (parse a text) = text)).
Proof.
  intros d START END. split; [done|]. split; [apply v2t_spec|].
  assert (Hwhole : ∀ l, START ∉ l → END ∉ l → v2t a l = vec2txt d l).
  { intros l Hs He. rewrite v2t_spec.
    fold END START d. by rewrite before_first_absent, filter_ne_absent. }
  split; [apply Hwhole|]. intros Hs He. rewrite Hwhole by done.
  split; [done|]. intros Hdict. exact Hdict.
Qed.

End TextSpec.

(** Runs of C7's theorem with the demo dictionary: a text of known words
    comes back as it was; the markers are dropped on the way back. *)
Lemma v2t_parse_roundtrip_witness :
  v2t (demo_trainer 5) (parse (demo_trainer 5) "how are you") = "how are you"%string
  ∧ v2t (demo_trainer 5) [1; 4; 1; 5; 2; 6; 7] = "hello world"%string.
Proof.
  destruct (v2t_parse_roundtrip (demo_trainer 5) "how are you" [1; 4; 1; 5; 2; 6; 7])
    as (_ & Hcut & _ & Hround).
  split.
  - apply Hround; [compute_done ..|]. reflexivity.
  - rewrite Hcut. reflexivity.
Defined.

(** ** observe *)

Section ObserveSpec.
Context {F : Type} `{!PyFloat F} `{!ParlaiCore F} `{!Torch F} `{!PyOS}.

Lemma py_setitem_lookup {A} (l l' : list A) (i : nat) (x : A) :
  py_setitem l i x = Ok l' → l' !! i = Some x ∧ length l' = length l.
Proof.
  unfold py_setitem. case_bool_decide; [|done].
  intros [= <-]. split; [by apply list_lookup_insert_eq | apply length_insert].
Qed.

(** C8: when [observe] returns, the slot of [self.answers] at the agent's
    batch index holds [None], so the reply a later [observe] would put into
    the history is [None]; the agent's batch index is not changed. *)
Theorem observe_clears_answer (observation obs : Observation) (w w' : World) :
  observe observation w = (Ok obs, w') →
  a_conf (w_agent w') = a_conf (w_agent w)
  ∧ a_answers (w_agent w') !! c_batch_idx (a_conf (w_agent w')) = Some None
  ∧ py_getitem (a_answers (w_agent w')) (c_batch_idx (a_conf (w_agent w')))
    = Ok None.
Proof.
  unfold observe, bind, get_agent, upd_agent, lift, ret, raise. simpl.
  intros Hrun.
  repeat (case_match; simplify_eq/=; try done).
  all: match goal with
       | Hset : py_setitem _ _ _ = Ok _ |- _ =>
           apply py_setitem_lookup in Hset as [Hset _];
           unfold py_getitem; by rewrite Hset
       end.
Qed.

(** [observe] returns whenever the batch index is a position of
    [self.answers] and the history helper returns. *)
Lemma observe_returns (observation : Observation) (w : World) :
  (c_batch_idx (a_conf (w_agent w)) < length (a_answers (w_agent w)))%nat →
  (∀ reply,
     is_ok (fst (maintain_dialog_history (a_history (w_agent w)) observation
                   reply (c_truncate (a_conf (w_agent w)))
                   (o_history_replies (c_opt (a_conf (w_agent w))))
                   (c_dict (a_conf (w_agent w)))
                   (c_use_person_tokens (a_conf (w_agent w))))) = true) →
  is_ok (fst (observe observation w)) = true.
Proof.
  intros Hidx Hhist.
  destruct (lookup_lt_is_Some_2 _ _ Hidx) as [reply Hreply].
  specialize (Hhist reply).
  unfold observe, bind, get_agent, upd_agent, lift, ret, raise. simpl.
  unfold py_getitem, py_setitem. rewrite Hreply.
  destruct (maintain_dialog_history _ _ _ _ _ _ _) as [[t2v|e] h];
    simpl in *; [|by destruct (_ || _)].
  destruct (ob_text2vec observation); simpl; rewrite ?orb_true_r;
    repeat (case_match; simplify_eq/=; try done);
    by match goal with
       | Hno : bool_decide _ = false |- _ => apply bool_decide_eq_false in Hno
       end.
Qed.


End ObserveSpec.

(** A run of C8's theorem: the trainer holds the reply "hello" in its slot;
    [observe] puts it into the history and leaves [None] in the slot. *)
Lemma observe_clears_answer_witness :
  a_answers (demo_trainer 5) !! 0%nat = Some (Some "hello"%string)
  ∧ match observe (demo_obs "how are you" None) (demo_world (demo_trainer 5)) with
    | (Ok obs, w') =>
        ob_text2vec obs = Some [4; 6; 7; 8]
        ∧ a_answers (w_agent w') !! 0%nat = Some None
    | (Raise _, _) => False
    end.
Proof.
  split; [reflexivity|].
  assert (Hobs : outcome_map ob_text2vec
                   (fst (observe (demo_obs "how are you" None)
                           (demo_world (demo_trainer 5))))
                 = Ok (Some [4; 6; 7; 8])) by reflexivity.
  destruct (observe (demo_obs "how are you" None) (demo_world (demo_trainer 5)))
    as [[obs|e] w'] eqn:Hrun; [|done].
  split; [by injection Hobs|].
  destruct (observe_clears_answer _ _ _ _ Hrun) as (Hconf & Hslot & _).
  by rewrite Hconf in Hslot.
Defined.

(** ** predict *)

Section PredictSpec.
Context {F : Type} `{!PyFloat F} `{!ParlaiCore F} `{!Torch F} `{!PyOS}.

Lemma predicted_unbound : load_global "predicted" = raise (NameError "predicted").
Proof. reflexivity. Qed.

(** C2: an evaluation step without labels never returns: whatever the agent,
    the batch and the model, [predict] raises. *)
Theorem predict_eval_unlabelled_raises (xs : Tensor)
    (cands : option (list Tensor)) (valid_cands : option (list nat)) (w : World) :
  ∃ e w', predict xs None cands valid_cands false w = (Raise e, w').
Proof.
  unfold predict. rewrite predicted_unbound.
  unfold the_model, bind, get_agent, upd_agent, log, lift, ret, raise. simpl.
  destruct (a_model (w_agent w)) as [m|]; [|by eauto]. simpl.
  destruct (model_evaluate _ _); by eauto.
Qed.

(** Where the model's [evaluate] returns, the exception is the [NameError] of
    the name [predicted], which nothing binds. *)
Lemma predict_eval_unlabelled_NameError (xs : Tensor)
    (cands : option (list Tensor)) (valid_cands : option (list nat))
    (w : World) (m : Model) (scores : Scores) :
  a_model (w_agent w) = Some m →
  model_evaluate (model_eval m) (Some xs) = Ok scores →
  fst (predict xs None cands valid_cands false w) = Raise (NameError "predicted").
Proof.
  intros Hm Heval. unfold predict. rewrite predicted_unbound.
  unfold the_model, bind, get_agent, upd_agent, log, lift, ret, raise. simpl.
  rewrite Hm. simpl. by rewrite Heval.
Qed.

Lemma quiet_refl (w : World) : quiet w w.
Proof. split; [done|]. exists []. split; [by rewrite app_nil_r | apply not_elem_of_nil]. Qed.

Lemma quiet_trans (w1 w2 w3 : World) : quiet w1 w2 → quiet w2 w3 → quiet w1 w3.
Proof.
  intros [Hs1 (evs1 & Ht1 & Hn1)] [Hs2 (evs2 & Ht2 & Hn2)].
  split; [congruence|]. exists (evs1 ++ evs2).
  rewrite Ht2, Ht1, app_assoc. split; [done|].
  rewrite elem_of_app. tauto.
Qed.

Ltac run_m :=
  unfold train_prologue, zero_grad_m, update_params, call_model,
    train_after_forward, on_error, the_model, the_optimizer, the_clip, bind,
    get_agent, upd_agent, log, lift, ret, raise in *;
  simpl in *.

Ltac solve_quiet :=
  split; simpl; [done|];
  first [ by exists []; split; [rewrite app_nil_r | apply not_elem_of_nil]
        | eexists; split; [by rewrite <- ?app_assoc |];
          rewrite ?not_elem_of_app, ?not_elem_of_cons;
          repeat split; solve [done | apply not_elem_of_nil] ].

Lemma train_prologue_quiet (w w' : World) (r : outcome unit) :
  train_prologue w = (r, w') → quiet w w'.
Proof.
  run_m. intros Hrun. cases; solve_quiet.
Qed.

Lemma call_model_quiet (xs : Tensor) (ys : option Tensor) (rank : bool)
    (w w' : World) r :
  call_model xs ys rank w = (r, w') → quiet w w'.
Proof.
  run_m. intros Hrun. cases; solve_quiet.
Qed.

Lemma train_after_forward_quiet (ys : option Tensor) out (w w' : World) r :
  train_after_forward ys out w = (r, w') → quiet w w'.
Proof.
  destruct out as [[[preds scores] cand_preds] logits].
  run_m. intros Hrun. cases; solve_quiet.
Qed.

Lemma pass_raises_quiet xs ys rank w0 e cand_preds w1 :
  pass_raises xs ys rank w0 e cand_preds w1 → quiet w0 w1.
Proof.
  intros [w1' Hfwd | out w1' w2 Hfwd Hbwd].
  - by eapply call_model_quiet.
  - eapply quiet_trans; [by eapply call_model_quiet|].
    by eapply train_after_forward_quiet.
Qed.

Lemma predict_train_unfold xs ys cands valid_cands w w0 e cand_preds w1 :
  train_prologue w = (Ok tt, w0) →
  pass_raises xs ys (bool_decide (is_Some cands)) w0 e cand_preds w1 →
  predict xs ys cands valid_cands true w = on_error None cand_preds e w1.
Proof.
  intros Hpro Hpass. unfold predict. unfold bind at 1. rewrite Hpro.
  destruct Hpass as [w1' Hfwd | out w1' w2 Hfwd Hbwd]; rewrite Hfwd; [done|].
  by rewrite Hbwd.
Qed.

(** C6, as amended: when the forward or backward pass of a training step
    raises a [RuntimeError] whose message contains "out of memory",
    [predict] returns [None] for the predictions together with the candidate
    predictions bound so far ([None] when the model call itself raised),
    counts one more skipped batch and takes no optimizer step; a
    [RuntimeError] with any other message is raised to the caller. *)
Theorem predict_train_runtime_error (xs : Tensor) (ys : option Tensor)
    (cands : option (list Tensor)) (valid_cands : option (list nat))
    (w w0 w1 : World) (msg : string) (cand_preds : option (list (list Z))) :
  train_prologue w = (Ok tt, w0) →
  pass_raises xs ys (bool_decide (is_Some cands)) w0 (RuntimeError msg)
    cand_preds w1 →
  (str_contains "out of memory" msg = true →
     predict xs ys cands valid_cands true w
     = (Ok (None, cand_preds), skip_batch w1)
     ∧ total_skipped_batches (a_metrics (w_agent (skip_batch w1)))
       = total_skipped_batches (a_metrics (w_agent w)) + 1
     ∧ a_model (w_agent (skip_batch w1)) = a_model (w_agent w1)
     ∧ a_optimizer (w_agent (skip_batch w1)) = a_optimizer (w_agent w1)
     ∧ ∃ evs, e_trace (w_env (skip_batch w1)) = e_trace (w_env w) ++ evs
              ∧ EvStep ∉ evs)
  ∧ (str_contains "out of memory" msg = false →
     predict xs ys cands valid_cands true w = (Raise (RuntimeError msg), w1))
  ∧ (call_model xs ys (bool_decide (is_Some cands)) w0
     = (Raise (RuntimeError msg), w1) → cand_preds = None).
Proof.
  intros Hpro Hpass.
  pose proof (predict_train_unfold _ _ _ valid_cands _ _ _ _ _ Hpro Hpass) as Hrun.
  assert (Hquiet : quiet w w1).
  { eapply quiet_trans; [by eapply train_prologue_quiet|].
    by eapply pass_raises_quiet. }
  destruct Hquiet as [Hskip Htrace].
  split; [|split].
  - intros Hoom. rewrite Hrun. unfold on_error. rewrite Hoom.
    split; [done|]. simpl. rewrite Hskip.
    by destruct (w_agent w1).
  - intros Hoom. rewrite Hrun. unfold on_error. by rewrite Hoom.
  - intros Hfwd. destruct Hpass as [w1' _ | out w1' w2 Hfwd' _]; [done|].
    congruence.
Qed.

(** Without an exception the training step ends with the optimizer step. *)
Lemma predict_train_steps xs ys cands valid_cands w w0 out w1 w2 :
  train_prologue w = (Ok tt, w0) →
  call_model xs ys (bool_decide (is_Some cands)) w0 = (Ok out, w1) →
  train_after_forward ys out w1 = (Ok tt, w2) →
  predict xs ys cands valid_cands true w
  = (update_params ;; ret (None, snd (fst out))) w2.
Proof.
  intros Hpro Hfwd Hbwd. unfold predict. unfold bind at 1.
  by rewrite Hpro, Hfwd, Hbwd.
Qed.

End PredictSpec.

Lemma predict_train_runtime_error_witness :
  predict demo_xs (Some demo_ys) None None true (demo_world (demo_trainer 13))
  = (Ok (None, None), skip_batch demo_oom_w2)
  ∧ total_skipped_batches (a_metrics (w_agent (skip_batch demo_oom_w2))) = 1.
Proof.
  destruct (predict_train_runtime_error demo_xs (Some demo_ys) None None
              (demo_world (demo_trainer 13)) demo_oom_w0 demo_oom_w2
              "CUDA out of memory. Tried to allocate 2 GiB" None eq_refl
              (backward_raises demo_xs (Some demo_ys) false demo_oom_w0 _
                 (demo_ys, [], None, tt) demo_oom_w1 demo_oom_w2 eq_refl
                 eq_refl))
    as ((Hrun & Hskip & _) & _ & _); [reflexivity|].
  split; [exact Hrun | exact Hskip].
Defined.

Lemma predict_oom_returns_cand_preds :
  snd (demo_backward 1 (mkDemoModel 13 true))
  = mkDemoModel 13 true
  ∧ str_contains "out of memory" "CUDA out of memory. Tried to allocate 2 GiB"
    = true
  ∧ fst (demo_backward 1 (mkDemoModel 13 true))
    = Raise (RuntimeError "CUDA out of memory. Tried to allocate 2 GiB")
  ∧ fst (predict demo_xs (Some demo_ys) (Some []) None true
           (demo_world (demo_trainer 13)))
    = Ok (None, Some [[0]]).
Proof. repeat split. Qed.

Example predict_eval_unlabelled_demo :
  fst (predict (mkTensor [[8]] false) None None None false
         (demo_world demo_evaluator))
  = Raise (NameError "predicted").
Proof. reflexivity. Qed.

(** ** vectorize and batch_act *)

Section BatchSpec.
Context {F : Type} `{!PyFloat F} `{!ParlaiCore F} `{!Torch F} `{!PyOS}.

Ltac run_b :=
  unfold init_cuda_buffer, call_model, the_model, bind, get_agent, upd_agent,
    log, lift, ret, raise in *;
  simpl in *.

Lemma init_cuda_buffer_conf (n : nat) (w w' : World) r :
  init_cuda_buffer n w = (r, w') → a_conf (w_agent w') = a_conf (w_agent w).
Proof. run_b. intros Hrun. cases; done. Qed.

Lemma mapM_lift_pure {A B} (f : A → outcome B) (l : list A) (w : World) :
  snd (mapM (λ x, lift (f x)) l w) = w.
Proof.
  induction l as [|x rest IH]; simpl; [done|].
  unfold bind at 1. unfold lift at 1.
  destruct (f x); [|done].
  unfold bind at 1.
  by destruct (mapM _ rest w) as [[ys|e] w1]; simpl in *; subst.
Qed.

Lemma vectorize_cands_pure c obs ivs cands valid_cands (w : World) :
  snd (vectorize_cands c obs ivs cands valid_cands w) = w.
Proof.
  revert cands valid_cands.
  induction ivs as [|[i v] rest IH]; intros cands valid_cands; simpl; [done|].
  unfold bind at 1, lift at 1.
  destruct (py_getitem obs v) as [ob|e]; [|done].
  destruct (ob_label_candidates ob) as [curr_lcs|]; [|by apply IH].
  unfold bind at 1, lift at 1.
  destruct (pad_text _ _ _ _ _ _ _) as [[po|]|e]; try done.
  unfold bind at 1.
  pose proof (mapM_lift_pure (py_getitem curr_lcs) (pad_valid_inds po) w) as Hsel.
  destruct (mapM _ _ w) as [[sel|e] w1]; simpl in Hsel; subst w1; [|done].
  unfold bind at 1, lift at 1.
  destruct (LongTensor _); [by apply IH | done].
Qed.

Lemma LongTensor_rows (rows : list (list Z)) (t : Tensor) :
  LongTensor rows = Ok t → t_rows t = rows ∧ rectangular rows = true.
Proof.
  unfold LongTensor. destruct (rectangular rows); [|done]. by intros [= <-].
Qed.

Lemma maybe_cuda_rows (b : bool) (t : Tensor) : t_rows (maybe_cuda b t) = t_rows t.
Proof. by destruct b. Qed.

(** [vectorize] reads the agent and changes nothing; its [xs] holds the rows
    of [pad_text], which [torch.LongTensor] took as a rectangle. *)
Lemma vectorize_spec (obs : list Observation) (w w' : World) r :
  vectorize obs w = (r, w') →
  w' = w
  ∧ let c := a_conf (w_agent w) in
    let padded :=
      pad_text obs (c_dict c) (Some (c_END_IDX c)) (c_NULL_IDX c) true true
        (c_truncate c) in
    (padded = Ok None → r = Ok None)
    ∧ ∀ b, r = Ok (Some b) →
           ∃ po, padded = Ok (Some po) ∧ t_rows (b_xs b) = pad_xs po
                 ∧ rectangular (t_rows (b_xs b)) = true
                 ∧ b_valid_inds b = pad_valid_inds po.
Proof.
  unfold vectorize. unfold bind at 1, get_agent at 1.
  unfold bind at 1, lift at 1.
  destruct (pad_text _ _ _ _ _ _ _) as [[po|]|e] eqn:Hpad;
    [| by intros [= <- <-] | by intros [= <- <-] ].
  unfold bind at 1, lift at 1.
  destruct (LongTensor (pad_xs po)) as [xs|e] eqn:Hxs; [|by intros [= <- <-]].
  apply LongTensor_rows in Hxs as [Hrows Hrect].
  unfold bind at 1.
  destruct (pad_ys po) as [rows|]; simpl.
  - unfold bind at 1, lift at 1.
    destruct (LongTensor rows) as [ys|e]; [|by intros [= <- <-]].
    unfold ret at 1. unfold bind at 1.
    destruct (negb _ && _).
    + unfold bind at 1.
      match goal with
      | |- context [vectorize_cands ?c ?o ?ivs ?cs ?vs w] =>
          pose proof (vectorize_cands_pure c o ivs cs vs w) as Hcv;
          destruct (vectorize_cands c o ivs cs vs w) as [[cv|e] w1]
      end; simpl in Hcv; subst w1;
        intros [= <- <-]; (split; [done|]); (split; [done|]); intros b [= <-];
        exists po; simpl; rewrite maybe_cuda_rows, Hrows; done.
    + intros [= <- <-]. split; [done|]. split; [done|]. intros b [= <-].
      exists po. simpl. by rewrite maybe_cuda_rows, Hrows.
  - unfold ret at 1. unfold bind at 1.
    destruct (negb _ && _).
    + unfold bind at 1.
      match goal with
      | |- context [vectorize_cands ?c ?o ?ivs ?cs ?vs w] =>
          pose proof (vectorize_cands_pure c o ivs cs vs w) as Hcv;
          destruct (vectorize_cands c o ivs cs vs w) as [[cv|e] w1]
      end; simpl in Hcv; subst w1;
        intros [= <- <-]; (split; [done|]); (split; [done|]); intros b [= <-];
        exists po; simpl; rewrite maybe_cuda_rows, Hrows; done.
    + intros [= <- <-]. split; [done|]. split; [done|]. intros b [= <-].
      exists po. simpl. by rewrite maybe_cuda_rows, Hrows.
Qed.

Lemma store_cands_inv cand_preds valid_cands idxs
    (replies replies' : list (gmap string (pyval F))) (w w' : World) :
  store_cands cand_preds valid_cands idxs replies w = (Ok replies', w') →
  length replies' = length replies
  ∧ ∀ id, Forall (has_id id) replies → Forall (has_id id) replies'.
Proof.
  revert replies w. induction idxs as [|i rest IH]; intros replies w; simpl.
  - by intros [= <- _].
  - unfold bind at 1, lift at 1.
    destruct (py_getitem cand_preds i) as [order|]; [|done].
    unfold bind at 1, lift at 1.
    destruct (py_getitem valid_cands i) as [vc|]; [|done].
    unfold bind at 1, lift at 1. unfold py_getitem at 1.
    destruct (replies !! fst vc) as [curr|] eqn:Hcurr; [|done].
    unfold bind at 1.
    destruct (select_cands _ _ w) as [[tc|] w1]; [|done].
    intros Hrest. apply IH in Hrest as [Hlen Hids].
    rewrite length_insert in Hlen. split; [done|].
    intros id Hall. apply Hids, Forall_insert; [done|].
    unfold has_id. rewrite lookup_insert_ne by done.
    by eapply (Forall_lookup_1 _ _ _ _ Hall).
Qed.

(** C5, as amended: whenever [batch_act] returns, it returns as many replies
    as it was given observations, each with the agent's id; when [pad_text]
    finds no valid observation the replies hold the id and nothing else; and
    the [xs] of [vectorize] is one rectangular tensor whose rows are the
    padded rows of the valid observations. *)
Theorem batch_act_replies (obs : list Observation) (w : World) :
  map_predictions_keeps_ids →
  let c := a_conf (w_agent w) in
  (∀ replies w', batch_act obs w = (Ok replies, w') →
     length replies = length obs ∧ Forall (has_id (c_id c)) replies)
  ∧ (∀ w0, init_cuda_buffer (length obs) w = (Ok tt, w0) →
           pad_text obs (c_dict c) (Some (c_END_IDX c)) (c_NULL_IDX c) true true
             (c_truncate c) = Ok None →
           batch_act obs w
           = (Ok (replicate (length obs) {["id" := PStr (c_id c)]}), w0))
  ∧ (∀ b w', vectorize obs w = (Ok (Some b), w') →
       rectangular (t_rows (b_xs b)) = true
       ∧ ∃ po, pad_text obs (c_dict c) (Some (c_END_IDX c)) (c_NULL_IDX c) true
                 true (c_truncate c) = Ok (Some po)
               ∧ t_rows (b_xs b) = pad_xs po).
Proof.
  intros Hmp c. split; [|split].
  - intros replies w'. unfold batch_act. unfold bind at 1.
    destruct (init_cuda_buffer _ w) as [[[]|] w0] eqn:Hinit; [|done].
    apply init_cuda_buffer_conf in Hinit.
    unfold bind at 1, get_agent at 1. rewrite Hinit. fold c.
    assert (Hfresh : ∀ n, Forall (has_id (c_id c))
                            (replicate n ({["id" := PStr (c_id c)]}
                                            : gmap string (pyval F)))).
    { intros n. apply Forall_replicate. unfold has_id. by simplify_map_eq. }
    unfold bind at 1.
    destruct (vectorize obs w0) as [[[b|]|] w1]; [| |done].
    2:{ intros [= <- _]. by rewrite length_replicate. }
    unfold bind at 1.
    destruct (predict _ _ _ _ _ w1) as [[[predictions cand_preds]|] w2]; [|done].
    simpl. unfold bind at 1.
    set (filled := match predictions with Some _ => _ | None => _ end).
    destruct (filled w2) as [[replies1|] w3] eqn:Hfilled; [|done].
    assert (Hinv1 : length replies1 = length obs
                    ∧ Forall (has_id (c_id c)) replies1).
    { subst filled. destruct predictions as [p|].
      - revert Hfilled. unfold bind at 1, get_agent at 1.
        match goal with
        | |- context [map_predictions ?p ?vi ?rs ?o ?d ?e ?rf ?l ?an ?ys] =>
            specialize (Hmp p vi rs o d e rf l an ys);
            destruct (map_predictions p vi rs o d e rf l an ys)
              as [r [replies2 answers]]
        end.
        simpl in Hmp. destruct Hmp as [Hlen Hids].
        unfold bind, upd_agent, lift, ret. simpl.
        destruct r; [|done]. intros [= <- _].
        rewrite Hlen, length_replicate. split; [done|].
        apply Forall_lookup_2. intros i r' Hr'.
        destruct (Hids _ _ Hr') as (r0 & Hr0 & Hid).
        unfold has_id. rewrite Hid.
        by eapply (Forall_lookup_1 _ _ _ _ (Hfresh _)).
      - revert Hfilled. intros [= <- _]. by rewrite length_replicate. }
    destruct Hinv1 as [Hlen1 Hids1].
    destruct cand_preds as [cp|]; [|by intros [= <- _]].
    intros Hstore. apply store_cands_inv in Hstore as [Hlen Hids].
    split; [congruence | by apply Hids].
  - intros w0 Hinit Hpad. unfold batch_act. unfold bind at 1. rewrite Hinit.
    apply init_cuda_buffer_conf in Hinit.
    unfold bind at 1, get_agent at 1. rewrite Hinit. fold c.
    unfold bind at 1.
    destruct (vectorize obs w0) as [r w1] eqn:Hvec.
    apply vectorize_spec in Hvec as [-> [Hnone _]].
    rewrite Hinit in Hnone. by rewrite (Hnone Hpad).
  - intros b w' Hvec. apply vectorize_spec in Hvec as [_ [_ Hsome]].
    destruct (Hsome b eq_refl) as (po & Hpad & Hrows & Hrect & _). eauto.
Qed.

(** [batch_act] returns whenever the warm-up, [vectorize], [predict] and
    [map_predictions] do and the model ranked no candidates. *)
Lemma batch_act_returns (obs : list Observation) (w w0 w2 : World) (b : Batch)
    (predictions : option Tensor) :
  init_cuda_buffer (length obs) w = (Ok tt, w0) →
  vectorize obs w0 = (Ok (Some b), w0) →
  predict (b_xs b) (b_ys b) (b_cands b)
    (map (λ t, fst (fst t)) <$> b_valid_cands b) (b_is_training b) w0
  = (Ok (predictions, None), w2) →
  (∀ p valid_inds replies o d end_idx report_freq labels answers ys,
     fst (map_predictions p valid_inds replies o d end_idx report_freq labels
            answers ys) = Ok tt) →
  is_ok (fst (batch_act obs w)) = true.
Proof.
  intros Hinit Hvec Hpred Hmp. unfold batch_act.
  unfold bind at 1. rewrite Hinit.
  unfold bind at 1, get_agent at 1.
  unfold bind at 1. rewrite Hvec.
  unfold bind at 1. rewrite Hpred. simpl.
  destruct predictions as [p|]; [|done].
  unfold bind, get_agent, upd_agent, lift, ret. simpl.
  match goal with
  | |- context [map_predictions ?p ?vi ?rs ?o ?d ?e ?rf ?l ?an ?ys] =>
      specialize (Hmp p vi rs o d e rf l an ys);
      destruct (map_predictions p vi rs o d e rf l an ys) as [r [replies answers]]
  end.
  simpl in Hmp. by rewrite Hmp.
Qed.
End BatchSpec.

(** The demo helper fills in the [text] of replies and nothing else. *)
Lemma demo_map_predictions_inv (d : list string) (rows : list (list Z))
    (valid_inds : list nat) (replies : list (gmap string (pyval tfloat)))
    (answers : list (option string)) :
  let replies' := fst (demo_map_predictions d rows valid_inds replies answers) in
  length replies' = length replies
  ∧ ∀ i r', replies' !! i = Some r' →
            ∃ r, replies !! i = Some r ∧ r' !! "id" = r !! "id".
Proof.
  revert valid_inds replies answers.
  induction rows as [|row rows IH]; intros valid_inds replies answers; simpl.
  { split; [done|]. eauto. }
  destruct valid_inds as [|k valid_inds]; simpl.
  { split; [done|]. eauto. }
  destruct (IH valid_inds
              (alter (insert "text"%string (PStr (demo_vec2txt d row))) k replies)
              (<[k := Some (demo_vec2txt d row)]> answers)) as [Hlen Hids].
  split; [by rewrite Hlen, length_alter|].
  intros i r' Hr'. destruct (Hids i r' Hr') as (r1 & Hr1 & Hid).
  destruct (decide (k = i)) as [->|Hne].
  - rewrite list_lookup_alter_eq in Hr1.
    destruct (replies !! i) as [r|]; [|done]. simpl in Hr1.
    injection Hr1 as <-. exists r. split; [done|].
    by rewrite Hid, lookup_insert_ne.
  - rewrite list_lookup_alter_ne in Hr1 by done. eauto.
Qed.

Lemma demo_map_predictions_keeps_ids :
  map_predictions_keeps_ids (F := tfloat).
Proof.
  intros p valid_inds replies obs d end_idx report_freq labels answers ys.
  apply demo_map_predictions_inv.
Qed.

(** Two runs of C5's theorem: a batch with nothing to process, and an
    evaluation batch with labels, whose predictions reach the replies. *)
Lemma batch_act_replies_witness :
  batch_act [mkObs None None None None None false] (demo_world (demo_trainer 5))
  = (Ok [{["id" := PStr "Transformer"]}], demo_world (demo_trainer 5))
  ∧ match fst (batch_act
                 [ mkObs (Some "hello") (Some [4]) None (Some ["world"]) None false;
                   mkObs None None None None None false ]%string
                 (demo_world demo_evaluator)) with
    | Ok replies =>
        length replies = 2%nat ∧ Forall (has_id "Transformer") replies
    | Raise _ => False
    end.
Proof.
  split.
  - apply (batch_act_replies [mkObs None None None None None false]
             (demo_world (demo_trainer 5)) demo_map_predictions_keeps_ids);
      reflexivity.
  - pose proof (proj1 (batch_act_replies
                         [ mkObs (Some "hello") (Some [4]) None (Some ["world"])
                             None false;
                           mkObs None None None None None false ]%string
                         (demo_world demo_evaluator)
                         demo_map_predictions_keeps_ids)) as Hlen.
    match goal with
    | |- match fst ?run with _ => _ end =>
        assert (Hok : is_ok (fst run) = true) by reflexivity;
        destruct run as [[replies|e] w'] eqn:Hrun
    end; [|done].
    exact (Hlen _ _ eq_refl).
Defined.

(** C5 as stated fails where the model raises: in a training batch a
    [RuntimeError] that is not an out-of-memory error leaves [batch_act]
    without a reply list. *)
Lemma batch_act_model_error :
  fst (batch_act [demo_obs "hello world" (Some ["how are you"%string])]
         (demo_world (demo_trainer 666)))
  = Raise (RuntimeError "size mismatch").
Proof. reflexivity. Qed.

(** An evaluation batch without labels ends in the [NameError] of
    [predict]. *)
Example batch_act_unlabelled_demo :
  fst (batch_act [demo_obs "you" None] (demo_world demo_evaluator))
  = Raise (NameError "predicted").
Proof. reflexivity. Qed.

(** ** save *)

Section SaveSpec.
Context {F : Type} `{!PyFloat F} `{!ParlaiCore F} `{!Torch F} `{!PyOS}.

Lemma append_ne (p s : string) : s ≠ ""%string → p +:+ s ≠ p.
Proof.
  intros Hs Heq. apply Hs. clear Hs.
  induction p as [|c p IH]; simpl in Heq; [done|].
  injection Heq as Heq. by apply IH.
Qed.

(** For an agent with a model and an optimizer, [save] comes down to its
    two writes. *)
Lemma save_unfold (path : option string) (w : World) (p : string) (m : Model)
    (o : Optimizer) :
  let opt := c_opt (a_conf (w_agent w)) in
  effective_path path (w_agent w) = Some p → str_truthy p = true →
  a_model (w_agent w) = Some m → a_optimizer (w_agent w) = Some o →
  save path w
  = (write_file p (FStates (saved_states opt m o)) ;;
     write_file (p +:+ ".opt") (FOpt opt)) w.
Proof.
  intros opt Hpath Htruthy Hm Ho. subst opt. unfold save, effective_path in *.
  unfold the_model, the_optimizer. unfold bind at 1, get_agent at 1.
  rewrite Hpath, Htruthy, Hm. simpl.
  unfold bind at 1, bind at 1, get_agent at 1. rewrite Hm. unfold ret at 1.
  unfold bind at 1, bind at 1, get_agent at 1. rewrite Ho. by unfold ret at 1.
Qed.

(** C3, as amended: for an agent that has a model and an optimizer, [save]
    with a non-empty path (its argument, or [model_file] without one) opens
    the path and then the path with [.opt] appended.  Where both can be
    opened it writes the model's state dict, its [longest_label], the
    optimizer's state dict and the optimizer option to the first and the
    options to the second, and changes no other file and nothing of the
    agent; the first file holds the record afterwards unless the two paths
    name one file.  Where the first cannot be opened, [save] raises the
    [OSError] and has written nothing; where the second cannot, it raises
    with the record written.  Without a path, or with an empty one, it
    writes nothing and changes nothing. *)
Theorem save_persists (path : option string) (w : World) :
  let a := w_agent w in
  let opt := c_opt (a_conf a) in
  (∀ p m o,
     effective_path path a = Some p → str_truthy p = true →
     a_model a = Some m → a_optimizer a = Some o →
     (open_wb p = None → open_wb (p +:+ ".opt") = None →
      ∃ fs,
        save path w = (Ok tt, mkWorld a (mkEnv fs (e_trace (w_env w))))
        ∧ fs !! realpath (p +:+ ".opt") = Some (FOpt opt)
        ∧ (realpath p ≠ realpath (p +:+ ".opt") →
           fs !! realpath p = Some (FStates (saved_states opt m o)))
        ∧ ∀ q, q ≠ realpath p → q ≠ realpath (p +:+ ".opt") →
               fs !! q = e_fs (w_env w) !! q)
     ∧ (∀ msg, open_wb p = Some msg → save path w = (Raise (OSError msg), w))
     ∧ (∀ msg, open_wb p = None → open_wb (p +:+ ".opt") = Some msg →
               save path w
               = (Raise (OSError msg),
                  mkWorld a
                    (mkEnv (<[realpath p := FStates (saved_states opt m o)]>
                              (e_fs (w_env w)))
                       (e_trace (w_env w))))))
  ∧ (effective_path path a = None ∨ effective_path path a = Some ""%string →
     save path w = (Ok tt, w)).
Proof.
  intros a opt. split.
  - intros p m o Hpath Htruthy Hm Ho.
    pose proof (save_unfold path w p m o Hpath Htruthy Hm Ho) as Hsave.
    fold a opt in Hsave. rewrite Hsave. clear Hsave.
    unfold bind, write_file. simpl. split; [|split].
    + intros -> ->.
      exists (<[realpath (p +:+ ".opt") := FOpt opt]>
                (<[realpath p := FStates (saved_states opt m o)]>
                   (e_fs (w_env w)))).
      split; [done|]. split; [by rewrite lookup_insert_eq|]. split.
      * intros Hdiff. rewrite lookup_insert_ne by done.
        by rewrite lookup_insert_eq.
      * intros q Hq1 Hq2. by rewrite !lookup_insert_ne.
    + intros msg ->. by destruct w.
    + by intros msg -> ->.
  - subst a opt. unfold save, effective_path, bind, get_agent, ret. simpl.
    intros [Hnone | Hempty].
    + rewrite Hnone. by destruct w.
    + rewrite Hempty. by destruct w.
Qed.

(** [shutdown] calls [save] only for an agent with an optimizer. *)
Lemma shutdown_without_optimizer (w : World) :
  a_optimizer (w_agent w) = None → shutdown w = (Ok tt, w).
Proof.
  intros Hnone. unfold shutdown, bind, get_agent, ret. simpl.
  rewrite Hnone. destruct (o_model_file _); by destruct w.
Qed.

End SaveSpec.

(** A run of C3's theorem: the training agent saves to its [model_file]. *)
Lemma save_persists_witness :
  ∃ fs,
    save None (demo_world (demo_trainer 5))
    = (Ok tt, mkWorld (demo_trainer 5) (mkEnv fs []))
    ∧ fs !! "/tmp/model"%string
      = Some (FStates (mkStates (Some 5) (Some 1) (Some 0) (Some "sgd"%string)))
    ∧ fs !! "/tmp/model.opt"%string = Some (FOpt (demo_opt "train")).
Proof.
  destruct (proj1 (save_persists None (demo_world (demo_trainer 5)))
              "/tmp/model"%string (mkDemoModel 5 false)
              (mkDemoOptimizer "sgd" 0) eq_refl eq_refl eq_refl eq_refl)
    as (Hwritten & _).
  destruct (Hwritten eq_refl eq_refl) as (fs & Hrun & Hopt & Hstates & _).
  exists fs. split; [exact Hrun|]. split; [|exact Hopt].
  apply Hstates. discriminate.
Defined.

(** Where the directory of the path is missing, [save] raises and writes
    nothing. *)
Example save_unwritable_demo :
  save (Some "/no/such/dir/model"%string) (demo_world (demo_trainer 5))
  = (Raise (OSError "[Errno 2] No such file or directory"),
     demo_world (demo_trainer 5)).
Proof. reflexivity. Qed.

(** C3 as stated fails for an agent that has a model and no optimizer, as an
    agent built for evaluation: [save] raises and writes nothing. *)
Lemma save_without_optimizer :
  a_model demo_evaluator = Some (mkDemoModel 5 false)
  ∧ save (Some "/tmp/model"%string) (demo_world demo_evaluator)
    = (Raise (AttributeError "optimizer"), demo_world demo_evaluator).
Proof. split; reflexivity. Qed.

(** ** __init__ *)

Section InitSpec.
Context {F : Type} `{!PyFloat F} `{!ParlaiCore F} `{!Torch F} `{!PyOS}.

Lemma load_spec (p : string) (env env' : Env) (s : States) r :
  e_fs env !! realpath p = Some (FStates s) → load p env = (r, env') →
  r = Ok s ∧ env' = env.
Proof. unfold load. intros ->. by intros [= <- <-]. Qed.

(** [__init__] returns on a file of saved states whenever the model can be
    built and takes the saved parameters: the only error of the optimizer's
    [load_state_dict] that it lets through is one that is no [ValueError]. *)
Lemma init_from_file_returns (opt0 : Opt F) (env : Env) (p : string)
    (s : States) (m0 m1 : Model) (saved : ModelState) :
  pick_init_model env (with_flags_off opt0) = Some p →
  e_fs env !! realpath p = Some (FStates s) →
  let opt := loaded_opt env p opt0 in
  new_model (dict_len (new_dictionary opt)) opt = Ok m0 →
  st_model s = Some saved →
  model_load_state_dict m0 saved = Ok m1 →
  let model := placed_model opt0 opt m1 in
  let fresh := new_optimizer (o_optimizer opt) (optim_kwargs opt) model in
  (is_training opt = false →
   ∃ a, init opt0 None env = (Ok a, env)
        ∧ a_model a = Some model ∧ a_optimizer a = None)
  ∧ (is_training opt = true → o_optimizer opt ∈ OPTIM_OPTS →
     match st_optimizer s with
     | None =>
         ∃ a, init opt0 None env = (Ok a, env)
              ∧ a_model a = Some model ∧ a_optimizer a = Some fresh
     | Some saved_opt =>
         ∀ ty, st_optimizer_type s = Some ty →
           if bool_decide (ty = o_optimizer opt) then
             match optimizer_load_state_dict fresh saved_opt with
             | Ok restored =>
                 ∃ a, init opt0 None env = (Ok a, env)
                      ∧ a_model a = Some model
                      ∧ a_optimizer a = Some (placed_optimizer opt0 restored)
             | Raise (ValueError _) =>
                 ∃ a, init opt0 None env = (Ok a, env)
                      ∧ a_model a = Some model
                      ∧ a_optimizer a = Some (placed_optimizer opt0 fresh)
             | Raise e => init opt0 None env = (Raise e, env)
             end
           else
             ∃ a, init opt0 None env = (Ok a, env)
                  ∧ a_model a = Some model ∧ a_optimizer a = Some fresh
     end).
Proof.
  intros Hpick Hfile opt Hnew Hsaved Hload model fresh.
  subst model fresh opt.
  assert (Htruthy : states_truthy s = true).
  { unfold states_truthy. by rewrite Hsaved. }
  unfold init, init_optimizer, load, bind, get, ret, lift, raise.
  simpl. rewrite Hpick, Hfile. simpl. rewrite Htruthy. simpl.
  fold (loaded_opt env p opt0). fold (init_use_cuda opt0).
  set (opt := loaded_opt env p opt0) in *.
  rewrite Hnew. simpl.
  destruct (bool_decide (o_dict_tokenizer opt = Some "bpe"%string) && _);
    simpl; rewrite Hsaved; simpl; rewrite Hload; simpl.
  all: unfold placed_model, placed_optimizer, is_training.
  all: destruct (str_contains "train" _); simpl;
    [| split; [intros _; eexists; by repeat split | done] ].
  all: split; [done|]; intros _ Hin.
  all: rewrite bool_decide_eq_true_2 by done; simpl.
  all: destruct (st_optimizer s) as [saved_opt|]; simpl;
    [| eexists; by repeat split ].
  all: intros ty ->; simpl.
  all: destruct (decide (ty = o_optimizer opt)) as [->|Hne];
    [ rewrite (bool_decide_eq_false_2 (o_optimizer opt ≠ o_optimizer opt))
        by (intros Hne; by apply Hne);
      rewrite (bool_decide_eq_true_2 (o_optimizer opt = o_optimizer opt)) by done
    | rewrite (bool_decide_eq_true_2 (ty ≠ o_optimizer opt)) by done;
      rewrite (bool_decide_eq_false_2 (ty = o_optimizer opt)) by done;
      simpl; eexists; by repeat split ].
  all: simpl; destruct (optimizer_load_state_dict _ saved_opt) as [restored|[]];
    simpl; try done; eexists; by repeat split.
Qed.

(** C4: an agent constructed from a file of saved states has the model that
    [load_state_dict] made of [states['model']]; when it trains, its
    optimizer is the fresh one unless the saved optimizer type is the
    configured one and the saved optimizer state loads; with a different
    type, or a [ValueError] from the load, the optimizer is the fresh one and
    the model is the restored one all the same.  The first part says what
    an agent holds that [__init__] returned; the second that [__init__]
    does return in each of these cases, the [ValueError] included, whenever
    the model can be built and takes the saved parameters. *)
Theorem init_restores (opt0 : Opt F) (env : Env) (p : string) (s : States) :
  pick_init_model env (with_flags_off opt0) = Some p →
  e_fs env !! realpath p = Some (FStates s) →
  states_truthy s = true →
  let opt := loaded_opt env p opt0 in
  (∀ a env', init opt0 None env = (Ok a, env') →
     ∃ m0 saved m1,
       new_model (dict_len (new_dictionary opt)) opt = Ok m0
       ∧ st_model s = Some saved
       ∧ model_load_state_dict m0 saved = Ok m1
       ∧ a_model a = Some (placed_model opt0 opt m1)
       ∧ (is_training opt = false → a_optimizer a = None)
       ∧ (is_training opt = true →
          let fresh :=
            new_optimizer (o_optimizer opt) (optim_kwargs opt)
              (placed_model opt0 opt m1) in
          match st_optimizer s with
          | None => a_optimizer a = Some fresh
          | Some saved_opt =>
              (st_optimizer_type s ≠ Some (o_optimizer opt) →
               a_optimizer a = Some fresh)
              ∧ (st_optimizer_type s = Some (o_optimizer opt) →
                 match optimizer_load_state_dict fresh saved_opt with
                 | Ok restored => a_optimizer a = Some (placed_optimizer opt0 restored)
                 | Raise _ => a_optimizer a = Some (placed_optimizer opt0 fresh)
                 end)
          end))
  ∧ (∀ m0 saved m1,
       new_model (dict_len (new_dictionary opt)) opt = Ok m0 →
       st_model s = Some saved →
       model_load_state_dict m0 saved = Ok m1 →
       let model := placed_model opt0 opt m1 in
       let fresh := new_optimizer (o_optimizer opt) (optim_kwargs opt) model in
       (is_training opt = false →
        ∃ a, init opt0 None env = (Ok a, env)
             ∧ a_model a = Some model ∧ a_optimizer a = None)
       ∧ (is_training opt = true → o_optimizer opt ∈ OPTIM_OPTS →
          match st_optimizer s with
          | None =>
              ∃ a, init opt0 None env = (Ok a, env)
                   ∧ a_model a = Some model ∧ a_optimizer a = Some fresh
          | Some saved_opt =>
              ∀ ty, st_optimizer_type s = Some ty →
                if bool_decide (ty = o_optimizer opt) then
                  match optimizer_load_state_dict fresh saved_opt with
                  | Ok restored =>
                      ∃ a, init opt0 None env = (Ok a, env)
                           ∧ a_model a = Some model
                           ∧ a_optimizer a = Some (placed_optimizer opt0 restored)
                  | Raise (ValueError _) =>
                      ∃ a, init opt0 None env = (Ok a, env)
                           ∧ a_model a = Some model
                           ∧ a_optimizer a = Some (placed_optimizer opt0 fresh)
                  | Raise e => init opt0 None env = (Raise e, env)
                  end
                else
                  ∃ a, init opt0 None env = (Ok a, env)
                       ∧ a_model a = Some model ∧ a_optimizer a = Some fresh
          end)).
Proof.
  intros Hpick Hfile Htruthy opt. split.
  2:{ intros m0 saved m1. by apply init_from_file_returns. }
  intros a env' Hinit. revert Hinit. subst opt. intros Hinit.
  unfold init, init_optimizer, load, bind, get, ret, lift, raise in Hinit.
  simpl in Hinit. rewrite Hpick, Hfile in Hinit. simpl in Hinit.
  rewrite Htruthy in Hinit. simpl in Hinit.
  fold (loaded_opt env p opt0) in Hinit.
  fold (init_use_cuda opt0) in Hinit.
  set (opt := loaded_opt env p opt0) in *.
  destruct (new_model _ opt) as [m0|] eqn:Hnew; simpl in Hinit; [|by simplify_eq].
  destruct (bool_decide (o_dict_tokenizer opt = Some "bpe"%string) && _);
    simpl in Hinit.
  all: destruct (st_model s) as [saved|] eqn:Hsaved; simpl in Hinit; [|by simplify_eq].
  all: destruct (model_load_state_dict m0 saved) as [m1|] eqn:Hloaded; simpl in Hinit;
    [|by simplify_eq].
  all: exists m0, saved, m1; do 3 (split; [done|]).
  all: unfold placed_model, placed_optimizer, is_training.
  all: destruct (str_contains "train" _); simpl in *;
    [| simplify_eq/=; by split ].
  all: destruct (bool_decide (o_optimizer opt ∈ OPTIM_OPTS)); simpl in Hinit;
    [|by simplify_eq].
  all: destruct (st_optimizer s) as [saved_opt|]; simpl in Hinit;
    [| simplify_eq/=; by repeat split ].
  all: destruct (st_optimizer_type s) as [ty|]; simpl in Hinit; [|by simplify_eq].
  all: case_bool_decide as Hty; simpl in Hinit.
  1, 3: simplify_eq/=; (split; [done|]); (split; [done|]);
    intros _; (split; [done|]); intros [= ?]; by subst.
  all: destruct (optimizer_load_state_dict _ saved_opt) as [restored|e];
    [| destruct e ]; simpl in Hinit; try (by simplify_eq).
  all: simplify_eq/=; (split; [done|]); (split; [done|]);
    intros _; (split; [|by simplify_eq]); intros Hne; destruct Hne; f_equal;
    by apply dec_stable.
Qed.

End InitSpec.

(** Three runs of C4's theorem.  The file was saved by an [adam] optimizer
    and the agent is configured for [sgd]: the model is restored, the
    optimizer is fresh.  The file was saved by an [sgd] optimizer whose state
    the new optimizer refuses with a [ValueError]: [__init__] returns all the
    same, with the restored model and the fresh optimizer.  The saved state
    loads: the optimizer has it. *)
Lemma init_restores_witness :
  (∃ a, init (demo_opt "train") None (demo_saved_env "adam" 3)
        = (Ok a, demo_saved_env "adam" 3)
        ∧ a_model a = Some (mkDemoModel 7 false)
        ∧ a_optimizer a = Some (mkDemoOptimizer "sgd" 0))
  ∧ (∃ a, init (demo_opt "train") None (demo_saved_env "sgd" (-1))
          = (Ok a, demo_saved_env "sgd" (-1))
          ∧ a_model a = Some (mkDemoModel 7 false)
          ∧ a_optimizer a = Some (mkDemoOptimizer "sgd" 0))
  ∧ (∃ a, init (demo_opt "train") None (demo_saved_env "sgd" 3)
          = (Ok a, demo_saved_env "sgd" 3)
          ∧ a_model a = Some (mkDemoModel 7 false)
          ∧ a_optimizer a = Some (mkDemoOptimizer "sgd" 3)).
Proof.
  assert (Hin : ("sgd" : string) ∈ OPTIM_OPTS) by (by compute_done).
  split; [|split].
  - assert (Hpick : pick_init_model (demo_saved_env "adam" 3)
                      (with_flags_off (demo_opt "train"))
                    = Some "/tmp/model"%string) by reflexivity.
    destruct (init_restores (demo_opt "train") (demo_saved_env "adam" 3)
                "/tmp/model" (demo_saved_states "adam" 3) Hpick
                eq_refl eq_refl) as [_ Hret].
    destruct (Hret (mkDemoModel 9 false) 7 (mkDemoModel 7 false)
                eq_refl eq_refl eq_refl) as [_ Htrain].
    exact (Htrain eq_refl Hin "adam"%string eq_refl).
  - assert (Hpick : pick_init_model (demo_saved_env "sgd" (-1))
                      (with_flags_off (demo_opt "train"))
                    = Some "/tmp/model"%string) by reflexivity.
    destruct (init_restores (demo_opt "train") (demo_saved_env "sgd" (-1))
                "/tmp/model" (demo_saved_states "sgd" (-1)) Hpick
                eq_refl eq_refl) as [_ Hret].
    destruct (Hret (mkDemoModel 9 false) 7 (mkDemoModel 7 false)
                eq_refl eq_refl eq_refl) as [_ Htrain].
    exact (Htrain eq_refl Hin "sgd"%string eq_refl).
  - assert (Hpick : pick_init_model (demo_saved_env "sgd" 3)
                      (with_flags_off (demo_opt "train"))
                    = Some "/tmp/model"%string) by reflexivity.
    destruct (init_restores (demo_opt "train") (demo_saved_env "sgd" 3)
                "/tmp/model" (demo_saved_states "sgd" 3) Hpick
                eq_refl eq_refl) as [_ Hret].
    destruct (Hret (mkDemoModel 9 false) 7 (mkDemoModel 7 false)
                eq_refl eq_refl eq_refl) as [_ Htrain].
    exact (Htrain eq_refl Hin "sgd"%string eq_refl).
Defined.

(** The same file saved by an [sgd] optimizer: its state 3 is restored; a
    state that the optimizer refuses with a [ValueError] is not, and the
    model is restored all the same. *)
Example init_restores_optimizer_demo :
  (outcome_map a_optimizer (fst (init (demo_opt "train") None (demo_saved_env "sgd" 3))))
  = Ok (Some (mkDemoOptimizer "sgd" 3))
  ∧ (outcome_map a_optimizer (fst (init (demo_opt "train") None (demo_saved_env "sgd" (-1)))))
    = Ok (Some (mkDemoOptimizer "sgd" 0))
  ∧ (outcome_map a_model (fst (init (demo_opt "train") None (demo_saved_env "sgd" (-1)))))
    = Ok (Some (mkDemoModel 7 false)).
Proof. repeat split. Qed.

(** ** mydefaultdict and next_word_probability *)

Section DistSpec.
Context {F : Type} `{!PyFloat F} `{!ParlaiCore F} `{!Torch F} `{!PyOS}.

Lemma dd_get_present (d : mydefaultdict) (key : string) (default v : pyval F) :
  dd_items d !! key = Some v → dd_get d key default = v.
Proof. unfold dd_get. by intros ->. Qed.

Lemma dd_get_missing (d : mydefaultdict) (key : string) (default : pyval F) :
  dd_items d !! key = None →
  dd_get d key default
  = if py_truthy default then default else default_factory d tt.
Proof. unfold dd_get, py_or. by intros ->. Qed.

Lemma fill_dist_factory (dict : Dictionary) (probs : list F) (dist : mydefaultdict) :
  default_factory (fill_dist dict probs dist) = default_factory dist.
Proof.
  unfold fill_dist. generalize (imap (λ (i : nat) (x : F), (i, x)) probs).
  intros l. revert dist. induction l as [|ip l IH]; intros dist; simpl; [done|].
  by rewrite IH.
Qed.

Lemma next_word_probability_factory (partial_out : list string) (w w' : World)
    (dist : mydefaultdict) :
  next_word_probability partial_out w = (Ok dist, w') →
  default_factory dist = λ _, PFloat f_1e_7.
Proof.
  unfold next_word_probability, the_model, bind, get_agent, upd_agent, log,
    lift, ret, raise.
  simpl. intros Hrun. cases. by rewrite fill_dist_factory.
Qed.

(** C10: in the distribution that [next_word_probability] returns, a word
    that has no entry gets the factory's [1e-7]: from [get] when the caller
    gives no default ([None]) or a falsy one such as [0], and from
    indexing. *)
Theorem next_word_probability_default (partial_out : list string) (w w' : World)
    (dist : mydefaultdict) (word : string) (default : pyval F) :
  next_word_probability partial_out w = (Ok dist, w') →
  dd_items dist !! word = None →
  py_truthy default = false →
  dd_get dist word default = PFloat f_1e_7
  ∧ dd_get dist word PNone = PFloat f_1e_7
  ∧ dd_get dist word (PInt 0) = PFloat f_1e_7
  ∧ fst (dd_getitem dist word) = PFloat f_1e_7.
Proof.
  intros Hrun Hmissing Hfalsy.
  apply next_word_probability_factory in Hrun.
  rewrite !dd_get_missing by done. rewrite Hfalsy. simpl.
  unfold dd_getitem. rewrite Hmissing. simpl. by rewrite Hrun.
Qed.

End DistSpec.

(** A run of C10's theorem: the model spreads the probability over two
    tokens; a word outside them, asked for with default [0], gets [1e-7]. *)
Lemma next_word_probability_default_witness :
  match fst (next_word_probability ["hello"%string] (demo_world demo_listener)) with
  | Ok dist =>
      dd_items dist !! "__NULL__"%string = Some (PFloat (Fin 6000000))
      ∧ dd_get dist "zebra" (PInt 0) = PFloat (Fin 1)
  | Raise _ => False
  end.
Proof.
  assert (Hok : is_ok (fst (next_word_probability ["hello"%string]
                              (demo_world demo_listener))) = true)
    by reflexivity.
  assert (Hmissing :
            match fst (next_word_probability ["hello"%string]
                         (demo_world demo_listener)) with
            | Ok dist =>
                dd_items dist !! "zebra"%string = None
                ∧ dd_items dist !! "__NULL__"%string = Some (PFloat (Fin 6000000))
            | Raise _ => True
            end) by (split; reflexivity).
  destruct (next_word_probability ["hello"%string] (demo_world demo_listener))
    as [[dist|e] w'] eqn:Hrun; [|done].
  simpl in *. destruct Hmissing as [Hmissing Hnull]. split; [exact Hnull|].
  exact (proj1 (next_word_probability_default _ _ _ _ "zebra"%string (PInt 0)
                  Hrun Hmissing eq_refl)).
Defined.

(** ** More on reset, v2t and report *)

Section ResetSpec.
Context {F : Type} `{!PyFloat F} `{!ParlaiCore F} `{!Torch F} `{!PyOS}.

(** The loop that writes [None] at the positions [k .. k + n - 1]. *)
Lemma clear_loop_lookup {A} (l : list (option A)) (k n i : nat) :
  foldl (λ l i, <[i := None]> l) l (seq k n) !! i
  = if bool_decide (k ≤ i < k + n)%nat then (λ _, None) <$> l !! i else l !! i.
Proof.
  revert l k. induction n as [|n IH]; intros l k; simpl.
  - case_bool_decide; [lia|done].
  - rewrite IH. destruct (decide (i = k)) as [->|Hne].
    + rewrite bool_decide_eq_false_2 by lia.
      rewrite bool_decide_eq_true_2 by lia.
      destruct (decide (k < length l)%nat) as [Hlt|Hge].
      * rewrite list_lookup_insert_eq by done.
        by destruct (lookup_lt_is_Some_2 _ _ Hlt) as [x ->].
      * rewrite list_insert_ge by lia. by rewrite lookup_ge_None_2 by lia.
    + rewrite list_lookup_insert_ne by done.
      repeat case_bool_decide; try lia; done.
Qed.

Lemma clear_loop_length {A} (l : list (option A)) (k n : nat) :
  length (foldl (λ l i, <[i := None]> l) l (seq k n)) = length l.
Proof.
  revert l k. induction n as [|n IH]; intros l k; simpl; [done|].
  by rewrite IH, length_insert.
Qed.

Lemma clear_answers_spec (answers : list (option Answer)) :
  clear_answers answers = replicate (length answers) None.
Proof.
  apply list_eq. intros i. unfold clear_answers. rewrite clear_loop_lookup.
  destruct (decide (i < length answers)%nat) as [Hlt|Hge].
  - rewrite bool_decide_eq_true_2 by lia.
    destruct (lookup_lt_is_Some_2 _ _ Hlt) as [x ->]. simpl.
    symmetry. by apply lookup_replicate_2.
  - rewrite bool_decide_eq_false_2 by lia.
    rewrite !lookup_ge_None_2; [done | rewrite length_replicate; lia | lia].
Qed.

(** X1. [reset] empties every slot of [self.answers] (the list keeps its
    length), forgets the observation and the history, and leaves the model,
    the optimizer and the settings of the agent as they are. *)
Theorem reset_clears (a : Agent) :
  a_answers (reset a) = replicate (length (a_answers a)) None
  ∧ a_observation (reset a) = None
  ∧ a_history (reset a) = history_empty
  ∧ a_conf (reset a) = a_conf a
  ∧ a_model (reset a) = a_model a
  ∧ a_optimizer (reset a) = a_optimizer a
  ∧ a_buffer_initialized (reset a) = a_buffer_initialized a.
Proof.
  split; [|by repeat split].
  change (a_answers (reset a)) with (clear_answers (a_answers a)).
  apply clear_answers_spec.
Qed.

Lemma before_first_sublist (x : Z) (l : list Z) : before_first x l `sublist_of` l.
Proof.
  induction l as [|i rest IH]; simpl; [done|].
  destruct (i =? x); [apply sublist_nil_l | by apply sublist_skip].
Qed.

Lemma before_first_clean (x : Z) (l : list Z) : x ∉ before_first x l.
Proof.
  induction l as [|i rest IH]; simpl; [apply not_elem_of_nil|].
  destruct (Z.eqb_spec i x) as [->|Hne]; [apply not_elem_of_nil|].
  apply not_elem_of_cons. split; [congruence | done].
Qed.

Lemma before_first_app (x : Z) (l rest : list Z) :
  x ∉ l → before_first x (l ++ x :: rest) = l.
Proof.
  induction l as [|i l IH]; simpl.
  - intros _. by rewrite Z.eqb_refl.
  - intros Hnotin. apply not_elem_of_cons in Hnotin as [Hne Hl].
    destruct (Z.eqb_spec i x) as [->|_]; [done|]. by rewrite IH.
Qed.

(** X2. [v2t] ignores whatever follows the first [END_IDX], and what it hands to
    the dictionary is a subsequence of the input that holds neither
    [START_IDX] nor [END_IDX]. *)
Theorem v2t_cut_and_clean (a : Agent) (vec rest : list Z) :
  let d := c_dict (a_conf a) in
  let START := c_START_IDX (a_conf a) in
  let END := c_END_IDX (a_conf a) in
  (END ∉ vec → v2t a (vec ++ END :: rest) = v2t a vec)
  ∧ ∃ kept, v2t a vec = vec2txt d kept
            ∧ (kept `sublist_of` vec) ∧ (START ∉ kept) ∧ (END ∉ kept).
Proof.
  intros d START END. split.
  - intros Hend. rewrite !v2t_spec. fold END.
    by rewrite before_first_app, before_first_absent.
  - exists (filter (λ i, i ≠ START) (before_first END vec)).
    split; [apply v2t_spec|]. split; [|split].
    + etrans; [apply sublist_filter | apply before_first_sublist].
    + rewrite list_elem_of_filter. intros [Hne _]. by apply Hne.
    + rewrite list_elem_of_filter. intros [_ Hin].
      by apply (before_first_clean END vec).
Qed.

Ltac report_dom a :=
  unfold report; rewrite dom_fmap_L;
  destruct (0 <? num_tokens (a_metrics a));
  destruct (0 <? total_skipped_batches (a_metrics a));
  destruct (0 <? correct_tokens (a_metrics a));
  try destruct (math_exp _);
  rewrite ?dom_insert_L, ?dom_empty_L; set_solver.

(** X3. The keys of a report: [loss] and [ppl] together, exactly when tokens were
    counted; [token_acc], the rounded share of correct tokens, only with
    them and when some token was correct; [total_skipped_batches] exactly
    when a batch was skipped; and no other key. *)
Theorem report_keys (a : Agent) :
  let m := a_metrics a in
  dom (report a)
  = (if 0 <? num_tokens m
     then {["loss"; "ppl"]}
          ∪ (if 0 <? correct_tokens m then {["token_acc"]} else ∅)
     else ∅)
    ∪ (if 0 <? total_skipped_batches m then {["total_skipped_batches"]} else ∅)
  ∧ report a !! "total_skipped_batches"
    = (if 0 <? total_skipped_batches m
       then Some (round_sigfigs (PInt (total_skipped_batches m)) 4)
       else None)
  ∧ report a !! "token_acc"
    = (if (0 <? num_tokens m) && (0 <? correct_tokens m)
       then Some (round_sigfigs
                    (PFloat (int_truediv (correct_tokens m) (num_tokens m))) 4)
       else None)
  ∧ (num_tokens m = 0 → total_skipped_batches m = 0 → report a = ∅).
Proof.
  intros m. subst m. split; [|split; [|split]].
  - report_dom a.
  - unfold report. rewrite lookup_fmap.
    destruct (0 <? num_tokens (a_metrics a));
      destruct (0 <? total_skipped_batches (a_metrics a));
      destruct (0 <? correct_tokens (a_metrics a));
      try destruct (math_exp _); by simplify_map_eq.
  - unfold report. rewrite lookup_fmap.
    destruct (0 <? num_tokens (a_metrics a));
      destruct (0 <? total_skipped_batches (a_metrics a));
      destruct (0 <? correct_tokens (a_metrics a));
      try destruct (math_exp _); by simplify_map_eq.
  - intros Htok Hskip. unfold report. rewrite Htok, Hskip. simpl.
    apply fmap_empty.
Qed.

End ResetSpec.

(** ** More on shutdown and the CUDA warm-up *)

Section FilesSpec.
Context {F : Type} `{!PyFloat F} `{!ParlaiCore F} `{!Torch F} `{!PyOS}.

Lemma append_truthy (p s : string) : str_truthy s = true → str_truthy (p +:+ s) = true.
Proof. destruct p; [done|]. by destruct s. Qed.

(** X5. [shutdown] of an agent with a model, an optimizer and a [model_file]
    saves under the name of the model file with [.shutdown_state] appended,
    not under the model file's own name: where that path and the one with
    [.opt] appended can be opened, it writes the saved record and the
    options there and every other file, the model file among them, is as it
    was; where the first cannot be opened it raises the [OSError] and has
    written nothing.  Without an optimizer it writes nothing. *)
Theorem shutdown_saves_aside (w : World) :
  let a := w_agent w in
  let opt := c_opt (a_conf a) in
  (∀ p m o,
     o_model_file opt = Some p → a_model a = Some m → a_optimizer a = Some o →
     let q := p +:+ ".shutdown_state" in
     (open_wb q = None → open_wb (q +:+ ".opt") = None →
      ∃ fs,
        shutdown w = (Ok tt, mkWorld a (mkEnv fs (e_trace (w_env w))))
        ∧ fs !! realpath (q +:+ ".opt") = Some (FOpt opt)
        ∧ (realpath q ≠ realpath (q +:+ ".opt") →
           fs !! realpath q = Some (FStates (saved_states opt m o)))
        ∧ ∀ f, f ≠ realpath q → f ≠ realpath (q +:+ ".opt") →
               fs !! f = e_fs (w_env w) !! f)
     ∧ (∀ msg, open_wb q = Some msg → shutdown w = (Raise (OSError msg), w)))
  ∧ (a_optimizer a = None → shutdown w = (Ok tt, w)).
Proof.
  intros a opt. split; [|apply shutdown_without_optimizer].
  intros p m o Hfile Hm Ho q.
  assert (Hrun : shutdown w
                 = (write_file q (FStates (saved_states opt m o)) ;;
                    write_file (q +:+ ".opt") (FOpt opt)) w).
  { unfold shutdown. unfold bind at 1, get_agent at 1. fold a opt.
    rewrite Hfile, Ho. simpl.
    apply (save_unfold (Some q) w q m o); try done.
    by apply append_truthy. }
  rewrite Hrun. clear Hrun. unfold bind, write_file. simpl. split.
  - intros -> ->.
    exists (<[realpath (q +:+ ".opt") := FOpt opt]>
              (<[realpath q := FStates (saved_states opt m o)]>
                 (e_fs (w_env w)))).
    split; [done|]. split; [by rewrite lookup_insert_eq|]. split.
    + intros Hdiff. rewrite lookup_insert_ne by done.
      by rewrite lookup_insert_eq.
    + intros f Hf1 Hf2. by rewrite !lookup_insert_ne.
  - intros msg ->. by destruct w.
Qed.

(** The warm-up does nothing without CUDA or once it has run. *)
Lemma init_cuda_buffer_skips (n : nat) (w : World) :
  c_use_cuda (a_conf (w_agent w)) = false
  ∨ a_buffer_initialized (w_agent w) = true →
  init_cuda_buffer n w = (Ok tt, w).
Proof.
  unfold init_cuda_buffer. unfold bind at 1, get_agent at 1.
  intros [-> | ->]; [done|]. by rewrite andb_false_r.
Qed.

Lemma init_cuda_buffer_marks (n : nat) (w w' : World) :
  c_use_cuda (a_conf (w_agent w)) = true →
  init_cuda_buffer n w = (Ok tt, w') →
  a_buffer_initialized (w_agent w') = true.
Proof.
  intros Hcuda.
  unfold init_cuda_buffer, call_model, the_model, bind, get_agent, upd_agent,
    log, lift, ret, raise.
  simpl. rewrite Hcuda. simpl.
  destruct (a_buffer_initialized (w_agent w)) eqn:Hinit; simpl.
  - by intros [= <-].
  - intros Hrun. cases; done.
Qed.

(** X6. The warm-up runs at most once: after a call that returned, every
    further call returns at once and changes nothing, whatever the batch
    size. *)
Theorem init_cuda_buffer_once (n n' : nat) (w w' : World) :
  init_cuda_buffer n w = (Ok tt, w') →
  init_cuda_buffer n' w' = (Ok tt, w').
Proof.
  intros Hrun. apply init_cuda_buffer_skips.
  pose proof (init_cuda_buffer_conf _ _ _ _ Hrun) as Hconf. rewrite Hconf.
  destruct (c_use_cuda (a_conf (w_agent w))) eqn:Hcuda; [right | by left].
  by eapply init_cuda_buffer_marks.
Qed.

(** X7. Under CUDA, a model call that runs out of memory during the first
    warm-up is raised as a [RuntimeError] that names the batch size and the
    sequence length to lower, and the warm-up stays to be done; a
    [RuntimeError] with another message is raised as it is. *)
Theorem init_cuda_buffer_oom (n : nat) (w : World) (m : Model) (msg : string) :
  let c := a_conf (w_agent w) in
  let bsz := o_batchsize (c_opt c) in
  let dummy :=
    mkTensor (replicate bsz (replicate (Z.to_nat (warmup_maxlen c)) 1)) true in
  c_use_cuda c = true → a_buffer_initialized (w_agent w) = false →
  a_model (w_agent w) = Some m →
  model_forward m dummy (Some dummy) false = Raise (RuntimeError msg) →
  ∃ w',
    init_cuda_buffer n w
    = (Raise (RuntimeError
                (if str_contains "out of memory" msg
                 then cuda_oom_message bsz (warmup_maxlen c) else msg)), w')
    ∧ a_buffer_initialized (w_agent w') = false
    ∧ a_model (w_agent w') = Some m.
Proof.
  intros c bsz dummy Hcuda Hinit Hm Hfwd. subst c bsz dummy.
  unfold warmup_maxlen in *.
  unfold init_cuda_buffer, call_model, the_model, bind, get_agent, upd_agent,
    log, lift, ret, raise.
  simpl. rewrite Hcuda, Hinit. simpl. rewrite Hm. simpl. rewrite Hfwd. simpl.
  destruct (str_contains "out of memory" msg); eexists; (split; [done|]);
    by split.
Qed.

End FilesSpec.

(** ** More on predict *)

Section StepSpec.
Context {F : Type} `{!PyFloat F} `{!ParlaiCore F} `{!Torch F} `{!PyOS}.

Ltac run_p :=
  unfold train_prologue, zero_grad_m, update_params, call_model,
    train_after_forward, on_error, the_model, the_optimizer, the_clip, bind,
    get_agent, upd_agent, log, lift, ret, raise in *;
  simpl in *.

Lemma predict_train_stops (xs : Tensor) (ys : option Tensor)
    (cands : option (list Tensor)) (valid_cands : option (list nat))
    (w : World) (m : Model) :
  a_model (w_agent w) = Some m → a_optimizer (w_agent w) = None →
  fst (predict xs ys cands valid_cands true w)
  = Raise (AttributeError "optimizer").
Proof.
  intros Hm Ho. unfold predict. run_p. rewrite Hm. simpl. by rewrite Ho.
Qed.

(** X8. On an agent without an optimizer a training step stops at
    [zero_grad]: the model was put in training mode, it was never called,
    and the metrics are as before. *)
Theorem predict_train_without_optimizer (xs : Tensor) (ys : option Tensor)
    (cands : option (list Tensor)) (valid_cands : option (list nat))
    (w : World) (m : Model) :
  a_model (w_agent w) = Some m → a_optimizer (w_agent w) = None →
  ∃ w',
    predict xs ys cands valid_cands true w
    = (Raise (AttributeError "optimizer"), w')
    ∧ a_model (w_agent w') = Some (model_train m)
    ∧ a_metrics (w_agent w') = a_metrics (w_agent w)
    ∧ e_trace (w_env w') = e_trace (w_env w) ++ [EvTrain].
Proof.
  intros Hm Ho. unfold predict. run_p. rewrite Hm. simpl. rewrite Ho. simpl.
  eexists. split; [done|]. by destruct (w_agent w).
Qed.

(** X9. A training step in which nothing raises: gradients are zeroed, the
    model is called once, the loss, the target tokens and the correct
    tokens of the batch are added to the metrics, the loss is propagated
    back, the gradients are clipped exactly when [clip > 0], and one
    optimizer step is taken, last.  The step returns no predictions,
    together with the candidate predictions of the model call. *)
Theorem predict_train_step (xs gold : Tensor)
    (cands : option (list Tensor)) (valid_cands : option (list nat))
    (w : World) (m m0 m1 : Model) (o o0 : Optimizer) (clip : pyval F)
    preds scores cand_preds logits lc (correct : Z) :
  let c := a_conf (w_agent w) in
  let target_tokens := count_ne (c_NULL_IDX c) gold in
  let clipped := if py_pos clip then clip_grad_norm clip m1 else m1 in
  a_model (w_agent w) = Some m → a_optimizer (w_agent w) = Some o →
  c_clip c = Some clip →
  zero_grad o (model_train m) = (o0, m0) →
  model_forward m0 xs (Some gold) (bool_decide (is_Some cands))
  = Ok (preds, scores, cand_preds, logits) →
  cal_performance m0 logits gold (o_label_smoothing (c_opt c)) = Ok lc →
  count_correct gold preds (c_NULL_IDX c) = Ok correct →
  backward (loss_div (fst lc) target_tokens) m0 = (Ok tt, m1) →
  ∃ w',
    predict xs (Some gold) cands valid_cands true w = (Ok (None, cand_preds), w')
    ∧ a_metrics (w_agent w')
      = add_train_metrics correct (loss_item (fst lc)) target_tokens
          (a_metrics (w_agent w))
    ∧ a_optimizer (w_agent w') = Some (fst (optimizer_step o0 clipped))
    ∧ a_model (w_agent w') = Some (snd (optimizer_step o0 clipped))
    ∧ a_answers (w_agent w') = a_answers (w_agent w)
    ∧ e_trace (w_env w')
      = e_trace (w_env w) ++ [EvTrain; EvZeroGrad; EvForward]
        ++ (if bool_decide (shape1 preds ≠ shape1 gold) then [EvBreakpoint] else [])
        ++ [EvCalPerformance; EvBackward]
        ++ (if py_pos clip then [EvClip] else []) ++ [EvStep].
Proof.
  intros c target_tokens clipped Hm Ho Hclip Hzero Hfwd Hperf Hcorrect Hbwd.
  subst c target_tokens clipped.
  unfold predict. run_p. rewrite Hm. simpl. rewrite Ho. simpl.
  rewrite Hzero. simpl. rewrite Hfwd. simpl.
  replace (a_conf (set_optimizer o0 (set_model m0 (set_model (model_train m) (w_agent w)))))
    with (a_conf (w_agent w)) by (by destruct (w_agent w)).
  destruct (bool_decide (shape1 preds ≠ shape1 gold)); simpl;
    rewrite Hperf; simpl; rewrite Hcorrect; simpl; rewrite Hbwd; simpl;
    rewrite Hclip; simpl;
    destruct (py_pos clip); simpl;
    match goal with
    | |- context [optimizer_step ?o ?m] => destruct (optimizer_step o m) as [o' m']
    end; simpl;
    (eexists; split; [done|]; simpl; rewrite <- ?app_assoc; simpl;
     by destruct (w_agent w)).
Qed.

(** X10. A batch skipped because the backward pass ran out of memory is still
    counted in the metrics: its loss, its target tokens and its correct
    tokens were added before [loss.backward()] ran.  No optimizer step is
    taken. *)
Theorem predict_skipped_batch_counted (xs gold : Tensor)
    (cands : option (list Tensor)) (valid_cands : option (list nat))
    (w : World) (m m0 m1 : Model) (o o0 : Optimizer)
    preds scores cand_preds logits lc (correct : Z) (msg : string) :
  let c := a_conf (w_agent w) in
  let target_tokens := count_ne (c_NULL_IDX c) gold in
  a_model (w_agent w) = Some m → a_optimizer (w_agent w) = Some o →
  zero_grad o (model_train m) = (o0, m0) →
  model_forward m0 xs (Some gold) (bool_decide (is_Some cands))
  = Ok (preds, scores, cand_preds, logits) →
  cal_performance m0 logits gold (o_label_smoothing (c_opt c)) = Ok lc →
  count_correct gold preds (c_NULL_IDX c) = Ok correct →
  backward (loss_div (fst lc) target_tokens) m0 = (Raise (RuntimeError msg), m1) →
  str_contains "out of memory" msg = true →
  ∃ w',
    predict xs (Some gold) cands valid_cands true w
    = (Ok (None, cand_preds), w')
    ∧ a_metrics (w_agent w')
      = incr_skipped
          (add_train_metrics correct (loss_item (fst lc)) target_tokens
             (a_metrics (w_agent w)))
    ∧ a_optimizer (w_agent w') = Some o0
    ∧ a_model (w_agent w') = Some m1
    ∧ e_trace (w_env w')
      = e_trace (w_env w) ++ [EvTrain; EvZeroGrad; EvForward]
        ++ (if bool_decide (shape1 preds ≠ shape1 gold) then [EvBreakpoint] else [])
        ++ [EvCalPerformance; EvBackward].
Proof.
  intros c target_tokens Hm Ho Hzero Hfwd Hperf Hcorrect Hbwd Hoom.
  subst c target_tokens.
  unfold predict. run_p. rewrite Hm. simpl. rewrite Ho. simpl.
  rewrite Hzero. simpl. rewrite Hfwd. simpl.
  replace (a_conf (set_optimizer o0 (set_model m0 (set_model (model_train m) (w_agent w)))))
    with (a_conf (w_agent w)) by (by destruct (w_agent w)).
  destruct (bool_decide (shape1 preds ≠ shape1 gold)); simpl;
    rewrite Hperf; simpl; rewrite Hcorrect; simpl; rewrite Hbwd; simpl;
    rewrite Hoom; simpl;
    (eexists; split; [done|]; simpl; rewrite <- ?app_assoc; simpl;
     by destruct (w_agent w)).
Qed.

(** X11. An evaluation step with labels: the model is put in evaluation mode and
    called once; the predictions are the model's; the candidate predictions
    are dropped; the loss and the target tokens are added to the metrics; the
    count of correct tokens is not; no gradient is computed and no optimizer
    step is taken. *)
Theorem predict_eval_labelled (xs gold : Tensor)
    (cands : option (list Tensor)) (valid_cands : option (list nat))
    (w : World) (m : Model) preds scores cand_preds logits lc (correct : Z) :
  let c := a_conf (w_agent w) in
  a_model (w_agent w) = Some m →
  model_forward (model_eval m) xs (Some gold) (bool_decide (is_Some cands))
  = Ok (preds, scores, cand_preds, logits) →
  cal_performance (model_eval m) logits gold (o_label_smoothing (c_opt c)) = Ok lc →
  count_correct gold preds (c_NULL_IDX c) = Ok correct →
  ∃ w',
    predict xs (Some gold) cands valid_cands false w = (Ok (Some preds, None), w')
    ∧ a_metrics (w_agent w')
      = add_eval_metrics (loss_item (fst lc)) (count_ne (c_NULL_IDX c) gold)
          (a_metrics (w_agent w))
    ∧ correct_tokens (a_metrics (w_agent w'))
      = correct_tokens (a_metrics (w_agent w))
    ∧ a_model (w_agent w') = Some (model_eval m)
    ∧ a_optimizer (w_agent w') = a_optimizer (w_agent w)
    ∧ e_trace (w_env w')
      = e_trace (w_env w) ++ [EvEval; EvForward; EvCalPerformance].
Proof.
  intros c Hm Hfwd Hperf Hcorrect. subst c.
  unfold predict, call_model, the_model, bind, get_agent, upd_agent, log, lift,
    ret, raise.
  simpl. rewrite Hm. simpl. rewrite Hfwd. simpl.
  replace (a_conf (set_model (model_eval m) (w_agent w)))
    with (a_conf (w_agent w)) by (by destruct (w_agent w)).
  rewrite Hperf. simpl. rewrite Hcorrect. simpl.
  eexists. split; [done|]. simpl. rewrite <- !app_assoc.
  by destruct (w_agent w).
Qed.

End StepSpec.

(** ** More on observe and override_opt *)

Section TurnSpec.
Context {F : Type} `{!PyFloat F} `{!ParlaiCore F} `{!Torch F} `{!PyOS}.

Lemma deque_maxlen_suffix (maxlen : option Z) (l : list Z) :
  deque_maxlen maxlen l `suffix_of` l.
Proof. destruct maxlen as [n|]; simpl; [apply suffix_drop | done]. Qed.

Lemma deque_maxlen_length (n : Z) (l : list Z) :
  length (deque_maxlen (Some n) l) = Nat.min (length l) (Z.to_nat n).
Proof. simpl. rewrite length_drop. lia. Qed.

(** X12. An observation that comes preprocessed with its [text2vec] does not go
    through the dialogue history: [observe] keeps the last [truncate] indices
    of the vector it was given, stores the observation, empties the agent's
    answer slot and leaves the history as it was. *)
Theorem observe_preprocessed (obs : Observation) (v : list Z) (w : World) :
  let a := w_agent w in
  let c := a_conf a in
  let kept := deque_maxlen (c_truncate c) v in
  let obs' := with_text2vec kept obs in
  ob_preprocessed obs = true → ob_text2vec obs = Some v →
  (c_batch_idx c < length (a_answers a))%nat →
  observe obs w
  = (Ok obs',
     mkWorld (set_answers (<[c_batch_idx c := None]> (a_answers a))
                (set_observation (Some obs') a)) (w_env w))
  ∧ (kept `suffix_of` v)
  ∧ (c_truncate c = None → kept = v)
  ∧ (∀ n, c_truncate c = Some n →
          length kept = Nat.min (length v) (Z.to_nat n)).
Proof.
  intros a c kept obs' Hpre Hvec Hidx. subst a c kept obs'.
  split; [|split; [apply deque_maxlen_suffix|split]].
  - unfold observe, py_setitem, bind, get_agent, upd_agent, lift, ret.
    simpl. rewrite Hpre, Hvec. simpl.
    by rewrite bool_decide_eq_true_2 by done.
  - by intros ->.
  - intros n ->. apply deque_maxlen_length.
Qed.

(** X13. With a batch index past the end of [self.answers], [observe] raises
    [IndexError].  Where it consults the dialogue history it raises before
    it has changed anything; for a preprocessed observation it raises after
    it has stored the observation. *)
Theorem observe_index_error (obs : Observation) (w : World) :
  let a := w_agent w in
  let c := a_conf a in
  (length (a_answers a) ≤ c_batch_idx c)%nat →
  match ob_preprocessed obs, ob_text2vec obs with
  | true, Some v =>
      observe obs w
      = (Raise (IndexError "list assignment index out of range"),
         mkWorld (set_observation
                    (Some (with_text2vec (deque_maxlen (c_truncate c) v) obs)) a)
           (w_env w))
  | _, _ => observe obs w = (Raise (IndexError "list index out of range"), w)
  end.
Proof.
  intros a c Hidx. subst a c.
  unfold observe, py_getitem, py_setitem, bind, get_agent, upd_agent, lift, ret.
  simpl.
  destruct (ob_preprocessed obs), (ob_text2vec obs) as [v|]; simpl.
  - by rewrite bool_decide_eq_false_2 by lia.
  - by rewrite lookup_ge_None_2 by lia.
  - by rewrite lookup_ge_None_2 by lia.
  - by rewrite lookup_ge_None_2 by lia.
Qed.

Lemma override_loop_lookup (opt new_opt : gmap string (pyval F)) (k : string) :
  map_fold (λ k v opt, if bool_decide (k ∈ model_args) then <[k := v]> opt else opt)
    opt new_opt !! k
  = if bool_decide (k ∈ model_args)
    then match new_opt !! k with Some v => Some v | None => opt !! k end
    else opt !! k.
Proof.
  apply (map_fold_weak_ind
           (λ r m, r !! k = if bool_decide (k ∈ model_args)
                            then match m !! k with Some v => Some v | None => opt !! k end
                            else opt !! k)).
  - rewrite lookup_empty. by destruct (bool_decide _).
  - intros i x m r Hfresh IH. destruct (decide (i = k)) as [->|Hne].
    + rewrite lookup_insert_eq.
      destruct (bool_decide (k ∈ model_args)) eqn:Hk.
      * by rewrite lookup_insert_eq.
      * done.
    + rewrite lookup_insert_ne by done.
      destruct (bool_decide (i ∈ model_args)); [rewrite lookup_insert_ne by done|];
        exact IH.
Qed.

(** X14. [override_opt] takes from the loaded options the model arguments and
    nothing else: a model argument that the loaded options have is
    overwritten, every other key keeps its value, except that [dict_file] is
    taken over when the agent's own is missing, [None] or empty. *)
Theorem override_opt_lookup (opt new_opt : gmap string (pyval F)) (k : string) :
  override_opt opt new_opt !! k
  = if bool_decide (k ∈ model_args) then
      match new_opt !! k with Some v => Some v | None => opt !! k end
    else if bool_decide (k = "dict_file"%string) then
      match new_opt !! k with
      | Some f =>
          if py_truthy (default PNone (opt !! k)) then opt !! k else Some f
      | None => opt !! k
      end
    else opt !! k.
Proof.
  unfold override_opt.
  pose proof (override_loop_lookup opt new_opt "dict_file") as Hdf.
  rewrite bool_decide_eq_false_2 in Hdf by (by compute_done).
  rewrite Hdf.
  destruct (bool_decide (k ∈ model_args)) eqn:Hk.
  - assert (k ≠ "dict_file"%string) as Hne.
    { intros ->. revert Hk. by compute_done. }
    destruct (new_opt !! "dict_file"%string) as [f|];
      [destruct (py_truthy _); simpl; rewrite ?lookup_insert_ne by done|];
      by rewrite override_loop_lookup, Hk.
  - destruct (decide (k = "dict_file"%string)) as [->|Hne].
    + rewrite bool_decide_eq_true_2 by done.
      destruct (new_opt !! "dict_file"%string) as [f|]; [|done].
      destruct (py_truthy _); simpl; [done|]. by rewrite lookup_insert_eq.
    + rewrite bool_decide_eq_false_2 by done.
      destruct (new_opt !! "dict_file"%string) as [f|];
        [destruct (py_truthy _); simpl; rewrite ?lookup_insert_ne by done|];
        by rewrite override_loop_lookup, Hk.
Qed.

End TurnSpec.

(** ** More on vectorize, batch_act and act *)

Section ReplySpec.
Context {F : Type} `{!PyFloat F} `{!ParlaiCore F} `{!Torch F} `{!PyOS}.

Ltac run_r :=
  unfold init_cuda_buffer, train_prologue, zero_grad_m, update_params,
    call_model, train_after_forward, on_error, the_model, the_optimizer,
    the_clip, bind, get_agent, upd_agent, log, lift, ret, raise in *;
  simpl in *.

Lemma vectorize_cands_lengths c obs ivs cands valid_cands (w w' : World) r :
  vectorize_cands c obs ivs cands valid_cands w = (Ok r, w') →
  (length (fst r) + length valid_cands = length (snd r) + length cands)%nat.
Proof.
  revert cands valid_cands w.
  induction ivs as [|[i v] rest IH]; intros cands valid_cands w; simpl.
  - intros [= <- _]. simpl. lia.
  - unfold bind at 1, lift at 1.
    destruct (py_getitem obs v) as [ob|e]; [|done].
    destruct (ob_label_candidates ob) as [curr_lcs|]; [|by apply IH].
    unfold bind at 1, lift at 1.
    destruct (pad_text _ _ _ _ _ _ _) as [[po|]|e]; try done.
    unfold bind at 1.
    destruct (mapM _ _ w) as [[sel|e] w1]; [|done].
    unfold bind at 1, lift at 1.
    destruct (LongTensor _); [|done].
    intros Hrest. apply IH in Hrest. rewrite !length_app in Hrest. simpl in Hrest.
    lia.
Qed.

Lemma LongTensor_inv (rows : list (list Z)) (t : Tensor) :
  LongTensor rows = Ok t → t = mkTensor rows false ∧ rectangular rows = true.
Proof.
  unfold LongTensor. destruct (rectangular rows); [|done]. by intros [= <-].
Qed.

Lemma maybe_cuda_cuda (b : bool) (t : Tensor) :
  t_cuda t = false → t_cuda (maybe_cuda b t) = b.
Proof. by destruct b. Qed.

Lemma vectorize_mode (obs : list Observation) (w w' : World) (b : Batch) :
  vectorize obs w = (Ok (Some b), w') →
  b_is_training b = existsb has_labels obs.
Proof.
  unfold vectorize, bind, get_agent, lift, ret. simpl. intros Hrun.
  cases; done.
Qed.

(** X15. What [vectorize] puts in a batch: it is a training batch exactly when
    some observation has labels; the labels and the rows of [ys] are those of
    [pad_text], [ys] a rectangle on the device of the agent like [xs];
    candidates are vectorized only for an evaluation batch of an agent that
    ranks candidates, one tensor for each entry of [valid_cands]. *)
Theorem vectorize_batch (obs : list Observation) (w w' : World) (b : Batch) :
  vectorize obs w = (Ok (Some b), w') →
  let c := a_conf (w_agent w) in
  b_is_training b = existsb has_labels obs
  ∧ t_cuda (b_xs b) = c_use_cuda c
  ∧ (∃ po, pad_text obs (c_dict c) (Some (c_END_IDX c)) (c_NULL_IDX c) true true
             (c_truncate c) = Ok (Some po)
           ∧ b_labels b = pad_labels po
           ∧ t_rows <$> b_ys b = pad_ys po)
  ∧ (∀ ys, b_ys b = Some ys →
           rectangular (t_rows ys) = true ∧ t_cuda ys = c_use_cuda c)
  ∧ (existsb has_labels obs = true ∨ c_rank c = false →
     b_cands b = None ∧ b_valid_cands b = None)
  ∧ (existsb has_labels obs = false → c_rank c = true →
     ∃ cands valid_cands,
       b_cands b = Some cands ∧ b_valid_cands b = Some valid_cands
       ∧ length cands = length valid_cands).
Proof.
  unfold vectorize. unfold bind at 1, get_agent at 1.
  unfold bind at 1, lift at 1.
  destruct (pad_text _ _ _ _ _ _ _) as [[po|]|e] eqn:Hpad; [|done|done].
  unfold bind at 1, lift at 1.
  destruct (LongTensor (pad_xs po)) as [xs|e] eqn:Hxs; [|done].
  apply LongTensor_inv in Hxs as [-> Hrect].
  fold (has_labels). 
  change (existsb (λ ob, bool_decide (is_Some (ob_labels ob))) obs)
    with (existsb has_labels obs).
  set (c := a_conf (w_agent w)).
  unfold bind at 1.
  destruct (pad_ys po) as [rows|] eqn:Hys; simpl.
  - unfold bind at 1, lift at 1.
    destruct (LongTensor rows) as [ys|e] eqn:Hrows; [|done].
    apply LongTensor_inv in Hrows as [-> Hyrect].
    unfold ret at 1. unfold bind at 1.
    destruct (existsb has_labels obs) eqn:Htrain; simpl.
    + intros [= <- <-]. simpl. rewrite maybe_cuda_cuda by done.
      do 2 (split; [done|]). split; [by exists po; rewrite ?maybe_cuda_rows, Hys|].
      split; [|by split].
      intros ys [= <-]. by rewrite maybe_cuda_rows, maybe_cuda_cuda.
    + destruct (c_rank c) eqn:Hrank; simpl.
      * unfold bind at 1.
        destruct (vectorize_cands _ _ _ _ _ w) as [[cv|e] w1] eqn:Hcv; [|done].
        apply vectorize_cands_lengths in Hcv. simpl in Hcv.
        intros [= <- <-]. simpl. rewrite maybe_cuda_cuda by done.
        do 2 (split; [done|]). split; [by exists po; rewrite ?maybe_cuda_rows, Hys|].
        split; [intros ys [= <-]; by rewrite maybe_cuda_rows, maybe_cuda_cuda|].
        split; [by intros [|]|]. intros _ _. exists cv.1, cv.2.
        do 2 (split; [done|]). lia.
      * intros [= <- <-]. simpl. rewrite maybe_cuda_cuda by done.
        do 2 (split; [done|]). split; [by exists po; rewrite ?maybe_cuda_rows, Hys|].
        split; [intros ys [= <-]; by rewrite maybe_cuda_rows, maybe_cuda_cuda|].
        by split.
  - unfold ret at 1. unfold bind at 1.
    destruct (existsb has_labels obs) eqn:Htrain; simpl.
    + intros [= <- <-]. simpl. rewrite maybe_cuda_cuda by done.
      do 2 (split; [done|]). split; [by exists po; rewrite ?maybe_cuda_rows, Hys|]. by split.
    + destruct (c_rank c) eqn:Hrank; simpl.
      * unfold bind at 1.
        destruct (vectorize_cands _ _ _ _ _ w) as [[cv|e] w1] eqn:Hcv; [|done].
        apply vectorize_cands_lengths in Hcv. simpl in Hcv.
        intros [= <- <-]. simpl. rewrite maybe_cuda_cuda by done.
        do 2 (split; [done|]). split; [by exists po; rewrite ?maybe_cuda_rows, Hys|].
        split; [done|].
        split; [by intros [|]|]. intros _ _. exists cv.1, cv.2.
        do 2 (split; [done|]). lia.
      * intros [= <- <-]. simpl. rewrite maybe_cuda_cuda by done.
        do 2 (split; [done|]). split; [by exists po; rewrite ?maybe_cuda_rows, Hys|]. by split.
Qed.

(** *** What a step leaves of the answers *)

Lemma init_cuda_buffer_answers (n : nat) (w w' : World) r :
  init_cuda_buffer n w = (r, w') →
  a_answers (w_agent w') = a_answers (w_agent w).
Proof. run_r. intros Hrun. cases; done. Qed.

Lemma train_prologue_answers (w w' : World) r :
  train_prologue w = (r, w') →
  a_answers (w_agent w') = a_answers (w_agent w).
Proof. run_r. intros Hrun. cases; done. Qed.

Lemma call_model_answers xs ys rank (w w' : World) r :
  call_model xs ys rank w = (r, w') →
  a_answers (w_agent w') = a_answers (w_agent w).
Proof. run_r. intros Hrun. cases; done. Qed.

Lemma train_after_forward_answers ys out (w w' : World) r :
  train_after_forward ys out w = (r, w') →
  a_answers (w_agent w') = a_answers (w_agent w).
Proof.
  destruct out as [[[preds scores] cand_preds] logits].
  run_r. intros Hrun. cases; done.
Qed.

Lemma update_params_answers (w w' : World) r :
  update_params w = (r, w') →
  a_answers (w_agent w') = a_answers (w_agent w).
Proof. run_r. intros Hrun. cases; done. Qed.

Lemma on_error_answers p cp e (w w' : World) r :
  on_error p cp e w = (r, w') →
  a_answers (w_agent w') = a_answers (w_agent w).
Proof. run_r. intros Hrun. cases; done. Qed.

(** A training step returns no predictions and leaves the answers alone. *)
Lemma predict_train_frame (xs : Tensor) (ys : option Tensor)
    (cands : option (list Tensor)) (valid_cands : option (list nat))
    (w w' : World) r :
  predict xs ys cands valid_cands true w = (r, w') →
  a_answers (w_agent w') = a_answers (w_agent w)
  ∧ ∀ predictions cand_preds, r = Ok (predictions, cand_preds) →
                              predictions = None.
Proof.
  unfold predict. unfold bind at 1.
  destruct (train_prologue w) as [[[]|e0] w0] eqn:Hpro;
    apply train_prologue_answers in Hpro; [|by intros [= <- <-]].
  assert (Herr : ∀ cp e w1,
            a_answers (w_agent w1) = a_answers (w_agent w) →
            on_error None cp e w1 = (r, w') →
            a_answers (w_agent w') = a_answers (w_agent w)
            ∧ ∀ predictions cand_preds, r = Ok (predictions, cand_preds) →
                                        predictions = None).
  { intros cp e w1 Hsame Hrun. split.
    - apply on_error_answers in Hrun. congruence.
    - revert Hrun. unfold on_error.
      destruct e; try (by intros [= <- _]).
      destruct (str_contains _ _); [|by intros [= <- _]].
      unfold bind, upd_agent, ret. simpl. intros [= <- _] p c. by intros [= <- _]. }
  destruct (call_model _ _ _ w0) as [[out|e1] w1] eqn:Hfwd;
    apply call_model_answers in Hfwd; [|apply Herr; congruence].
  destruct (train_after_forward _ _ w1) as [[[]|e2] w2] eqn:Hbwd;
    apply train_after_forward_answers in Hbwd; [|apply Herr; congruence].
  unfold bind at 1.
  destruct (update_params w2) as [[[]|e3] w3] eqn:Hupd;
    apply update_params_answers in Hupd.
  - unfold ret. intros [= <- <-]. split; [congruence|]. by intros p c [= <- _].
  - intros [= <- <-]. split; [congruence|done].
Qed.

Lemma select_cands_pure (curr_cands : option (list string)) (order : list Z)
    (w : World) :
  snd (select_cands curr_cands order w) = w.
Proof.
  induction order as [|idx rest IH]; simpl; [done|].
  destruct curr_cands as [cc|]; [|done].
  destruct (idx <? Z.of_nat (length cc)); [|done].
  unfold bind at 1, lift at 1.
  destruct (py_getitem_Z cc idx); [|done].
  unfold bind at 1.
  by destruct (select_cands (Some cc) rest w) as [[xs|e] w1]; simpl in *; subst.
Qed.

Lemma store_cands_frame cand_preds valid_cands idxs
    (replies replies' : list (gmap string (pyval F))) (w w' : World) id :
  store_cands cand_preds valid_cands idxs replies w = (Ok replies', w') →
  w' = w
  ∧ length replies' = length replies
  ∧ (Forall (no_text id) replies → Forall (no_text id) replies').
Proof.
  revert replies. induction idxs as [|i rest IH]; intros replies; simpl.
  - by intros [= <- <-].
  - unfold bind at 1, lift at 1.
    destruct (py_getitem cand_preds i) as [order|]; [|done].
    unfold bind at 1, lift at 1.
    destruct (py_getitem valid_cands i) as [vc|]; [|done].
    unfold bind at 1, lift at 1. unfold py_getitem at 1.
    destruct (replies !! fst vc) as [curr|] eqn:Hcurr; [|done].
    unfold bind at 1.
    pose proof (select_cands_pure (snd vc) order w) as Hsel.
    destruct (select_cands _ _ w) as [[tc|] w1]; simpl in Hsel; subst w1; [|done].
    intros Hrest. apply IH in Hrest as (-> & Hlen & Hkeep).
    rewrite length_insert in Hlen. do 2 (split; [done|]).
    intros Hall. apply Hkeep, Forall_insert; [done|].
    destruct (Forall_lookup_1 _ _ _ _ Hall Hcurr) as [Hid Hrest].
    split; [by rewrite lookup_insert_ne|].
    intros k Hk1 Hk2. rewrite lookup_insert_ne by done. by apply Hrest.
Qed.

Lemma fresh_replies_no_text (id : string) (n : nat) :
  Forall (no_text id)
    (replicate n ({["id" := PStr id]} : gmap string (pyval F))).
Proof.
  apply Forall_replicate. split; [by simplify_map_eq|].
  intros k Hk _. by rewrite lookup_singleton_ne.
Qed.

(** X16. A batch in which some observation has labels is trained on and not
    answered: when [batch_act] returns, each reply holds the agent's id and
    no text (only the candidates, where the model ranked some), and the
    answers the agent keeps for the dialogue history are as they were. *)
Theorem batch_act_training (obs : list Observation) (w w' : World)
    (replies : list (gmap string (pyval F))) :
  existsb has_labels obs = true →
  batch_act obs w = (Ok replies, w') →
  a_answers (w_agent w') = a_answers (w_agent w)
  ∧ length replies = length obs
  ∧ Forall (no_text (c_id (a_conf (w_agent w)))) replies.
Proof.
  intros Htrain. unfold batch_act. unfold bind at 1.
  destruct (init_cuda_buffer _ w) as [[[]|] w0] eqn:Hinit; [|done].
  pose proof (init_cuda_buffer_conf _ _ _ _ Hinit) as Hconf.
  apply init_cuda_buffer_answers in Hinit as Hanswers.
  unfold bind at 1, get_agent at 1. rewrite Hconf.
  set (c := a_conf (w_agent w)).
  unfold bind at 1.
  destruct (vectorize obs w0) as [[[b|]|] w1] eqn:Hvec; [| |done].
  2:{ apply vectorize_spec in Hvec as [-> _]. intros [= <- <-].
      split; [done|]. split; [by rewrite length_replicate|].
      apply fresh_replies_no_text. }
  pose proof (vectorize_mode _ _ _ _ Hvec) as Hmode.
  apply vectorize_spec in Hvec as [-> _].
  rewrite Hmode, Htrain. unfold bind at 1.
  destruct (predict _ _ _ _ true w0) as [[[predictions cand_preds]|] w2] eqn:Hpred;
    [|done].
  apply predict_train_frame in Hpred as [Hsame Hnone].
  rewrite (Hnone _ _ eq_refl). simpl. unfold bind at 1, ret at 1.
  destruct cand_preds as [cp|].
  - intros Hstore.
    apply (store_cands_frame _ _ _ _ _ _ _ (c_id c)) in Hstore
      as (-> & Hlen & Hkeep).
    split; [congruence|]. split; [by rewrite Hlen, length_replicate|].
    apply Hkeep, fresh_replies_no_text.
  - intros [= <- <-]. split; [congruence|].
    split; [by rewrite length_replicate | apply fresh_replies_no_text].
Qed.

(** *** act *)

Lemma batch_act_shape (obs : list Observation) (w w' : World)
    (replies : list (gmap string (pyval F))) :
  map_predictions_keeps_ids →
  batch_act obs w = (Ok replies, w') →
  length replies = length obs
  ∧ Forall (has_id (c_id (a_conf (w_agent w)))) replies.
Proof.
  intros Hmp. unfold batch_act. unfold bind at 1.
  destruct (init_cuda_buffer _ w) as [[[]|] w0] eqn:Hinit; [|done].
  apply init_cuda_buffer_conf in Hinit.
  unfold bind at 1, get_agent at 1. rewrite Hinit.
  set (c := a_conf (w_agent w)).
  assert (Hfresh : ∀ n, Forall (has_id (c_id c))
                          (replicate n ({["id" := PStr (c_id c)]}
                                          : gmap string (pyval F)))).
  { intros n. apply Forall_replicate. unfold has_id. by simplify_map_eq. }
  unfold bind at 1.
  destruct (vectorize obs w0) as [[[b|]|] w1]; [| |done].
  2:{ intros [= <- _]. by rewrite length_replicate. }
  unfold bind at 1.
  destruct (predict _ _ _ _ _ w1) as [[[predictions cand_preds]|] w2]; [|done].
  simpl. unfold bind at 1.
  set (filled := match predictions with Some _ => _ | None => _ end).
  destruct (filled w2) as [[replies1|] w3] eqn:Hfilled; [|done].
  assert (Hinv1 : length replies1 = length obs
                  ∧ Forall (has_id (c_id c)) replies1).
  { subst filled. destruct predictions as [p|].
    - revert Hfilled. unfold bind at 1, get_agent at 1.
      match goal with
      | |- context [map_predictions ?p ?vi ?rs ?o ?d ?e ?rf ?l ?an ?ys] =>
          specialize (Hmp p vi rs o d e rf l an ys);
          destruct (map_predictions p vi rs o d e rf l an ys)
            as [r [replies2 answers]]
      end.
      simpl in Hmp. destruct Hmp as [Hlen Hids].
      unfold bind, upd_agent, lift, ret. simpl.
      destruct r; [|done]. intros [= <- _].
      rewrite Hlen, length_replicate. split; [done|].
      apply Forall_lookup_2. intros i r' Hr'.
      destruct (Hids _ _ Hr') as (r0 & Hr0 & Hid).
      unfold has_id. rewrite Hid.
      by eapply (Forall_lookup_1 _ _ _ _ (Hfresh _)).
    - revert Hfilled. intros [= <- _]. by rewrite length_replicate. }
  destruct Hinv1 as [Hlen1 Hids1].
  destruct cand_preds as [cp|]; [|by intros [= <- _]].
  intros Hstore. apply store_cands_inv in Hstore as [Hlen Hids].
  split; [congruence | by apply Hids].
Qed.

(** X17. [act] answers the observation the agent holds: it returns exactly when
    [batch_act] returns on the batch of that one observation, and then with
    the one reply of the batch, which carries the agent's id; indexing the
    reply list never fails.  An agent that holds no observation (none
    observed yet, or after [reset]) gets a [TypeError] once the warm-up is
    through. *)
Theorem act_reply (w : World) :
  map_predictions_keeps_ids →
  let a := w_agent w in
  (∀ ob replies w',
     a_observation a = Some ob → batch_act [ob] w = (Ok replies, w') →
     ∃ r, replies = [r] ∧ act w = (Ok r, w') ∧ has_id (c_id (a_conf a)) r)
  ∧ (∀ r w', act w = (Ok r, w') →
             ∃ ob, a_observation a = Some ob
                   ∧ batch_act [ob] w = (Ok [r], w'))
  ∧ (a_observation a = None →
     ∀ w0, init_cuda_buffer 1 w = (Ok tt, w0) →
           act w
           = (Raise (TypeError "argument of type 'NoneType' is not iterable"),
              w0)).
Proof.
  intros Hmp a. subst a. split; [|split].
  - intros ob replies w' Hob Hrun.
    destruct (batch_act_shape _ _ _ _ Hmp Hrun) as [Hlen Hids].
    destruct replies as [|r [|]]; try done. exists r. split; [done|].
    split; [|by apply (Forall_lookup_1 _ _ 0%nat r Hids)].
    unfold act, bind, get_agent. simpl. by rewrite Hob, Hrun.
  - intros r w'. unfold act. unfold bind at 1, get_agent at 1.
    destruct (a_observation (w_agent w)) as [ob|].
    + unfold bind at 1.
      destruct (batch_act [ob] w) as [[replies|e] w1] eqn:Hrun; [|done].
      destruct (batch_act_shape _ _ _ _ Hmp Hrun) as [Hlen _].
      destruct replies as [|r1 [|]]; try done.
      unfold lift, py_getitem. simpl. intros [= <- <-]. by exists ob.
    + unfold bind. by destruct (init_cuda_buffer 1 w) as [[[]|] w0].
  - intros Hnone w0 Hinit. unfold act, bind, get_agent. simpl.
    by rewrite Hnone, Hinit.
Qed.

End ReplySpec.

(** ** More on next_word_probability *)

Section WordSpec.
Context {F : Type} `{!PyFloat F} `{!ParlaiCore F} `{!Torch F} `{!PyOS}.

Lemma fill_dist_snoc (dict : Dictionary) (probs : list F) (p : F)
    (dist : mydefaultdict) :
  fill_dist dict (probs ++ [p]) dist
  = dd_setitem (fill_dist dict probs dist)
      (dict_token dict (Z.of_nat (length probs))) (PFloat p).
Proof.
  unfold fill_dist. rewrite imap_app, foldl_app. simpl.
  by rewrite Nat.add_0_r.
Qed.

(** An entry of the filled dict was there before or is the probability of
    an index whose token is the key. *)
Lemma fill_dist_items (dict : Dictionary) (probs : list F) (dist : mydefaultdict)
    (word : string) (v : pyval F) :
  dd_items (fill_dist dict probs dist) !! word = Some v →
  dd_items dist !! word = Some v
  ∨ ∃ i p, probs !! i = Some p ∧ dict_token dict (Z.of_nat i) = word
           ∧ v = PFloat p.
Proof.
  induction probs as [|p probs IH] using rev_ind; [by left|].
  rewrite fill_dist_snoc. unfold dd_setitem. simpl.
  destruct (decide (dict_token dict (Z.of_nat (length probs)) = word)) as [<-|Hne].
  - rewrite lookup_insert_eq. intros [= <-]. right.
    exists (length probs), p. by rewrite lookup_app_r, Nat.sub_diag by lia.
  - rewrite lookup_insert_ne by done. intros Hin.
    destruct (IH Hin) as [Hold|(i & q & Hi & Htok & ->)]; [by left|].
    right. exists i, q. split; [|done]. by apply lookup_app_l_Some.
Qed.

(** The token of an index holds the probability of that index, unless a
    later index has the same token. *)
Lemma fill_dist_lookup (dict : Dictionary) (probs : list F) (dist : mydefaultdict)
    (i : nat) (p : F) :
  probs !! i = Some p →
  (∀ j, (i < j < length probs)%nat →
        dict_token dict (Z.of_nat j) ≠ dict_token dict (Z.of_nat i)) →
  dd_items (fill_dist dict probs dist) !! dict_token dict (Z.of_nat i)
  = Some (PFloat p).
Proof.
  induction probs as [|q probs IH] using rev_ind; [done|].
  intros Hi Hlast. rewrite fill_dist_snoc. unfold dd_setitem. simpl.
  rewrite length_app in Hlast. simpl in Hlast.
  destruct (decide (i = length probs)) as [->|Hne].
  - rewrite lookup_app_r, Nat.sub_diag in Hi by lia. injection Hi as ->.
    by rewrite lookup_insert_eq.
  - assert (i < length probs)%nat as Hlt.
    { apply lookup_lt_Some in Hi. rewrite length_app in Hi. simpl in Hi. lia. }
    rewrite lookup_app_l in Hi by done.
    rewrite lookup_insert_ne by (apply Hlast; lia).
    apply IH; [done|]. intros j Hj. apply Hlast. lia.
Qed.

(** X18. What [next_word_probability] does when it returns: it has written the
    partial output into the [eval_labels] of the agent's own observation, put
    the model in evaluation mode and asked it for the scores of the
    vectorized observation; the metrics are as before.  Every entry of the
    distribution is the probability of a dictionary index under that index's
    token, and each index has its token in the distribution, with its own
    probability unless a later index has the same token. *)
Theorem next_word_probability_dist (partial_out : list string) (w w' : World)
    (dist : mydefaultdict) :
  next_word_probability partial_out w = (Ok dist, w') →
  let d := c_dict (a_conf (w_agent w)) in
  ∃ obs m batch scores probs,
    a_observation (w_agent w) = Some obs
    ∧ a_observation (w_agent w')
      = Some (with_eval_labels [String.concat " " partial_out] obs)
    ∧ a_model (w_agent w) = Some m
    ∧ a_model (w_agent w') = Some (model_eval m)
    ∧ a_metrics (w_agent w') = a_metrics (w_agent w)
    ∧ a_answers (w_agent w') = a_answers (w_agent w)
    ∧ fst (vectorize [with_eval_labels [String.concat " " partial_out] obs]
             (mkWorld
                (set_observation
                   (Some (with_eval_labels [String.concat " " partial_out] obs))
                   (w_agent w)) (w_env w)))
      = Ok batch
    ∧ model_evaluate (model_eval m) (b_xs <$> batch) = Ok scores
    ∧ softmax_last scores = Ok probs
    ∧ (∀ word v, dd_items dist !! word = Some v →
                 ∃ i p, probs !! i = Some p
                        ∧ dict_token d (Z.of_nat i) = word ∧ v = PFloat p)
    ∧ (∀ i p, probs !! i = Some p →
              (∀ j, (i < j < length probs)%nat →
                    dict_token d (Z.of_nat j) ≠ dict_token d (Z.of_nat i)) →
              dd_items dist !! dict_token d (Z.of_nat i) = Some (PFloat p)).
Proof.
  unfold next_word_probability. unfold bind at 1, get_agent at 1.
  destruct (a_observation (w_agent w)) as [obs|] eqn:Hobs; [|done].
  unfold bind at 1, upd_agent at 1. unfold bind at 1.
  set (obs' := with_eval_labels _ obs).
  set (w0 := mkWorld (set_observation (Some obs') (w_agent w)) (w_env w)).
  destruct (vectorize [obs'] w0) as [[batch|e] w1] eqn:Hvec; [|done].
  pose proof (f_equal fst Hvec) as Hbatch. simpl in Hbatch.
  apply vectorize_spec in Hvec as [-> _].
  unfold the_model, bind, get_agent, upd_agent, log, lift, ret, raise. simpl.
  destruct (a_model (w_agent w)) as [m|] eqn:Hm; simpl; [|done].
  destruct (model_evaluate (model_eval m) _) as [scores|] eqn:Hscores; simpl;
    [|done].
  destruct (softmax_last scores) as [probs|] eqn:Hprobs; simpl; [|done].
  intros [= <- <-]. exists obs, m, batch, scores, probs. simpl.
  do 9 (split; [done|]). split.
  - intros word v Hin. apply fill_dist_items in Hin as [Hold|Hnew]; [|done].
    simpl in Hold. by rewrite lookup_empty in Hold.
  - intros i p. apply fill_dist_lookup.
Qed.

End WordSpec.

(** ** More on __init__ *)

Section BuildSpec.
Context {F : Type} `{!PyFloat F} `{!ParlaiCore F} `{!Torch F} `{!PyOS}.

Lemma clear_answers_replicate (n : nat) :
  clear_answers (replicate n (None : option Answer)) = replicate n None.
Proof. by rewrite clear_answers_spec, length_replicate. Qed.

(** X19. A child instance is built from what its parent shares and from nothing
    else: no file is read and no model is made.  It has the parent's
    options, dictionary and model, the id of the base class, and the
    parent's answers and metrics as [reset] leaves them: every answer
    [None], the counts zero except the skipped batches.  Its truncation,
    report frequency and CUDA flag are read from its own options.  Built for
    evaluation it has no optimizer; built for training it has a fresh one
    when the parent shared no optimizer state, and construction fails with
    [KeyError] when the optimizer's name is not one of [OPTIM_OPTS]. *)
Theorem init_shared (opt0 : Opt F) (sh : Shared) (env : Env) :
  let opt := sh_opt sh in
  (∀ a env', init opt0 (Some sh) env = (Ok a, env') →
     env' = env
     ∧ c_opt (a_conf a) = opt ∧ c_id (a_conf a) = base_id
     ∧ c_dict (a_conf a) = sh_dict sh
     ∧ c_batch_idx (a_conf a) = default 0%nat (sh_batchindex sh)
     ∧ c_truncate (a_conf a)
       = (if 0 <? o_truncate opt0 then Some (o_truncate opt0) else None)
     ∧ c_use_cuda (a_conf a) = init_use_cuda opt0
     ∧ a_answers a = replicate (length (sh_answers sh)) None
     ∧ a_metrics a = mkMetrics f_zero 0 0 (total_skipped_batches (sh_metrics sh))
     ∧ a_observation a = None
     ∧ a_model a
       = Some (if is_training opt && str_endswith "fixed" (o_embedding_type opt)
               then freeze_embeddings opt (sh_model sh) else sh_model sh))
  ∧ (is_training opt = false →
     ∃ a, init opt0 (Some sh) env = (Ok a, env) ∧ a_optimizer a = None
          ∧ a_model a = Some (sh_model sh))
  ∧ (is_training opt = true → o_optimizer opt ∉ OPTIM_OPTS →
     init opt0 (Some sh) env = (Raise (KeyError (o_optimizer opt)), env))
  ∧ (is_training opt = true → o_optimizer opt ∈ OPTIM_OPTS →
     (∀ s, sh_states sh = Some s → st_optimizer s = None) →
     ∃ a, init opt0 (Some sh) env = (Ok a, env)
          ∧ a_optimizer a
            = Some (new_optimizer (o_optimizer opt) (optim_kwargs opt)
                      (if str_endswith "fixed" (o_embedding_type opt)
                       then freeze_embeddings opt (sh_model sh)
                       else sh_model sh))).
Proof.
  intros opt. subst opt. split; [|split; [|split]].
  - intros a env' Hinit.
    unfold init, init_optimizer, bind, get, ret, lift, raise in Hinit.
    unfold is_training, init_use_cuda.
    simpl in Hinit.
    destruct (str_contains "train" _); simpl in Hinit; cases;
      repeat split; try done; apply clear_answers_spec.
  - unfold init, is_training, bind, get, ret, lift, raise. intros Htrain.
    simpl. rewrite Htrain. simpl. eexists. split; [done|]. by split.
  - unfold init, init_optimizer, is_training, bind, get, ret, lift, raise.
    intros Htrain Hnotin. simpl. rewrite Htrain. simpl.
    by rewrite bool_decide_eq_false_2 by done.
  - unfold init, init_optimizer, is_training, bind, get, ret, lift, raise.
    intros Htrain Hin Hstates. simpl. rewrite Htrain. simpl.
    rewrite bool_decide_eq_true_2 by done. simpl.
    destruct (sh_states sh) as [s|]; simpl.
    + rewrite (Hstates s eq_refl). simpl. eexists. by split.
    + eexists. by split.
Qed.

(** X20. With no model file to load ([init_model] and [model_file] missing,
    empty or not files), [__init__] reads nothing: the model is a new one,
    with pre-trained embeddings copied in unless the embeddings are random
    or the tokenizer is bpe, and moved to the GPU under CUDA; there is one
    empty answer for each example of a batch; the metrics are zero; the
    special indices are those of the dictionary; and when the agent trains,
    its optimizer is a fresh one and [clip] is the [gradient_clip] option,
    or -1 without it. *)
Theorem init_fresh (opt0 : Opt F) (env env' : Env) (a : Agent) :
  let opt := with_flags_off opt0 in
  let dict := new_dictionary opt in
  pick_init_model env opt = None →
  init opt0 None env = (Ok a, env') →
  env' = env
  ∧ c_opt (a_conf a) = opt ∧ c_id (a_conf a) = "Transformer"%string
  ∧ c_dict (a_conf a) = dict
  ∧ c_START_IDX (a_conf a) = dict_index dict (start_token dict)
  ∧ c_END_IDX (a_conf a) = dict_index dict (end_token dict)
  ∧ c_NULL_IDX (a_conf a) = dict_index dict (null_token dict)
  ∧ c_batch_idx (a_conf a) = 0%nat
  ∧ c_truncate (a_conf a)
    = (if 0 <? o_truncate opt0 then Some (o_truncate opt0) else None)
  ∧ a_answers a = replicate (o_batchsize opt0) None
  ∧ a_metrics a = mkMetrics f_zero 0 0 0
  ∧ a_observation a = None ∧ a_buffer_initialized a = false
  ∧ (∃ m0 m1,
       new_model (dict_len dict) opt = Ok m0
       ∧ (if bool_decide (o_embedding_type opt = "random"%string)
             || bool_decide (o_dict_tokenizer opt = Some "bpe"%string)
          then m1 = m0 else preinit_embeddings opt m0 = Ok m1)
       ∧ a_model a = Some (placed_model opt0 opt m1)
       ∧ (is_training opt = false →
          a_optimizer a = None ∧ c_clip (a_conf a) = None)
       ∧ (is_training opt = true →
          o_optimizer opt ∈ OPTIM_OPTS
          ∧ a_optimizer a
            = Some (new_optimizer (o_optimizer opt) (optim_kwargs opt)
                      (placed_model opt0 opt m1))
          ∧ c_clip (a_conf a)
            = Some (match o_gradient_clip opt with
                    | Some g => PFloat g
                    | None => PInt (-1)
                    end))).
Proof.
  intros opt dict Hpick Hinit. subst opt dict.
  unfold init, init_optimizer, bind, get, ret, lift, raise in Hinit.
  simpl in Hinit. rewrite Hpick in Hinit. simpl in Hinit.
  fold (init_use_cuda opt0) in Hinit.
  set (opt := with_flags_off opt0) in *.
  destruct (new_model _ opt) as [m0|] eqn:Hnew; simpl in Hinit; [|by simplify_eq].
  unfold placed_model, is_training.
  change (o_dict_tokenizer opt) with (o_dict_tokenizer opt0).
  change (o_embedding_type opt) with (o_embedding_type opt0).
  change (o_datatype opt) with (o_datatype opt0).
  change (o_gradient_clip opt) with (o_gradient_clip opt0).
  change (o_optimizer opt) with (o_optimizer opt0).
  destruct (bool_decide (o_dict_tokenizer opt0 = Some "bpe"%string)) eqn:Hbpe;
    destruct (bool_decide (o_embedding_type opt0 = "random"%string)) eqn:Hrandom;
    simpl in Hinit.
  all: try (destruct (preinit_embeddings opt m0) as [m1|] eqn:Hpre;
            simpl in Hinit; [|by simplify_eq]).
  all: destruct (str_contains "train" _) eqn:Htrain; simpl in Hinit.
  all: try (destruct (bool_decide (o_optimizer opt0 ∈ OPTIM_OPTS)) eqn:Hopt;
            simpl in Hinit; [apply bool_decide_eq_true_1 in Hopt|by simplify_eq]).
  all: simplify_eq/=.
  all: do 9 (split; [done|]).
  all: split; [apply clear_answers_replicate|].
  all: do 3 (split; [done|]).
  all: match goal with
       | Hpre : preinit_embeddings _ _ = Ok ?m1 |- _ => exists m0, m1
       | _ => exists m0, m0
       end; repeat split; done.
Qed.

(** X21. An agent built for evaluation (no [train] in its datatype) has a model
    and neither optimizer nor [clip]: a training step on it raises
    [AttributeError] before the model is called, and [shutdown] saves
    nothing. *)
Theorem init_for_evaluation (opt0 : Opt F) (shared : option Shared)
    (env env' : Env) (a : Agent) :
  init opt0 shared env = (Ok a, env') →
  is_training (match shared with Some sh => sh_opt sh | None => opt0 end) = false →
  is_Some (a_model a) ∧ a_optimizer a = None ∧ c_clip (a_conf a) = None
  ∧ (∀ xs ys cands valid_cands e,
       fst (predict xs ys cands valid_cands true (mkWorld a e))
       = Raise (AttributeError "optimizer"))
  ∧ (∀ e, shutdown (mkWorld a e) = (Ok tt, mkWorld a e)).
Proof.
  intros Hinit Htrain. unfold is_training in Htrain.
  assert (Hfields : is_Some (a_model a) ∧ a_optimizer a = None
                    ∧ c_clip (a_conf a) = None).
  { unfold init, init_optimizer, load, with_model_dict, bind, get, ret, lift,
      raise in Hinit.
    simpl in Hinit.
    destruct shared as [sh|]; simpl in *.
    - rewrite Htrain in Hinit. simpl in Hinit. by simplify_eq/=.
    - cases; try congruence; by eauto. }
  destruct Hfields as ([m Hm] & Ho & Hclip). do 3 (split; [by eauto|]). split.
  - intros xs ys cands valid_cands e.
    by apply (predict_train_stops xs ys cands valid_cands (mkWorld a e) m).
  - intros e. by apply shutdown_without_optimizer.
Qed.

Lemma with_model_dict_optimizer (env : Env) (p : string) (opt : Opt F) :
  o_optimizer (with_model_dict env p opt) = o_optimizer opt.
Proof. unfold with_model_dict. by destruct (_ || _). Qed.

(** X22. Saving and building anew.  An agent with a model and an optimizer
    saves to its [model_file]; the path and the one with [.opt] appended can
    be opened and name two files.  Then [save] returns, and an [__init__]
    with the agent's options on the files it left returns as well, whenever
    the model can be built and takes the saved parameters: the new agent
    has the model that [load_state_dict] made of the saved [state_dict]
    and, when it trains, the optimizer that took the saved optimizer state,
    which is of the configured type; where the optimizer refuses the state
    with a [ValueError] the new agent has the fresh optimizer, and any other
    error of that load is raised. *)
Theorem save_init_roundtrip (w : World) (p : string) (m m0 m1 : Model)
    (o : Optimizer) :
  let opt0 := c_opt (a_conf (w_agent w)) in
  o_model_file opt0 = Some p → str_truthy p = true →
  a_model (w_agent w) = Some m → a_optimizer (w_agent w) = Some o →
  open_wb p = None → open_wb (p +:+ ".opt") = None →
  realpath p ≠ realpath (p +:+ ".opt") →
  ∃ w1,
    save None w = (Ok tt, w1)
    ∧ let env' := w_env w1 in
      let opt := loaded_opt env' p opt0 in
      new_model (dict_len (new_dictionary opt)) opt = Ok m0 →
      model_load_state_dict m0 (model_state_dict m) = Ok m1 →
      let model := placed_model opt0 opt m1 in
      let fresh := new_optimizer (o_optimizer opt) (optim_kwargs opt) model in
      (is_training opt = false →
       ∃ a, init opt0 None env' = (Ok a, env')
            ∧ a_model a = Some model ∧ a_optimizer a = None)
      ∧ (is_training opt = true → o_optimizer opt ∈ OPTIM_OPTS →
         match optimizer_load_state_dict fresh (optimizer_state_dict o) with
         | Ok restored =>
             ∃ a, init opt0 None env' = (Ok a, env')
                  ∧ a_model a = Some model
                  ∧ a_optimizer a = Some (placed_optimizer opt0 restored)
         | Raise (ValueError _) =>
             ∃ a, init opt0 None env' = (Ok a, env')
                  ∧ a_model a = Some model
                  ∧ a_optimizer a = Some (placed_optimizer opt0 fresh)
         | Raise e => init opt0 None env' = (Raise e, env')
         end).
Proof.
  intros opt0 Hfile Htruthy Hm Ho Hopen1 Hopen2 Hdiff.
  assert (Hpath : effective_path None (w_agent w) = Some p) by done.
  rewrite (save_unfold None w p m o Hpath Htruthy Hm Ho).
  unfold bind, write_file. rewrite Hopen1. simpl. rewrite Hopen2.
  eexists. split; [done|]. simpl. fold opt0.
  set (env' := mkEnv _ _). intros Hnew Hload.
  assert (Hsaved : e_fs env' !! realpath p
                   = Some (FStates (saved_states opt0 m o))).
  { subst env'. cbn [e_fs]. rewrite lookup_insert_ne by done.
    apply lookup_insert_eq. }
  assert (Hpick : pick_init_model env' (with_flags_off opt0) = Some p).
  { unfold pick_init_model, isfile.
    change (o_model_file (with_flags_off opt0)) with (o_model_file opt0).
    rewrite Hfile, Htruthy, Hsaved. by rewrite bool_decide_eq_true_2. }
  destruct (init_from_file_returns opt0 env' p _ m0 m1 _ Hpick Hsaved Hnew
              eq_refl Hload) as [Heval Htrain].
  split; [exact Heval|]. intros Ht Hin.
  specialize (Htrain Ht Hin (o_optimizer opt0) eq_refl). simpl in Htrain.
  assert (Hsame : o_optimizer opt0 = o_optimizer (loaded_opt env' p opt0)).
  { unfold loaded_opt. by rewrite with_model_dict_optimizer. }
  rewrite (bool_decide_eq_true_2 _ Hsame) in Htrain. exact Htrain.
Qed.

End BuildSpec.

(** ** Evaluation updates nothing; share *)

Section EvalSpec.
Context {F : Type} `{!PyFloat F} `{!ParlaiCore F} `{!Torch F} `{!PyOS}.

Ltac run_e :=
  unfold init_cuda_buffer, call_model, the_model, bind, get_agent, upd_agent,
    log, lift, ret, raise in *;
  simpl in *.

Ltac solve_nu :=
  split; simpl; [done|];
  first [ by exists []; rewrite app_nil_r; repeat split; apply not_elem_of_nil
        | eexists; split; [by rewrite <- ?app_assoc |];
          rewrite ?not_elem_of_app, ?not_elem_of_cons;
          repeat split; solve [done | apply not_elem_of_nil] ].

Lemma no_update_refl (w : World) : no_update w w.
Proof. solve_nu. Qed.

Lemma no_update_trans (w1 w2 w3 : World) :
  no_update w1 w2 → no_update w2 w3 → no_update w1 w3.
Proof.
  intros [Ho1 (evs1 & Ht1 & Hs1 & Hz1)] [Ho2 (evs2 & Ht2 & Hs2 & Hz2)].
  split; [congruence|]. exists (evs1 ++ evs2).
  rewrite Ht2, Ht1, app_assoc. split; [done|].
  rewrite !not_elem_of_app. by repeat split.
Qed.

Lemma init_cuda_buffer_no_update (n : nat) (w w' : World) r :
  init_cuda_buffer n w = (r, w') → no_update w w'.
Proof. run_e. intros Hrun. cases; solve_nu. Qed.

Lemma predict_eval_no_update (xs : Tensor) (ys : option Tensor)
    (cands : option (list Tensor)) (valid_cands : option (list nat))
    (w w' : World) r :
  predict xs ys cands valid_cands false w = (r, w') → no_update w w'.
Proof.
  unfold predict. rewrite predicted_unbound. run_e. intros Hrun.
  cases; solve_nu.
Qed.

Lemma store_cands_pure cand_preds valid_cands idxs
    (replies : list (gmap string (pyval F))) (w : World) :
  snd (store_cands cand_preds valid_cands idxs replies w) = w.
Proof.
  revert replies. induction idxs as [|i rest IH]; intros replies; simpl; [done|].
  unfold bind at 1, lift at 1.
  destruct (py_getitem cand_preds i) as [order|]; [|done].
  unfold bind at 1, lift at 1.
  destruct (py_getitem valid_cands i) as [vc|]; [|done].
  unfold bind at 1, lift at 1.
  destruct (py_getitem replies (fst vc)) as [curr|]; [|done].
  unfold bind at 1.
  pose proof (select_cands_pure (snd vc) order w) as Hsel.
  destruct (select_cands _ _ w) as [[tc|] w1]; simpl in Hsel; subst w1; [|done].
  apply IH.
Qed.

(** X23. A batch in which no observation has labels updates no parameter,
    however [batch_act] ends: the optimizer is the one it was, and neither
    [zero_grad] nor an optimizer step was called. *)
Theorem batch_act_eval_no_update (obs : list Observation) (w w' : World) r :
  existsb has_labels obs = false →
  batch_act obs w = (r, w') →
  no_update w w'.
Proof.
  intros Heval. unfold batch_act. unfold bind at 1.
  destruct (init_cuda_buffer _ w) as [[[]|] w0] eqn:Hinit;
    apply init_cuda_buffer_no_update in Hinit; [|by intros [= <- <-]].
  unfold bind at 1, get_agent at 1. unfold bind at 1.
  destruct (vectorize obs w0) as [[[b|]|] w1] eqn:Hvec.
  2, 3: apply vectorize_spec in Hvec as [-> _]; by intros [= <- <-].
  pose proof (vectorize_mode _ _ _ _ Hvec) as Hmode.
  apply vectorize_spec in Hvec as [-> _].
  rewrite Hmode, Heval. unfold bind at 1.
  destruct (predict _ _ _ _ false w0) as [[[predictions cand_preds]|] w2] eqn:Hpred;
    apply predict_eval_no_update in Hpred;
    [|intros [= <- <-]; by eapply no_update_trans].
  simpl. unfold bind at 1.
  set (filled := match predictions with Some _ => _ | None => _ end).
  assert (Hfilled : no_update w2 (snd (filled w2))).
  { subst filled. destruct predictions as [p|]; [|apply no_update_refl].
    unfold bind at 1, get_agent at 1.
    destruct (map_predictions _ _ _ _ _ _ _ _ _ _) as [r1 [replies answers]].
    unfold bind, upd_agent, lift, ret. simpl. destruct r1; solve_nu. }
  destruct (filled w2) as [[replies1|] w3]; simpl in Hfilled.
  - destruct cand_preds as [cp|].
    + intros Hstore. pose proof (store_cands_pure cp
        match b_valid_cands b with
        | Some vc => map (λ t, (snd (fst t), Some (snd t))) vc
        | None => map (λ i, (i, b_labels b)) (b_valid_inds b)
        end
        (seq 0 (length match b_valid_cands b with
                       | Some vc => map (λ t, (snd (fst t), Some (snd t))) vc
                       | None => map (λ i, (i, b_labels b)) (b_valid_inds b)
                       end)) replies1 w3) as Hpure.
      rewrite Hstore in Hpure. simpl in Hpure. subst w'.
      eapply no_update_trans; [done|]. by eapply no_update_trans.
    + intros [= <- <-]. eapply no_update_trans; [done|]. by eapply no_update_trans.
  - intros [= <- <-]. eapply no_update_trans; [done|]. by eapply no_update_trans.
Qed.

(** X24. What [share] returns builds a child that has the parent's options,
    dictionary, special indices and model (with its embeddings frozen where
    a training child fixes them), as many answers as the parent, each
    [None], and the parent's count of skipped batches.  The parent shares
    at most the name of its optimizer, never its state: a training child
    starts from a fresh optimizer. *)
Theorem share_init (numthreads : option Z) (parent a : Agent) (sh : Shared)
    (opt0 : Opt F) (env env' : Env) :
  share numthreads parent = Ok sh →
  init opt0 (Some sh) env = (Ok a, env') →
  let c := a_conf parent in
  let opt := c_opt c in
  env' = env
  ∧ c_opt (a_conf a) = opt ∧ c_dict (a_conf a) = c_dict c
  ∧ c_START_IDX (a_conf a) = c_START_IDX c ∧ c_END_IDX (a_conf a) = c_END_IDX c
  ∧ c_NULL_IDX (a_conf a) = c_NULL_IDX c
  ∧ a_answers a = replicate (length (a_answers parent)) None
  ∧ a_metrics a
    = mkMetrics f_zero 0 0 (total_skipped_batches (a_metrics parent))
  ∧ (∃ m, a_model parent = Some m
          ∧ a_model a
            = Some (if is_training opt && str_endswith "fixed" (o_embedding_type opt)
                    then freeze_embeddings opt m else m)
          ∧ (is_training opt = false → a_optimizer a = None)
          ∧ (is_training opt = true →
             a_optimizer a
             = Some (new_optimizer (o_optimizer opt) (optim_kwargs opt)
                       (if str_endswith "fixed" (o_embedding_type opt)
                        then freeze_embeddings opt m else m)))).
Proof.
  unfold share. destruct (a_model parent) as [m|] eqn:Hm; [|done].
  intros [= <-] Hinit.
  unfold init, init_optimizer, is_training, bind, get, ret, lift, raise in *.
  simpl in Hinit.
  destruct (str_contains "train" _) eqn:Htrain; simpl in Hinit; cases;
    (do 6 (split; [done|])); (split; [apply clear_answers_spec|]);
    (split; [done|]); exists m; by repeat split.
Qed.

End EvalSpec.

(** ** Runs on the small instance *)

(** The training agent saves, and an agent built from the files it left has
    its parameters and its optimizer state. *)
Lemma save_init_roundtrip_witness :
  ∃ w1,
    save None (demo_world (demo_trainer 5)) = (Ok tt, w1)
    ∧ ∃ a, init (demo_opt "train") None (w_env w1) = (Ok a, w_env w1)
           ∧ a_model a = Some (mkDemoModel 5 false)
           ∧ a_optimizer a = Some (mkDemoOptimizer "sgd" 0).
Proof.
  assert (Hdiff : realpath "/tmp/model" ≠ realpath ("/tmp/model" +:+ ".opt"))
    by discriminate.
  assert (Hin : ("sgd" : string) ∈ OPTIM_OPTS) by (by compute_done).
  assert (Hopen : open_wb "/tmp/model" = None
                  ∧ open_wb ("/tmp/model" +:+ ".opt") = None) by (by split).
  destruct (save_init_roundtrip (demo_world (demo_trainer 5)) "/tmp/model"
              (mkDemoModel 5 false) (mkDemoModel 9 false) (mkDemoModel 5 false)
              (mkDemoOptimizer "sgd" 0)
              eq_refl eq_refl eq_refl eq_refl (proj1 Hopen) (proj2 Hopen) Hdiff)
    as (w1 & Hsave & Hinit).
  exists w1. split; [exact Hsave|].
  injection Hsave as <-.
  destruct (Hinit eq_refl eq_refl) as [_ Htrain].
  exact (Htrain eq_refl Hin).
Defined.

(** The warm-up of the GPU agent runs once. *)
Lemma init_cuda_buffer_once_witness :
  a_buffer_initialized (w_agent demo_warm) = true
  ∧ init_cuda_buffer 7 demo_warm = (Ok tt, demo_warm).
Proof.
  split; [reflexivity|].
  exact (init_cuda_buffer_once 2 7 (demo_world (demo_cuda_trainer 5)) demo_warm
           eq_refl).
Defined.

(** A model that runs out of memory in the warm-up: the error names the
    batch size 2 and the sequence length 3. *)
Lemma init_cuda_buffer_oom_witness :
  ∃ w',
    init_cuda_buffer 2 (demo_world (demo_cuda_trainer 667))
    = (Raise (RuntimeError (cuda_oom_message 2 3)), w')
    ∧ a_buffer_initialized (w_agent w') = false.
Proof.
  destruct (init_cuda_buffer_oom 2 (demo_world (demo_cuda_trainer 667))
              (mkDemoModel 667 false) "CUDA out of memory"
              eq_refl eq_refl eq_refl eq_refl) as (w' & Hrun & Hflag & _).
  exists w'. split; [exact Hrun | exact Hflag].
Defined.

(** The evaluation agent cannot take a training step. *)
Lemma predict_train_without_optimizer_witness :
  ∃ w',
    predict demo_xs (Some demo_ys) None None true (demo_world demo_evaluator)
    = (Raise (AttributeError "optimizer"), w')
    ∧ e_trace (w_env w') = [EvTrain].
Proof.
  destruct (predict_train_without_optimizer demo_xs (Some demo_ys) None None
              (demo_world demo_evaluator) (mkDemoModel 5 false) eq_refl eq_refl)
    as (w' & Hrun & _ & _ & Htrace).
  exists w'. split; [exact Hrun | exact Htrace].
Defined.

(** A training step of the model with weights 5: two target tokens, both
    correct, and one optimizer step. *)
Lemma predict_train_step_witness :
  ∃ w',
    predict demo_xs (Some demo_ys) None None true (demo_world (demo_trainer 5))
    = (Ok (None, None), w')
    ∧ a_metrics (w_agent w') = mkMetrics (Fin 20000000) 2 2 0
    ∧ a_model (w_agent w') = Some (mkDemoModel 6 true)
    ∧ a_optimizer (w_agent w') = Some (mkDemoOptimizer "sgd" 1).
Proof.
  destruct (predict_train_step demo_xs demo_ys None None
              (demo_world (demo_trainer 5)) (mkDemoModel 5 false)
              (mkDemoModel 5 true) (mkDemoModel 5 true)
              (mkDemoOptimizer "sgd" 0) (mkDemoOptimizer "sgd" 0)
              (PFloat (Fin 1000000)) demo_ys [] None tt (2, 0) 2
              eq_refl eq_refl eq_refl eq_refl eq_refl eq_refl eq_refl eq_refl)
    as (w' & Hrun & Hmetrics & Hopt & Hmodel & _).
  exists w'. split; [exact Hrun|]. split; [exact Hmetrics|].
  split; [exact Hmodel | exact Hopt].
Defined.

(** A training step of the model with weights 13, whose backward pass runs
    out of memory: the batch is skipped and still counted. *)
Lemma predict_skipped_batch_counted_witness :
  ∃ w',
    predict demo_xs (Some demo_ys) None None true (demo_world (demo_trainer 13))
    = (Ok (None, None), w')
    ∧ a_metrics (w_agent w') = mkMetrics (Fin 20000000) 2 2 1.
Proof.
  destruct (predict_skipped_batch_counted demo_xs demo_ys None None
              (demo_world (demo_trainer 13)) (mkDemoModel 13 false)
              (mkDemoModel 13 true) (mkDemoModel 13 true)
              (mkDemoOptimizer "sgd" 0) (mkDemoOptimizer "sgd" 0)
              demo_ys [] None tt (2, 0) 2
              "CUDA out of memory. Tried to allocate 2 GiB"
              eq_refl eq_refl eq_refl eq_refl eq_refl eq_refl eq_refl eq_refl)
    as (w' & Hrun & Hmetrics & _).
  exists w'. split; [exact Hrun | exact Hmetrics].
Defined.

(** An evaluation step with labels on the evaluation agent. *)
Lemma predict_eval_labelled_witness :
  ∃ w',
    predict demo_xs (Some demo_ys) None None false (demo_world demo_evaluator)
    = (Ok (Some demo_ys, None), w')
    ∧ a_metrics (w_agent w') = mkMetrics (Fin 20000000) 2 0 0
    ∧ e_trace (w_env w') = [EvEval; EvForward; EvCalPerformance].
Proof.
  destruct (predict_eval_labelled demo_xs demo_ys None None
              (demo_world demo_evaluator) (mkDemoModel 5 false)
              demo_ys [] None tt (2, 0) 2 eq_refl eq_refl eq_refl eq_refl)
    as (w' & Hrun & Hmetrics & _ & _ & _ & Htrace).
  exists w'. split; [exact Hrun|]. split; [exact Hmetrics | exact Htrace].
Defined.

(** A preprocessed observation of four indices on an agent that truncates
    to three. *)
Lemma observe_preprocessed_witness :
  fst (observe (mkObs None (Some [4; 5; 6; 7]) None None None true)
         (demo_world (demo_cuda_trainer 5)))
  = Ok (mkObs None (Some [5; 6; 7]) None None None true).
Proof.
  destruct (observe_preprocessed
              (mkObs None (Some [4; 5; 6; 7]) None None None true) [4; 5; 6; 7]
              (demo_world (demo_cuda_trainer 5)) eq_refl eq_refl
              (le_S _ _ (le_n 1))) as (Hrun & _).
  exact (f_equal fst Hrun).
Defined.

(** An agent with no answer slot cannot observe. *)
Lemma observe_index_error_witness :
  observe (demo_obs "you" None) (demo_world (set_answers [] demo_evaluator))
  = (Raise (IndexError "list index out of range"),
     demo_world (set_answers [] demo_evaluator)).
Proof.
  exact (observe_index_error (demo_obs "you" None)
           (demo_world (set_answers [] demo_evaluator)) (le_n 0)).
Defined.

(** A labelled observation makes a training batch without candidates. *)
Lemma vectorize_batch_witness :
  match fst (vectorize [demo_obs "hello world" (Some ["how are you"%string])]
               (demo_world (demo_trainer 5))) with
  | Ok (Some b) => b_is_training b = true ∧ b_cands b = None
  | _ => False
  end.
Proof.
  match goal with
  | |- match fst ?run with _ => _ end =>
      assert (Hok : is_ok (fst run) = true) by reflexivity;
      assert (Hsome : is_Some (default None (match fst run with Ok b => Some b | _ => None end)))
        by (by eexists);
      destruct run as [[[b|]|e] w'] eqn:Hrun
  end; try done.
  destruct (vectorize_batch _ _ _ _ Hrun) as (Hmode & _ & _ & _ & Hcands & _).
  split; [exact Hmode | exact (proj1 (Hcands (or_introl eq_refl)))].
Defined.

(** A training batch on the training agent: one reply with the id and no
    text, and the answers as they were. *)
Lemma batch_act_training_witness :
  match batch_act [demo_obs "hello world" (Some ["how are you"%string])]
          (demo_world (demo_trainer 5)) with
  | (Ok replies, w') =>
      a_answers (w_agent w') = [Some "hello"%string; None]
      ∧ length replies = 1%nat
      ∧ Forall (no_text "Transformer") replies
  | _ => False
  end.
Proof.
  match goal with
  | |- match ?run with _ => _ end =>
      assert (Hok : is_ok (fst run) = true) by reflexivity;
      destruct run as [[replies|e] w'] eqn:Hrun
  end; [|done].
  exact (batch_act_training
           [demo_obs "hello world" (Some ["how are you"%string])]
           (demo_world (demo_trainer 5)) w' replies eq_refl Hrun).
Defined.

(** The evaluation agent answers the observation it holds. *)
Lemma act_reply_witness :
  match fst (act (demo_world demo_examinee)) with
  | Ok r => has_id "Transformer" r
  | Raise _ => False
  end.
Proof.
  match goal with
  | |- match fst ?run with _ => _ end =>
      assert (Hok : is_ok (fst run) = true) by reflexivity;
      destruct run as [[r|e] w'] eqn:Hrun
  end; [|done].
  destruct (act_reply (demo_world demo_examinee) demo_map_predictions_keeps_ids)
    as (Hbatch & Hret & _).
  destruct (Hret r w' Hrun) as (ob & Hob & Hrun1).
  destruct (Hbatch ob [r] w' Hob Hrun1) as (r0 & [= <-] & _ & Hid).
  exact Hid.
Defined.

(** The distribution of the evaluation agent: the first dictionary token
    has the first probability. *)
Lemma next_word_probability_dist_witness :
  match next_word_probability ["hello"%string] (demo_world demo_listener) with
  | (Ok dist, _) => dd_items dist !! "__NULL__" = Some (PFloat (Fin 6000000))
  | _ => False
  end.
Proof.
  match goal with
  | |- match ?run with _ => _ end =>
      assert (Hok : is_ok (fst run) = true) by reflexivity;
      destruct run as [[dist|e] w'] eqn:Hrun
  end; [|done].
  destruct (next_word_probability_dist _ _ _ _ Hrun)
    as (obs & m & batch & scores & probs & _ & _ & _ & _ & _ & _ & _ & Hscores
        & Hprobs & _ & Hlookup).
  injection Hscores as <-. injection Hprobs as <-.
  apply (Hlookup 0%nat (Fin 6000000) eq_refl).
  intros [|[|j]] Hj; simpl in Hj; [lia|done|lia].
Defined.

(** The training agent built with no model file. *)
Lemma init_fresh_witness :
  match init (demo_opt "train") None demo_env with
  | (Ok a, _) =>
      a_answers a = [None; None] ∧ a_metrics a = mkMetrics (Fin 0) 0 0 0
      ∧ c_id (a_conf a) = "Transformer"%string
  | _ => False
  end.
Proof.
  match goal with
  | |- match ?run with _ => _ end =>
      assert (Hok : is_ok (fst run) = true) by reflexivity;
      destruct run as [[a|e] env'] eqn:Hrun
  end; [|done].
  destruct (init_fresh (demo_opt "train") demo_env env' a eq_refl Hrun)
    as (_ & _ & Hid & _ & _ & _ & _ & _ & _ & Hanswers & Hmetrics & _).
  split; [exact Hanswers|]. split; [exact Hmetrics | exact Hid].
Defined.

(** The agent built for validation has no optimizer. *)
Lemma init_for_evaluation_witness :
  match init (demo_opt "valid") None demo_env with
  | (Ok a, _) => a_optimizer a = None
  | _ => False
  end.
Proof.
  match goal with
  | |- match ?run with _ => _ end =>
      assert (Hok : is_ok (fst run) = true) by reflexivity;
      destruct run as [[a|e] env'] eqn:Hrun
  end; [|done].
  destruct (init_for_evaluation (demo_opt "valid") None demo_env env' a Hrun
              eq_refl) as (_ & Hopt & _).
  exact Hopt.
Defined.

(** An evaluation batch on the training agent leaves its optimizer alone. *)
Lemma batch_act_eval_no_update_witness :
  a_optimizer
    (w_agent (snd (batch_act
                     [mkObs (Some "hello"%string) (Some [4]) None
                        (Some ["world"%string]) None false]
                     (demo_world (demo_trainer 5)))))
  = Some (mkDemoOptimizer "sgd" 0).
Proof.
  destruct (batch_act_eval_no_update
              [mkObs (Some "hello"%string) (Some [4]) None
                 (Some ["world"%string]) None false]
              (demo_world (demo_trainer 5)) _ _ eq_refl
              (surjective_pairing _)) as [Hopt _].
  exact Hopt.
Defined.

(** A child of the training agent in a multi-threaded run. *)
Lemma share_init_witness :
  match init (demo_opt "train") (Some demo_hogwild_shared) demo_env with
  | (Ok a, _) =>
      a_answers a = [None; None]
      ∧ a_optimizer a = Some (mkDemoOptimizer "sgd" 0)
  | _ => False
  end.
Proof.
  match goal with
  | |- match ?run with _ => _ end =>
      assert (Hok : is_ok (fst run) = true) by reflexivity;
      destruct run as [[a|e] env'] eqn:Hrun
  end; [|done].
  destruct (share_init (Some 2) (demo_trainer 5) a demo_hogwild_shared
              (demo_opt "train") demo_env env' eq_refl Hrun)
    as (_ & _ & _ & _ & _ & _ & Hanswers & _ & m & [= <-] & _ & _ & Htrain).
  split; [exact Hanswers | exact (Htrain eq_refl)].
Defined.

(** What follows the end index does not reach the text. *)
Lemma v2t_cut_and_clean_witness :
  v2t demo_evaluator ([4; 5] ++ 2 :: [6]) = v2t demo_evaluator [4; 5].
Proof.
  apply (proj1 (v2t_cut_and_clean demo_evaluator [4; 5] [6])).
  by compute_done.
Defined.

(** The training agent shuts down: its state lands next to the model
    file. *)
Lemma shutdown_saves_aside_witness :
  ∃ fs,
    shutdown (demo_world (demo_trainer 5))
    = (Ok tt, mkWorld (demo_trainer 5) (mkEnv fs []))
    ∧ fs !! "/tmp/model.shutdown_state"
      = Some (FStates (saved_states (demo_opt "train") (mkDemoModel 5 false)
                         (mkDemoOptimizer "sgd" 0)))
    ∧ fs !! "/tmp/model" = None.
Proof.
  destruct (proj1 (shutdown_saves_aside (demo_world (demo_trainer 5)))
              "/tmp/model" (mkDemoModel 5 false) (mkDemoOptimizer "sgd" 0)
              eq_refl eq_refl eq_refl) as [Hwritten _].
  destruct (Hwritten eq_refl eq_refl) as (fs & Hrun & _ & Hstate & Hframe).
  exists fs. split; [exact Hrun|]. split.
  - apply Hstate. discriminate.
  - apply (Hframe "/tmp/model"); discriminate.
Defined.

(** A training child of the multi-threaded run gets a fresh optimizer. *)
Lemma init_shared_witness :
  ∃ a,
    init (demo_opt "train") (Some demo_hogwild_shared) demo_env = (Ok a, demo_env)
    ∧ a_optimizer a = Some (mkDemoOptimizer "sgd" 0).
Proof.
  destruct (init_shared (demo_opt "train") demo_hogwild_shared demo_env)
    as (_ & _ & _ & Htrain).
  assert (Hin : o_optimizer (sh_opt demo_hogwild_shared) ∈ OPTIM_OPTS)
    by (by compute_done).
  destruct (Htrain eq_refl Hin) as (a & Hrun & Hopt).
  { by intros s [= <-]. }
  exists a. split; [exact Hrun | exact Hopt].
Defined.
